(** * IDJC: the libav decoder and the live WebM encoder

    A shallow embedding of [c/avcodecdecode.c] and [c/live_webm_encoder.c].
    Both files are glue around libavcodec / libavformat / libswresample and
    libsamplerate.  The C code is embedded as functions in a state-and-fault
    monad over an explicit [world]; every call into an external library is
    given the behaviour its documentation states, and whatever the library
    decides on its own (whether an allocation succeeds, which error code comes
    back, how many times the muxer calls the write callback) is an input of
    the embedding, collected in an environment record.  Diagnostics printed on
    stderr are not part of the model. *)

From Stdlib Require Import ZArith Bool List Lia.
From Stdlib Require Import Floats.SpecFloat.
From stdpp Require Import base option list gmap strings.

Local Open Scope Z_scope.

(** ** C floating point

    [float] is IEEE-754 binary32 and [double] binary64; both are carried by
    [spec_float], with the precision chosen at each operation. *)
Module CFloat.

Definition float := spec_float.
Definition double := spec_float.

(** [(float) z] for an integer [z]: round to nearest even. *)
Definition float_of_int (z : Z) : float := binary_normalize 24 128 z 0 false.

(** [(double) z] for an integer [z]. *)
Definition double_of_int (z : Z) : double := binary_normalize 53 1024 z 0 false.

(** [(float) x] for a double [x]. *)
Definition float_of_double (x : double) : float :=
  match x with
  | S754_finite s m e => binary_round 24 128 s m e
  | _ => x
  end.

Definition float_div : float -> float -> float := SFdiv 24 128.
Definition float_sub : float -> float -> float := SFsub 24 128.
Definition double_div : double -> double -> double := SFdiv 53 1024.
Definition double_mul : double -> double -> double := SFmul 53 1024.
Definition double_add : double -> double -> double := SFadd 53 1024.

(** [(size_t) x] for a double [x]: the value truncated toward zero;
    undefined when [x] is not finite or the result does not fit 64 bits. *)
Definition double_to_size_t (x : double) : option Z :=
  match x with
  | S754_zero _ => Some 0
  | S754_finite s m e =>
      let v := match e with
               | Z0 => Zpos m
               | Zpos p => Zpos m * 2 ^ Zpos p
               | Zneg p => Zpos m / 2 ^ Zpos p
               end in
      if s then (if v =? 0 then Some 0 else None)
      else if v <? 2 ^ 64 then Some v else None
  | _ => None
  end.

(** The literals [32768.0f] and [1073741824.0f]. *)
Definition f32768 : float := float_of_int 32768.
Definition f1073741824 : float := float_of_int 1073741824.

End CFloat.

(** ** What both modules share: handles, the advisory mutex, libav enums *)

(** A pointer is [None] (NULL) or a handle into the heap of library objects. *)
Definition handle := nat.
Definition ptr := option handle.

(** enum AVSampleFormat (libavutil/samplefmt.h). *)
Inductive AVSampleFormat :=
| AV_SAMPLE_FMT_NONE
| AV_SAMPLE_FMT_U8 | AV_SAMPLE_FMT_S16 | AV_SAMPLE_FMT_S32
| AV_SAMPLE_FMT_FLT | AV_SAMPLE_FMT_DBL
| AV_SAMPLE_FMT_U8P | AV_SAMPLE_FMT_S16P | AV_SAMPLE_FMT_S32P
| AV_SAMPLE_FMT_FLTP | AV_SAMPLE_FMT_DBLP.

Inductive AVMediaType :=
| AVMEDIA_TYPE_VIDEO | AVMEDIA_TYPE_AUDIO | AVMEDIA_TYPE_DATA
| AVMEDIA_TYPE_SUBTITLE | AVMEDIA_TYPE_ATTACHMENT.

(** libavutil/channel_layout.h *)
Definition AV_CH_LAYOUT_MONO : Z := 4.
Definition AV_CH_LAYOUT_STEREO : Z := 3.
Definition AV_CH_LAYOUT_STEREO_DOWNMIX : Z := 1610612736.
(** libavformat/avformat.h, libavcodec/avcodec.h *)
Definition AVFMT_GLOBALHEADER : Z := 64.
Definition AV_CODEC_FLAG_GLOBAL_HEADER : Z := Z.shiftl 1 22.
Definition AV_CODEC_CAP_VARIABLE_FRAME_SIZE : Z := Z.shiftl 1 16.

(** What one thread does that the other threads can see of it around the
    codec open/close API: taking and releasing [g.avc_mutex], and entering
    [avcodec_open2] and [avcodec_close]. *)
Inductive sync_event := EvLock | EvUnlock | EvOpen2 | EvClose.

(** [guarded held t]: scanning [t] from a thread that holds the mutex iff
    [held], no [avcodec_open2] or [avcodec_close] is entered with the mutex
    not held. *)
Fixpoint guarded (held : bool) (t : list sync_event) : bool :=
  match t with
  | [] => true
  | EvLock :: t' => guarded true t'
  | EvUnlock :: t' => guarded false t'
  | EvOpen2 :: t' => held && guarded held t'
  | EvClose :: t' => held && guarded held t'
  end.

(** Whether the thread holds the mutex after [t]. *)
Definition held_after (held : bool) (t : list sync_event) : bool :=
  fold_left (fun h e => match e with
                        | EvLock => true | EvUnlock => false | _ => h end) t held.

(** ** The monad: state over a world, [None] for a fault

    A computation faults where the C program has no defined behaviour to
    model: a NULL or dangling pointer is dereferenced or freed, or the
    program aborts. *)
Definition SFM (W A : Type) : Type := W -> option (A * W).

#[export] Instance SFM_ret {W} : MRet (SFM W) := fun A a w => Some (a, w).
#[export] Instance SFM_bind {W} : MBind (SFM W) := fun A B f m w =>
  match m w with
  | Some (a, w') => f a w'
  | None => None
  end.

Definition fault {W A} : SFM W A := fun _ => None.
Definition modify_world {W} (f : W -> W) : SFM W unit := fun w => Some (tt, f w).

Fixpoint for_each {W A} (f : A -> SFM W unit) (l : list A) : SFM W unit :=
  match l with
  | [] => mret tt
  | a :: l' => f a;; for_each f l'
  end.

(** ** live_webm_encoder.c *)
Module Encoder.

(** *** Declarations the file takes from headers *)

(** Modelled from the spec: [enum encoder_state] is declared in
    [sourceclient.h]/[encoder.h], which are not among the sources.  The
    constructors are the four enumerators that [live_webm_encoder_main] tests
    or assigns, the four stages of the encoder life cycle of the glossary. *)
Inductive encoder_state_t := ES_STOPPED | ES_STARTING | ES_RUNNING | ES_STOPPING.

(** Position of a state in the progression
    STARTING -> RUNNING -> STOPPING -> STOPPED. *)
Definition stage (s : encoder_state_t) : nat :=
  match s with
  | ES_STARTING => 0 | ES_RUNNING => 1 | ES_STOPPING => 2 | ES_STOPPED => 3
  end%nat.

(** [encoder->data_format.codec]: [setup] has a case for Vorbis and one for
    Opus; [ENCODER_CODEC_UNHANDLED] stands for every enumerator that takes the
    [default:] branch. *)
Inductive encoder_codec :=
| ENCODER_CODEC_UNHANDLED | ENCODER_CODEC_VORBIS | ENCODER_CODEC_OPUS.

(** The two results [SUCCEEDED] and [FAILED] of [sourceclient.h]. *)
Inductive status := FAILED | SUCCEEDED.

Inductive AVCodecID := AV_CODEC_ID_VORBIS | AV_CODEC_ID_OPUS.

(** [enum packet_flags] is declared in a header that is not among the
    sources: the values of the five flags the file uses are parameters of the
    development. *)
Class packet_flag_values := {
  PF_INITIAL : Z;
  PF_FINAL : Z;
  PF_HEADER : Z;
  PF_WEBM : Z;
  PF_SUPPRESS : Z
}.

(** The one function ever stored in [encoder->run_encoder] by this file. *)
Inductive run_encoder_fn := Live_webm_encoder_main.

(** The two [WebMState] blocks [live_webm_encoder_init] allocates: the one
    [encoder->encoder_private] points to, and the one its [metadata] field
    points to. *)
Inductive which := Self | Metadata.

#[export] Instance which_eq_dec : EqDecision which.
Proof. solve_decision. Defined.

(** The fields of [struct encoder] that this file reads or writes. *)
Record encoder := {
  encoder_state : encoder_state_t;
  run_request_f : bool;
  flush : bool;
  new_metadata : bool;
  use_metadata : bool;
  custom_meta : string;
  bitrate : Z;
  target_samplerate : Z;
  n_channels : Z;
  data_format_codec : encoder_codec;
  oggserial : Z;
  timestamp : CFloat.double;
  run_encoder : option run_encoder_fn;
  encoder_private : option which
}.

Record WebMState := {
  st : ptr;
  next_pts : Z;
  samples_count : Z;
  frame : ptr;
  tmp_frame : ptr;
  swr_ctx : ptr;
  oc : ptr;
  avio_ctx : ptr;
  packet_flags : Z;
  metadata : option which;
  has_encoder : bool           (* [self->encoder] is set *)
}.

(** [calloc(1, sizeof (WebMState))] *)
Definition WebMState_zero : WebMState :=
  {| st := None; next_pts := 0; samples_count := 0; frame := None;
     tmp_frame := None; swr_ctx := None; oc := None; avio_ctx := None;
     packet_flags := 0; metadata := None; has_encoder := false |}.

(** *** Objects owned by the libraries *)

Record AVCodec := {
  type : AVMediaType;
  sample_fmts : option (list AVSampleFormat);   (* NULL, or the array *)
  capabilities : Z;
  codec_frame_size : Z          (* the frame size the codec fixes when opened *)
}.

Record AVOutputFormat := { oformat_flags : Z }.

Record AVCodecContext := {
  sample_fmt : AVSampleFormat;
  bit_rate : Z;
  sample_rate : Z;
  channels : Z;
  channel_layout : Z;
  flags : Z;
  frame_size : Z;
  ctx_time_base : Z * Z;
  codec : option AVCodec;       (* set by avcodec_open2 *)
  priv_data : ptr               (* allocated by avcodec_open2 *)
}.

Record AVStream := {
  id : Z;
  time_base : Z * Z;            (* AVRational { num, den } *)
  st_codec : AVCodecContext     (* [st->codec] *)
}.

Record AVFormatContext := {
  oformat : option AVOutputFormat;
  pb : ptr;
  oc_metadata : list (string * string);
  streams : list handle
}.

Record AVIOContext := {
  buffer : ptr;
  opaque : which                (* the [WebMState] given to avio_alloc_context *)
}.

Record AVFrame := {
  format : AVSampleFormat;
  frame_channel_layout : Z;
  frame_sample_rate : Z;
  nb_samples : Z;
  pts : Z;
  has_buffers : bool
}.

Record SwrContext := {
  in_channel_count : Z; in_sample_rate : Z; in_sample_fmt : AVSampleFormat;
  out_channel_count : Z; out_sample_rate : Z; out_sample_fmt : AVSampleFormat;
  initialised : bool
}.

Inductive obj :=
| OFormat (c : AVFormatContext)
| OStream (s : AVStream)
| OCodecPriv
| OBuffer (size : Z)
| OAvio (c : AVIOContext)
| OFrame (f : AVFrame)
| OSwr (s : SwrContext).

(** [struct encoder_op_packet] as handed to [encoder_write_packet_all]. *)
Record encoder_op_packet := {
  header_bit_rate : Z;
  header_sample_rate : Z;
  header_n_channels : Z;
  header_flags : Z;
  header_data_size : Z;
  header_serial : Z;
  header_timestamp : CFloat.double;
  packet_data : option (list Byte.byte)
}.

Inductive event :=
| Sync (e : sync_event)
| Packet (p : encoder_op_packet).          (* encoder_write_packet_all *)

Definition sync_events (t : list event) : list sync_event :=
  omap (fun e => match e with Sync s => Some s | _ => None end) t.

Definition packets (t : list event) : list encoder_op_packet :=
  omap (fun e => match e with Packet p => Some p | _ => None end) t.

Record world := {
  enc : encoder;
  webm_self : option WebMState;     (* None: not allocated, or freed *)
  webm_meta : option WebMState;
  heap : gmap handle obj;
  trace : list event                (* oldest first *)
}.

(** *** Field updates *)

Definition set_enc (e : encoder) (w : world) : world :=
  {| enc := e; webm_self := webm_self w; webm_meta := webm_meta w;
     heap := heap w; trace := trace w |}.
Definition set_heap (m : gmap handle obj) (w : world) : world :=
  {| enc := enc w; webm_self := webm_self w; webm_meta := webm_meta w;
     heap := m; trace := trace w |}.
Definition set_trace (t : list event) (w : world) : world :=
  {| enc := enc w; webm_self := webm_self w; webm_meta := webm_meta w;
     heap := heap w; trace := t |}.
Definition webm (w : world) (p : which) : option WebMState :=
  match p with Self => webm_self w | Metadata => webm_meta w end.
Definition set_webm (p : which) (s : option WebMState) (w : world) : world :=
  match p with
  | Self => {| enc := enc w; webm_self := s; webm_meta := webm_meta w;
               heap := heap w; trace := trace w |}
  | Metadata => {| enc := enc w; webm_self := webm_self w; webm_meta := s;
                   heap := heap w; trace := trace w |}
  end.

Definition set_encoder_state (v : encoder_state_t) (e : encoder) : encoder :=
  {| encoder_state := v; run_request_f := run_request_f e; flush := flush e;
     new_metadata := new_metadata e; use_metadata := use_metadata e;
     custom_meta := custom_meta e; bitrate := bitrate e;
     target_samplerate := target_samplerate e; n_channels := n_channels e;
     data_format_codec := data_format_codec e; oggserial := oggserial e;
     timestamp := timestamp e; run_encoder := run_encoder e;
     encoder_private := encoder_private e |}.
Definition set_run_request_f (v : bool) (e : encoder) : encoder :=
  {| encoder_state := encoder_state e; run_request_f := v; flush := flush e;
     new_metadata := new_metadata e; use_metadata := use_metadata e;
     custom_meta := custom_meta e; bitrate := bitrate e;
     target_samplerate := target_samplerate e; n_channels := n_channels e;
     data_format_codec := data_format_codec e; oggserial := oggserial e;
     timestamp := timestamp e; run_encoder := run_encoder e;
     encoder_private := encoder_private e |}.
Definition set_flush (v : bool) (e : encoder) : encoder :=
  {| encoder_state := encoder_state e; run_request_f := run_request_f e;
     flush := v;
     new_metadata := new_metadata e; use_metadata := use_metadata e;
     custom_meta := custom_meta e; bitrate := bitrate e;
     target_samplerate := target_samplerate e; n_channels := n_channels e;
     data_format_codec := data_format_codec e; oggserial := oggserial e;
     timestamp := timestamp e; run_encoder := run_encoder e;
     encoder_private := encoder_private e |}.
Definition set_new_metadata (v : bool) (e : encoder) : encoder :=
  {| encoder_state := encoder_state e; run_request_f := run_request_f e;
     flush := flush e;
     new_metadata := v; use_metadata := use_metadata e;
     custom_meta := custom_meta e; bitrate := bitrate e;
     target_samplerate := target_samplerate e; n_channels := n_channels e;
     data_format_codec := data_format_codec e; oggserial := oggserial e;
     timestamp := timestamp e; run_encoder := run_encoder e;
     encoder_private := encoder_private e |}.
Definition set_oggserial (v : Z) (e : encoder) : encoder :=
  {| encoder_state := encoder_state e; run_request_f := run_request_f e;
     flush := flush e;
     new_metadata := new_metadata e; use_metadata := use_metadata e;
     custom_meta := custom_meta e; bitrate := bitrate e;
     target_samplerate := target_samplerate e; n_channels := n_channels e;
     data_format_codec := data_format_codec e; oggserial := v;
     timestamp := timestamp e; run_encoder := run_encoder e;
     encoder_private := encoder_private e |}.
Definition set_timestamp (v : CFloat.double) (e : encoder) : encoder :=
  {| encoder_state := encoder_state e; run_request_f := run_request_f e;
     flush := flush e;
     new_metadata := new_metadata e; use_metadata := use_metadata e;
     custom_meta := custom_meta e; bitrate := bitrate e;
     target_samplerate := target_samplerate e; n_channels := n_channels e;
     data_format_codec := data_format_codec e; oggserial := oggserial e;
     timestamp := v; run_encoder := run_encoder e;
     encoder_private := encoder_private e |}.
Definition set_run_encoder (v : option run_encoder_fn) (e : encoder) : encoder :=
  {| encoder_state := encoder_state e; run_request_f := run_request_f e;
     flush := flush e;
     new_metadata := new_metadata e; use_metadata := use_metadata e;
     custom_meta := custom_meta e; bitrate := bitrate e;
     target_samplerate := target_samplerate e; n_channels := n_channels e;
     data_format_codec := data_format_codec e; oggserial := oggserial e;
     timestamp := timestamp e; run_encoder := v;
     encoder_private := encoder_private e |}.
Definition set_encoder_private (v : option which) (e : encoder) : encoder :=
  {| encoder_state := encoder_state e; run_request_f := run_request_f e;
     flush := flush e;
     new_metadata := new_metadata e; use_metadata := use_metadata e;
     custom_meta := custom_meta e; bitrate := bitrate e;
     target_samplerate := target_samplerate e; n_channels := n_channels e;
     data_format_codec := data_format_codec e; oggserial := oggserial e;
     timestamp := timestamp e; run_encoder := run_encoder e;
     encoder_private := v |}.

Definition set_st (v : ptr) (s : WebMState) : WebMState :=
  {| st := v; next_pts := next_pts s; samples_count := samples_count s;
     frame := frame s; tmp_frame := tmp_frame s; swr_ctx := swr_ctx s;
     oc := oc s; avio_ctx := avio_ctx s; packet_flags := packet_flags s;
     metadata := metadata s; has_encoder := has_encoder s |}.
Definition set_next_pts (v : Z) (s : WebMState) : WebMState :=
  {| st := st s; next_pts := v; samples_count := samples_count s;
     frame := frame s; tmp_frame := tmp_frame s; swr_ctx := swr_ctx s;
     oc := oc s; avio_ctx := avio_ctx s; packet_flags := packet_flags s;
     metadata := metadata s; has_encoder := has_encoder s |}.
Definition set_samples_count (v : Z) (s : WebMState) : WebMState :=
  {| st := st s; next_pts := next_pts s; samples_count := v;
     frame := frame s; tmp_frame := tmp_frame s; swr_ctx := swr_ctx s;
     oc := oc s; avio_ctx := avio_ctx s; packet_flags := packet_flags s;
     metadata := metadata s; has_encoder := has_encoder s |}.
Definition set_frame (v : ptr) (s : WebMState) : WebMState :=
  {| st := st s; next_pts := next_pts s; samples_count := samples_count s;
     frame := v; tmp_frame := tmp_frame s; swr_ctx := swr_ctx s;
     oc := oc s; avio_ctx := avio_ctx s; packet_flags := packet_flags s;
     metadata := metadata s; has_encoder := has_encoder s |}.
Definition set_tmp_frame (v : ptr) (s : WebMState) : WebMState :=
  {| st := st s; next_pts := next_pts s; samples_count := samples_count s;
     frame := frame s; tmp_frame := v; swr_ctx := swr_ctx s;
     oc := oc s; avio_ctx := avio_ctx s; packet_flags := packet_flags s;
     metadata := metadata s; has_encoder := has_encoder s |}.
Definition set_swr_ctx (v : ptr) (s : WebMState) : WebMState :=
  {| st := st s; next_pts := next_pts s; samples_count := samples_count s;
     frame := frame s; tmp_frame := tmp_frame s; swr_ctx := v;
     oc := oc s; avio_ctx := avio_ctx s; packet_flags := packet_flags s;
     metadata := metadata s; has_encoder := has_encoder s |}.
Definition set_oc (v : ptr) (s : WebMState) : WebMState :=
  {| st := st s; next_pts := next_pts s; samples_count := samples_count s;
     frame := frame s; tmp_frame := tmp_frame s; swr_ctx := swr_ctx s;
     oc := v; avio_ctx := avio_ctx s; packet_flags := packet_flags s;
     metadata := metadata s; has_encoder := has_encoder s |}.
Definition set_avio_ctx (v : ptr) (s : WebMState) : WebMState :=
  {| st := st s; next_pts := next_pts s; samples_count := samples_count s;
     frame := frame s; tmp_frame := tmp_frame s; swr_ctx := swr_ctx s;
     oc := oc s; avio_ctx := v; packet_flags := packet_flags s;
     metadata := metadata s; has_encoder := has_encoder s |}.
Definition set_packet_flags (v : Z) (s : WebMState) : WebMState :=
  {| st := st s; next_pts := next_pts s; samples_count := samples_count s;
     frame := frame s; tmp_frame := tmp_frame s; swr_ctx := swr_ctx s;
     oc := oc s; avio_ctx := avio_ctx s; packet_flags := v;
     metadata := metadata s; has_encoder := has_encoder s |}.

Abbreviation M := (SFM world).

Definition emit (e : event) : M unit :=
  modify_world (fun w => set_trace (trace w ++ [e]) w).

(** [self->...] for a [WebMState *self]. *)
Definition get_webm (self : which) : M WebMState := fun w =>
  match webm w self with
  | Some s => Some (s, w)
  | None => None
  end.
Definition modify_webm (self : which) (f : WebMState -> WebMState) : M unit :=
  s ← get_webm self; modify_world (set_webm self (Some (f s))).

(** [encoder->...]; through [self->encoder] it needs that link to be set. *)
Definition get_encoder : M encoder := fun w => Some (enc w, w).
Definition modify_encoder (f : encoder -> encoder) : M unit :=
  modify_world (fun w => set_enc (f (enc w)) w).
Definition self_encoder (self : which) : M encoder :=
  s ← get_webm self; if has_encoder s then get_encoder else fault.

(** *** The heap of library objects *)

Definition alloc (o : obj) : M handle := fun w =>
  let h := fresh (dom (heap w)) in Some (h, set_heap (<[h := o]> (heap w)) w).

Definition load (h : handle) : M obj := fun w =>
  match heap w !! h with
  | Some o => Some (o, w)
  | None => None
  end.

Definition store (h : handle) (o : obj) : M unit :=
  load h;; modify_world (fun w => set_heap (<[h := o]> (heap w)) w).

Definition free (h : handle) : M unit :=
  load h;; modify_world (fun w => set_heap (delete h (heap w)) w).

Definition deref (p : ptr) : M handle :=
  match p with Some h => mret h | None => fault end.

Definition load_format (p : ptr) : M AVFormatContext :=
  h ← deref p; o ← load h; match o with OFormat c => mret c | _ => fault end.
Definition load_stream (p : ptr) : M AVStream :=
  h ← deref p; o ← load h; match o with OStream s => mret s | _ => fault end.
Definition load_avio (p : ptr) : M AVIOContext :=
  h ← deref p; o ← load h; match o with OAvio c => mret c | _ => fault end.
Definition load_frame (p : ptr) : M AVFrame :=
  h ← deref p; o ← load h; match o with OFrame f => mret f | _ => fault end.
Definition load_swr (p : ptr) : M SwrContext :=
  h ← deref p; o ← load h; match o with OSwr s => mret s | _ => fault end.

Definition store_at (p : ptr) (o : obj) : M unit := h ← deref p; store h o.

(** [c = self->st->codec; c->...]: the codec context lives in its stream. *)
Definition load_codec (st : ptr) : M AVCodecContext :=
  s ← load_stream st; mret (st_codec s).
Definition store_codec (st : ptr) (c : AVCodecContext) : M unit :=
  s ← load_stream st;
  store_at st (OStream {| id := id s; time_base := time_base s; st_codec := c |}).

(** [av_free(p)]: nothing for NULL. *)
Definition av_free (p : ptr) : M unit :=
  match p with Some h => free h | None => mret tt end.

(** [av_freep(&p)]: frees [p]; the caller stores the NULL that comes back. *)
Definition av_freep (p : ptr) : M ptr := av_free p;; mret None.

(** *** The library functions the file calls

    Each takes, before its C arguments, what the library decides by itself. *)

Definition avformat_alloc_context (ok : bool) : M ptr :=
  if ok then
    h ← alloc (OFormat {| oformat := None; pb := None;
                           oc_metadata := []; streams := [] |});
    mret (Some h)
  else mret None.

Definition av_malloc (ok : bool) (size : Z) : M ptr :=
  if ok then h ← alloc (OBuffer size); mret (Some h) else mret None.

Definition avio_alloc_context (ok : bool) (buf : ptr) (self : which) : M ptr :=
  if ok then h ← alloc (OAvio {| buffer := buf; opaque := self |}); mret (Some h)
  else mret None.

(** [avformat_new_stream(oc, codec)]: NULL, or a new stream, with the
    library's defaults in it, appended to the streams of [oc]. *)
Definition avformat_new_stream (fresh_stream : option AVStream) (oc : ptr) : M ptr :=
  c ← load_format oc;
  match fresh_stream with
  | None => mret None
  | Some s =>
      h ← alloc (OStream s);
      store_at oc (OFormat {| oformat := oformat c; pb := pb c;
                              oc_metadata := oc_metadata c;
                              streams := streams c ++ [h] |});;
      mret (Some h)
  end.

(** [avformat_free_context(oc)]: nothing for NULL; frees the streams of [oc]
    with their codec contexts, then [oc].  What an open codec holds and the
    I/O context behind [pb] are not freed by it. *)
Definition avformat_free_context (oc : ptr) : M unit :=
  match oc with
  | None => mret tt
  | Some h =>
      c ← load_format oc;
      for_each (fun s => load_stream (Some s);; free s) (streams c);;
      free h
  end.

(** [avcodec_open2(c, codec, NULL)], [c] being the codec context of stream
    [st]: negative on failure; otherwise the codec is attached, its private
    data allocated and the frame size fixed. *)
Definition avcodec_open2 (ret : Z) (st : ptr) (codec : AVCodec) : M Z :=
  c ← load_codec st;
  emit (Sync EvOpen2);;
  if ret <? 0 then mret ret
  else
    h ← alloc OCodecPriv;
    store_codec st {| sample_fmt := sample_fmt c; bit_rate := bit_rate c;
                      sample_rate := sample_rate c; channels := channels c;
                      channel_layout := channel_layout c; flags := flags c;
                      frame_size := codec_frame_size codec;
                      ctx_time_base := ctx_time_base c;
                      codec := Some codec; priv_data := Some h |};;
    mret ret.

(** [avcodec_close(c)]: frees what [avcodec_open2] allocated, if anything. *)
Definition avcodec_close (st : ptr) : M unit :=
  c ← load_codec st;
  emit (Sync EvClose);;
  av_free (priv_data c);;
  store_codec st {| sample_fmt := sample_fmt c; bit_rate := bit_rate c;
                    sample_rate := sample_rate c; channels := channels c;
                    channel_layout := channel_layout c; flags := flags c;
                    frame_size := frame_size c;
                    ctx_time_base := ctx_time_base c;
                    codec := None; priv_data := None |}.

Definition AV_NOPTS_VALUE : Z := - 2 ^ 63.

Definition av_frame_alloc (ok : bool) : M ptr :=
  if ok then
    h ← alloc (OFrame {| format := AV_SAMPLE_FMT_NONE; frame_channel_layout := 0;
                          frame_sample_rate := 0; nb_samples := 0;
                          pts := AV_NOPTS_VALUE; has_buffers := false |});
    mret (Some h)
  else mret None.

Definition av_frame_get_buffer (ret : Z) (frame : ptr) : M Z :=
  f ← load_frame frame;
  if ret <? 0 then mret ret
  else
    store_at frame (OFrame {| format := format f;
                              frame_channel_layout := frame_channel_layout f;
                              frame_sample_rate := frame_sample_rate f;
                              nb_samples := nb_samples f; pts := pts f;
                              has_buffers := true |});;
    mret ret.

(** [av_frame_free(&frame)]: frees the frame and its buffers, nothing for
    NULL; the caller stores the NULL that comes back. *)
Definition av_frame_free (frame : ptr) : M ptr :=
  match frame with
  | None => mret None
  | Some h => load_frame frame;; free h;; mret None
  end.

Definition swr_alloc (ok : bool) : M ptr :=
  if ok then
    h ← alloc (OSwr {| in_channel_count := 0; in_sample_rate := 0;
                        in_sample_fmt := AV_SAMPLE_FMT_NONE;
                        out_channel_count := 0; out_sample_rate := 0;
                        out_sample_fmt := AV_SAMPLE_FMT_NONE;
                        initialised := false |});
    mret (Some h)
  else mret None.

Definition swr_init (ret : Z) (swr : ptr) : M Z :=
  s ← load_swr swr;
  if ret <? 0 then mret ret
  else
    store_at swr (OSwr {| in_channel_count := in_channel_count s;
                          in_sample_rate := in_sample_rate s;
                          in_sample_fmt := in_sample_fmt s;
                          out_channel_count := out_channel_count s;
                          out_sample_rate := out_sample_rate s;
                          out_sample_fmt := out_sample_fmt s;
                          initialised := true |});;
    mret ret.

(** [swr_free(&swr)] *)
Definition swr_free (swr : ptr) : M ptr :=
  match swr with
  | None => mret None
  | Some h => load_swr swr;; free h;; mret None
  end.

(** [av_dict_set(&oc->metadata, key, value, 0)] *)
Definition av_dict_set (oc : ptr) (key value : string) : M unit :=
  c ← load_format oc;
  store_at oc (OFormat {| oformat := oformat c; pb := pb c;
                          oc_metadata :=
                            (key, value)
                              :: filter (fun kv => kv.1 ≠ key) (oc_metadata c);
                          streams := streams c |}).

(** [av_rescale_rnd(a, b, c, AV_ROUND_UP)] *)
Definition av_rescale_rnd_up (a b c : Z) : Z :=
  if (c <=? 0) || (b <? 0) then - 2 ^ 63 else - ((- (a * b)) / c).

(** [av_rescale_q(a, bq, cq)]: [a * bq / cq], to nearest, halves away
    from zero. *)
Definition av_rescale_q (a : Z) (bq cq : Z * Z) : Z :=
  let b := bq.1 * cq.2 in
  let c := bq.2 * cq.1 in
  if (c <=? 0) || (b <? 0) then - 2 ^ 63
  else Z.sgn a * ((Z.abs a * b + c / 2) / c).

(** Two's complement wrap-around of [int] and [int64_t] arithmetic. *)
Definition wrap (bits : Z) (x : Z) : Z :=
  (x + 2 ^ (bits - 1)) mod 2 ^ bits - 2 ^ (bits - 1).

(** [while (pthread_mutex_trylock(&g.avc_mutex)) nanosleep(&time_delay, NULL);]
    spins until the mutex is taken; the embedding records the moment it is,
    and [pthread_mutex_unlock(&g.avc_mutex)] the moment it is given back. *)
Definition lock_avc_mutex : M unit := emit (Sync EvLock).
Definition unlock_avc_mutex : M unit := emit (Sync EvUnlock).

(** *** What the libraries decide during one call of the file's functions *)

Record frame_env := {
  frame_alloc_ok : bool;              (* av_frame_alloc *)
  get_buffer_ret : Z                  (* av_frame_get_buffer *)
}.

(** One call into the muxer: the buffers it hands to the write callback of
    the I/O context, in order, and the value it returns. *)
Record muxer_call := {
  writes : list (option (list Byte.byte) * Z);
  mux_ret : Z
}.

Record setup_env := {
  alloc_context_ok : bool;            (* avformat_alloc_context *)
  guess_format : option AVOutputFormat;      (* av_guess_format *)
  av_malloc_ok : bool;                (* av_malloc *)
  avio_alloc_ok : bool;               (* avio_alloc_context *)
  find_encoder : AVCodecID -> option AVCodec;  (* avcodec_find_encoder *)
  new_stream : option AVStream;       (* avformat_new_stream *)
  open2_ret : Z;                      (* avcodec_open2 *)
  frame_env_1 : frame_env;            (* alloc_audio_frame for self->frame *)
  frame_env_2 : frame_env;            (* alloc_audio_frame for self->tmp_frame *)
  swr_alloc_ok : bool;                (* swr_alloc *)
  swr_init_ret : Z;                   (* swr_init *)
  header_call : muxer_call            (* avformat_write_header *)
}.

(** *** The functions of live_webm_encoder.c *)

Definition is_audio (t : AVMediaType) : bool :=
  match t with AVMEDIA_TYPE_AUDIO => true | _ => false end.

Definition add_stream (e : setup_env) (self : which)
    (codec_id : AVCodecID) (br sr ch : Z) : M (option AVCodec) :=
  match find_encoder e codec_id with
  | None => mret None
  | Some codec =>
      if negb (is_audio (type codec)) then mret None
      else
        s ← get_webm self;
        st ← avformat_new_stream (new_stream e) (oc s);
        modify_webm self (set_st st);;
        match st with
        | None => mret None
        | Some _ =>
            c ← load_codec st;
            store_codec st
              {| sample_fmt := match sample_fmts codec with
                               | Some fmts => hd AV_SAMPLE_FMT_NONE fmts
                               | None => AV_SAMPLE_FMT_FLTP
                               end;
                 bit_rate := br;
                 sample_rate := sr;
                 channels := ch;
                 channel_layout := if ch =? 2 then AV_CH_LAYOUT_STEREO
                                   else AV_CH_LAYOUT_MONO;
                 flags := flags c; frame_size := frame_size c;
                 ctx_time_base := ctx_time_base c;
                 codec := Encoder.codec c; priv_data := priv_data c |};;
            stream ← load_stream st;
            store_at st (OStream {| id := 0; time_base := (1, sr);
                                    st_codec := st_codec stream |});;
            octx ← load_format (oc s);
            match oformat octx with
            | None => fault
            | Some fmt =>
                (if Z.land (oformat_flags fmt) AVFMT_GLOBALHEADER =? 0
                 then mret tt
                 else
                   c ← load_codec st;
                   store_codec st
                     {| sample_fmt := sample_fmt c; bit_rate := bit_rate c;
                        sample_rate := sample_rate c; channels := channels c;
                        channel_layout := channel_layout c;
                        flags := Z.lor (flags c) AV_CODEC_FLAG_GLOBAL_HEADER;
                        frame_size := frame_size c;
                        ctx_time_base := ctx_time_base c;
                        codec := Encoder.codec c; priv_data := priv_data c |});;
                mret (Some codec)
            end
        end
  end.

Definition alloc_audio_frame (fe : frame_env) (sample_fmt : AVSampleFormat)
    (channel_layout sample_rate nb_samples : Z) : M ptr :=
  frame ← av_frame_alloc (frame_alloc_ok fe);
  match frame with
  | None => mret None
  | Some _ =>
      f ← load_frame frame;
      store_at frame (OFrame {| format := sample_fmt;
                                frame_channel_layout := channel_layout;
                                frame_sample_rate := sample_rate;
                                nb_samples := nb_samples;
                                pts := pts f; has_buffers := has_buffers f |});;
      if nb_samples =? 0 then mret frame
      else
        r ← av_frame_get_buffer (get_buffer_ret fe) frame;
        if r <? 0 then av_frame_free frame;; mret None
        else mret frame
  end.

Definition open_stream (e : setup_env) (self : which) (codec : AVCodec) : M Z :=
  s ← get_webm self;
  load_codec (st s);;                          (* c = self->st->codec *)
  lock_avc_mutex;;
  ret ← avcodec_open2 (open2_ret e) (st s) codec;
  unlock_avc_mutex;;
  if ret <? 0 then mret 0
  else
    c ← load_codec (st s);
    cd ← match Encoder.codec c with Some cd => mret cd | None => fault end;
    let nb_samples :=
      if Z.land (capabilities cd) AV_CODEC_CAP_VARIABLE_FRAME_SIZE =? 0
      then frame_size c else 10000 in
    f ← alloc_audio_frame (frame_env_1 e) (sample_fmt c) (channel_layout c)
                          (sample_rate c) nb_samples;
    modify_webm self (set_frame f);;
    tf ← alloc_audio_frame (frame_env_2 e) AV_SAMPLE_FMT_FLTP (channel_layout c)
                           (sample_rate c) nb_samples;
    modify_webm self (set_tmp_frame tf);;
    swr ← swr_alloc (swr_alloc_ok e);
    modify_webm self (set_swr_ctx swr);;
    match swr with
    | None => avcodec_close (st s);; mret 0
    | Some _ =>
        load_swr swr;;
        store_at swr (OSwr {| in_channel_count := channels c;
                              in_sample_rate := sample_rate c;
                              in_sample_fmt := AV_SAMPLE_FMT_FLTP;
                              out_channel_count := channels c;
                              out_sample_rate := sample_rate c;
                              out_sample_fmt := sample_fmt c;
                              initialised := false |});;
        r ← swr_init (swr_init_ret e) swr;
        if r <? 0 then
          p ← swr_free swr;
          modify_webm self (set_swr_ctx p);;
          avcodec_close (st s);;
          mret 0
        else mret 1
    end.

Definition close_stream (self : which) : M unit :=
  s ← get_webm self;
  avcodec_close (st s);;
  f ← av_frame_free (frame s);
  modify_webm self (set_frame f);;
  tf ← av_frame_free (tmp_frame s);
  modify_webm self (set_tmp_frame tf);;
  swr ← swr_free (swr_ctx s);
  modify_webm self (set_swr_ctx swr).

Record audio_env := {
  input_data_ok : bool;               (* encoder_get_input_data returns data *)
  swr_delay : Z;                      (* swr_get_delay *)
  make_writable_ret : Z;              (* av_frame_make_writable *)
  swr_convert_ret : Z;                (* swr_convert *)
  encode_ret : Z;                     (* avcodec_encode_audio2 *)
  got_packet : bool;
  write_frame_call : muxer_call       (* av_write_frame *)
}.

Definition get_audio_frame (a : audio_env) (self : which) : M ptr :=
  s ← get_webm self;
  let frame := tmp_frame s in
  f ← load_frame frame;
  self_encoder self;;
  if input_data_ok a then
    store_at frame (OFrame {| format := format f;
                              frame_channel_layout := frame_channel_layout f;
                              frame_sample_rate := frame_sample_rate f;
                              nb_samples := nb_samples f;
                              pts := next_pts s;
                              has_buffers := has_buffers f |});;
    modify_webm self (set_next_pts (wrap 64 (next_pts s + nb_samples f)));;
    mret frame
  else mret None.

Section WithPacketFlags.
Context `{PF : packet_flag_values}.

Definition write_packet (self : which) (buf : option (list Byte.byte))
    (buf_size : Z) : M Z :=
  s ← get_webm self;
  (if Z.land (packet_flags s) PF_SUPPRESS =? 0 then
     encoder ← self_encoder self;
     let ts := CFloat.double_div (CFloat.double_of_int (next_pts s))
                 (CFloat.double_of_int (target_samplerate encoder)) in
     modify_encoder (set_timestamp ts);;
     emit (Packet {| header_bit_rate := bitrate encoder;
                     header_sample_rate := target_samplerate encoder;
                     header_n_channels := n_channels encoder;
                     header_flags := Z.lor PF_WEBM (packet_flags s);
                     header_data_size := buf_size;
                     header_serial := oggserial encoder;
                     header_timestamp := ts;
                     packet_data := buf |})
   else mret tt);;
  modify_webm self (fun s =>
    set_packet_flags (Z.land (packet_flags s) (Z.lnot PF_INITIAL)) s);;
  mret 1.

(** The muxer writes through [oc->pb]; [setup] creates that I/O context with
    [write_packet] as its write callback and the [WebMState] as [opaque]. *)
Definition run_muxer (call : muxer_call) (oc : ptr) : M Z :=
  c ← load_format oc;
  a ← load_avio (pb c);
  for_each (fun b => write_packet (opaque a) b.1 b.2;; mret tt) (writes call);;
  mret (mux_ret call).

Definition avformat_write_header := run_muxer.
Definition av_write_trailer := run_muxer.
Definition av_write_frame := run_muxer.

Definition write_audio_frame (a : audio_env) (self : which) : M Z :=
  s ← get_webm self;
  load_codec (st s);;                          (* c = self->st->codec *)
  encoder ← self_encoder self;
  frame ← (if run_request_f encoder then get_audio_frame a self else mret None);
  (* [Some frame]: go on to encode [frame]; [None]: return -1 *)
  converted ←
    match frame with
    | None => mret (Some None)
    | Some _ =>
        f ← load_frame frame;
        c ← load_codec (st s);
        load_swr (swr_ctx s);;
        let dst_nb_samples :=
          wrap 32 (av_rescale_rnd_up (swr_delay a + nb_samples f)
                                     (sample_rate c) (sample_rate c)) in
        if negb (dst_nb_samples =? nb_samples f) then fault   (* av_assert0 *)
        else
          load_frame (Encoder.frame s);;
          if make_writable_ret a <? 0 then mret None
          else if swr_convert_ret a <? 0 then mret None
          else
            s' ← get_webm self;
            sf ← load_frame (Encoder.frame s');
            store_at (Encoder.frame s')
              (OFrame {| format := format sf;
                         frame_channel_layout := frame_channel_layout sf;
                         frame_sample_rate := frame_sample_rate sf;
                         nb_samples := nb_samples sf;
                         pts := av_rescale_q (samples_count s')
                                  (1, sample_rate c) (ctx_time_base c);
                         has_buffers := has_buffers sf |});;
            modify_webm self
              (set_samples_count (wrap 32 (samples_count s' + dst_nb_samples)));;
            mret (Some (Encoder.frame s'))
    end;
  match converted with
  | None => mret (-1)
  | Some _ =>
      if encode_ret a <? 0 then mret (-1)
      else
        s' ← get_webm self;
        r ← (if got_packet a then av_write_frame (write_frame_call a) (oc s')
             else mret 0);
        if got_packet a && (r <? 0) then mret (-1)
        else
          encoder ← self_encoder self;
          mret (if run_request_f encoder then 0 else 1)
  end.

Definition write_header (call : muxer_call) (self : which) (extra_flags : Z) : M Z :=
  (if Z.land extra_flags PF_SUPPRESS =? 0 then
     encoder ← self_encoder self;
     modify_encoder (set_oggserial (oggserial encoder + 1))
   else mret tt);;
  modify_webm self (fun s =>
    set_packet_flags
      (Z.lor (packet_flags s) (Z.lor (Z.lor PF_HEADER PF_INITIAL) extra_flags)) s);;
  s ← get_webm self;
  ret ← avformat_write_header call (oc s);
  modify_webm self (fun s =>
    set_packet_flags
      (Z.land (packet_flags s) (Z.lnot (Z.lor PF_HEADER extra_flags))) s);;
  mret ret.

Definition write_trailer (call : muxer_call) (self : which) (extra_flags : Z) : M Z :=
  modify_webm self (fun s =>
    set_packet_flags (Z.lor (packet_flags s) extra_flags) s);;
  s ← get_webm self;
  ret ← av_write_trailer call (oc s);
  modify_webm self (fun s =>
    set_packet_flags (Z.lor (packet_flags s) PF_FINAL) s);;
  write_packet self None 0;;
  modify_webm self (fun s =>
    set_packet_flags
      (Z.land (packet_flags s) (Z.lnot (Z.lor PF_FINAL extra_flags))) s);;
  mret ret.

(** [av_freep(&self->avio_ctx->buffer)] and [av_freep(&self->avio_ctx)] *)
Definition freep_avio_buffer (self : which) : M unit :=
  s ← get_webm self;
  a ← load_avio (avio_ctx s);
  p ← av_freep (buffer a);
  store_at (avio_ctx s) (OAvio {| buffer := p; opaque := opaque a |}).

Definition freep_avio_ctx (self : which) : M unit :=
  s ← get_webm self;
  (match avio_ctx s with Some _ => load_avio (avio_ctx s);; mret tt
                       | None => mret tt end);;
  p ← av_freep (avio_ctx s);
  modify_webm self (set_avio_ctx p).

(** The cleanup labels of [setup], last first. *)
Definition fail1 : M status := mret FAILED.
Definition fail2 (self : which) : M status :=
  s ← get_webm self; avformat_free_context (oc s);; fail1.
Definition fail3 (self : which) : M status :=
  freep_avio_buffer self;; fail2 self.
Definition fail4 (self : which) : M status :=
  freep_avio_buffer self;; freep_avio_ctx self;; fail2 self.
Definition fail5 (self : which) : M status :=
  close_stream self;; fail4 self.

(** The [switch] at the head of [setup]: the libav codec for the encoder's
    codec, or none for the [default:] case. *)
Definition codec_id_of (c : encoder_codec) : option AVCodecID :=
  match c with
  | ENCODER_CODEC_VORBIS => Some AV_CODEC_ID_VORBIS
  | ENCODER_CODEC_OPUS => Some AV_CODEC_ID_OPUS
  | _ => None
  end.

Definition setup (e : setup_env) (self : which) (extra_flags : Z) : M status :=
  encoder ← self_encoder self;
  let avio_ctx_buffer_size := 4096 in
  match codec_id_of (data_format_codec encoder) with
  | None => fail1
  | Some codec_id =>
      octx ← avformat_alloc_context (alloc_context_ok e);
      modify_webm self (set_oc octx);;
      match octx with
      | None => fail1
      | Some _ =>
          c ← load_format octx;
          store_at octx (OFormat {| oformat := guess_format e; pb := pb c;
                                    oc_metadata := oc_metadata c;
                                    streams := streams c |});;
          match guess_format e with
          | None => fail2 self
          | Some _ =>
              avio_ctx_buffer ← av_malloc (av_malloc_ok e) avio_ctx_buffer_size;
              match avio_ctx_buffer with
              | None => fail2 self
              | Some _ =>
                  a ← avio_alloc_context (avio_alloc_ok e) avio_ctx_buffer self;
                  modify_webm self (set_avio_ctx a);;
                  match a with
                  | None => fail3 self
                  | Some _ =>
                      c ← load_format octx;
                      store_at octx (OFormat {| oformat := oformat c; pb := a;
                                                oc_metadata := oc_metadata c;
                                                streams := streams c |});;
                      codec ← add_stream e self codec_id (bitrate encoder)
                                (target_samplerate encoder) (n_channels encoder);
                      match codec with
                      | None => fail4 self
                      | Some codec =>
                          opened ← open_stream e self codec;
                          if opened =? 0 then fail4 self
                          else
                            (if negb (String.eqb (custom_meta encoder) EmptyString)
                                && use_metadata encoder
                             then av_dict_set octx "TITLE" (custom_meta encoder)
                             else mret tt);;
                            r ← write_header (header_call e) self extra_flags;
                            if r <? 0 then fail5 self
                            else mret SUCCEEDED
                      end
                  end
              end
          end
      end
  end.

Definition teardown (self : which) : M unit :=
  close_stream self;;
  freep_avio_buffer self;;
  freep_avio_ctx self;;
  s ← get_webm self;
  avformat_free_context (oc s).

(** What the libraries decide during one call of [live_webm_encoder_main],
    one field for each place that calls into them. *)
Record main_env := {
  start_setup_self : setup_env;
  start_setup_meta : setup_env;
  meta_trailer_self : muxer_call;
  meta_header_self : muxer_call;
  meta_trailer_meta : muxer_call;
  meta_setup_meta : setup_env;
  flush_trailer_self : muxer_call;
  flush_header_self : muxer_call;
  flush_trailer_meta : muxer_call;
  flush_header_meta : muxer_call;
  audio : audio_env;
  stop_trailer_meta : muxer_call;
  stop_trailer_self : muxer_call
}.

#[export] Instance encoder_state_eq_dec : EqDecision encoder_state_t.
Proof. solve_decision. Defined.

(** [free(p)] for one of the two [WebMState] blocks. *)
Definition free_webm (p : option which) : M unit :=
  match p with
  | None => mret tt
  | Some b => get_webm b;; modify_world (set_webm b None)
  end.

(** [self->metadata] used as a [WebMState *]. *)
Definition metadata_of (self : which) : M which :=
  s ← get_webm self;
  match metadata s with Some m => mret m | None => fault end.

(** The code from the label [bailout:] to the end of the function. *)
Definition bailout (self : which) : M unit :=
  modify_encoder (set_run_request_f false);;
  modify_encoder (set_encoder_state ES_STOPPED);;
  modify_encoder (set_run_encoder None);;
  modify_encoder (set_flush false);;
  modify_encoder (set_encoder_private None);;
  s ← get_webm self;
  free_webm (metadata s);;
  free_webm (Some self).

(** Every path of the function dereferences [self] before it returns, so a
    NULL [encoder->encoder_private] is a fault whatever the state. *)
Definition live_webm_encoder_main (e : main_env) : M unit :=
  encoder ← get_encoder;
  self ← match encoder_private encoder with
         | Some p => mret p
         | None => fault
         end;
  if decide (encoder_state encoder = ES_STARTING) then
    r ← setup (start_setup_self e) self PF_SUPPRESS;
    match r with
    | FAILED => bailout self
    | SUCCEEDED =>
        m ← metadata_of self;
        r ← setup (start_setup_meta e) m 0;
        match r with
        | FAILED => teardown self;; bailout self
        | SUCCEEDED =>
            encoder ← get_encoder;
            if run_request_f encoder
            then modify_encoder (set_encoder_state ES_RUNNING)
            else modify_encoder (set_encoder_state ES_STOPPING)
        end
    end
  else if decide (encoder_state encoder = ES_RUNNING) then
    (if new_metadata encoder && use_metadata encoder then
       modify_encoder (set_new_metadata false);;
       write_trailer (meta_trailer_self e) self 0;;
       write_header (meta_header_self e) self PF_SUPPRESS;;
       m ← metadata_of self;
       write_trailer (meta_trailer_meta e) m PF_SUPPRESS;;
       teardown m;;
       setup (meta_setup_meta e) m 0;;
       mret tt
     else mret tt);;
    encoder ← get_encoder;
    (if flush encoder then
       modify_encoder (set_flush false);;
       write_trailer (flush_trailer_self e) self 0;;
       write_header (flush_header_self e) self PF_SUPPRESS;;
       m ← metadata_of self;
       write_trailer (flush_trailer_meta e) m PF_SUPPRESS;;
       write_header (flush_header_meta e) m 0;;
       mret tt
     else mret tt);;
    r ← write_audio_frame (audio e) self;
    if r =? 0 then mret tt
    else modify_encoder (set_encoder_state ES_STOPPING)
  else if decide (encoder_state encoder = ES_STOPPING) then
    m ← metadata_of self;
    write_trailer (stop_trailer_meta e) m PF_SUPPRESS;;
    write_trailer (stop_trailer_self e) self 0;;
    teardown m;;
    teardown self;;
    modify_encoder (set_flush false);;
    encoder ← get_encoder;
    if run_request_f encoder
    then modify_encoder (set_encoder_state ES_STARTING)
    else bailout self
  else bailout self.

(** [live_webm_encoder_init]; the two booleans say whether the two [calloc]
    calls succeed. *)
Definition live_webm_encoder_init (calloc1 calloc2 : bool) : M status :=
  if negb calloc1 then mret FAILED
  else
    modify_world (set_webm Self (Some WebMState_zero));;
    if negb calloc2 then mret FAILED
    else
      modify_world (set_webm Metadata (Some WebMState_zero));;
      modify_webm Self (fun s =>
        {| st := st s; next_pts := next_pts s; samples_count := samples_count s;
           frame := frame s; tmp_frame := tmp_frame s; swr_ctx := swr_ctx s;
           oc := oc s; avio_ctx := avio_ctx s; packet_flags := packet_flags s;
           metadata := Some Metadata; has_encoder := true |});;
      modify_webm Metadata (fun s =>
        {| st := st s; next_pts := next_pts s; samples_count := samples_count s;
           frame := frame s; tmp_frame := tmp_frame s; swr_ctx := swr_ctx s;
           oc := oc s; avio_ctx := avio_ctx s; packet_flags := packet_flags s;
           metadata := metadata s; has_encoder := true |});;
      modify_encoder (set_encoder_private (Some Self));;
      modify_encoder (set_run_encoder (Some Live_webm_encoder_main));;
      mret SUCCEEDED.

End WithPacketFlags.

End Encoder.

(** ** avcodecdecode.c *)

Module Decoder.

(** *** Declarations the file takes from headers *)

Definition ACCEPTED : Z := 1.
Definition REJECTED : Z := 0.
Definition AVCODEC_MAX_AUDIO_FRAME_SIZE : Z := 192000.
Definition AV_TIME_BASE : Z := 1000000.

(** [(int) x] for an unsigned [x]: the value modulo 2^32, as a signed int. *)
Definition to_int (z : Z) : Z := (z + 2 ^ 31) mod 2 ^ 32 - 2 ^ 31.
(** An [int] stored in an [unsigned int]. *)
Definition to_unsigned (z : Z) : Z := z mod 2 ^ 32.

(** The values of [xlplayer->playmode] and [xlplayer->command] the file
    assigns; [PM_OTHER] and [CMD_OTHER] stand for the remaining values of the
    two enums of xlplayer.h. *)
Inductive playmode_t := PM_STOPPED | PM_EJECTING | PM_OTHER.
Inductive command_t := CMD_COMPLETE | CMD_OTHER.

(** The codec ids the file tells apart. *)
Inductive CodecID := CODEC_ID_MUSEPACK7 | CODEC_ID_MUSEPACK8 | CODEC_ID_OTHER.

(** The three functions the file installs in the player. *)
Inductive decoder_fn :=
| Avcodecdecode_init | Avcodecdecode_play | Avcodecdecode_eject.

(** A chapter of the tag, known by its address. *)
Definition chapter := nat.

(** [SRC_DATA] of libsamplerate. *)
Record SRC_DATA := {
  data_in : ptr;
  data_out : ptr;
  input_frames : Z;
  output_frames : Z;
  output_frames_gen : Z;
  end_of_input : Z;
  src_ratio : CFloat.double
}.

(** The fields of [struct xlplayer] the file uses. *)
Record xlplayer := {
  dec_data : ptr;
  pathname : string;
  seek_s : Z;
  samplerate : Z;
  rsqual : Z;
  src_state : ptr;
  src_data : SRC_DATA;
  playmode : playmode_t;
  command : command_t;
  write_deferred : Z;
  play_progress_ms : Z;
  dec_init : option decoder_fn;
  dec_play : option decoder_fn;
  dec_eject : option decoder_fn
}.

Record AVPacket := {
  pkt_data : ptr;
  pkt_offset : Z;               (* how far [data] has been advanced *)
  pkt_size : Z;
  stream_index : Z
}.

(** The decoder found by [av_find_best_stream]; it belongs to the library. *)
Record AVCodec := { codec_name : string }.

(** [self->c]: NULL, or the codec context of stream [i] of the input context
    at [h]; that context owns it. *)
Definition codec_ptr := option (handle * nat).

(** [struct avcodecdecode_vars] (avcodecdecode.h); [stream] is an
    [unsigned int]. *)
Record avcodecdecode_vars := {
  codec : option AVCodec;
  pkt : AVPacket;
  pktcopy : AVPacket;
  c : codec_ptr;
  ic : ptr;
  size : Z;
  resample : Z;
  stream : Z;
  frame : ptr;
  floatsamples : ptr;
  drop : CFloat.float;
  taginfo : list chapter;
  current_chapter : option chapter;
  channels : Z;
  swr : ptr
}.

(** [calloc(1, sizeof (struct avcodecdecode_vars))] *)
Definition AVPacket_zero : AVPacket :=
  {| pkt_data := None; pkt_offset := 0; pkt_size := 0; stream_index := 0 |}.
Definition avcodecdecode_vars_zero : avcodecdecode_vars :=
  {| codec := None; pkt := AVPacket_zero; pktcopy := AVPacket_zero; c := None;
     ic := None; size := 0; resample := 0; stream := 0; frame := None;
     floatsamples := None; drop := S754_zero false; taginfo := [];
     current_chapter := None; channels := 0; swr := None |}.

(** *** Objects owned by the libraries and by malloc *)

Record AVCodecContext := {
  codec_id : CodecID;
  ctx_channels : Z;
  sample_rate : Z;
  sample_fmt : AVSampleFormat;
  channel_layout : Z;
  request_sample_fmt : AVSampleFormat;
  request_channel_layout : Z;
  priv_data : ptr                 (* allocated by avcodec_open2 *)
}.

(** [AVFormatContext]: [streams[i]->codec] for each stream [i]. *)
Record AVFormatContext := { streams : list AVCodecContext }.

Inductive obj :=
| OVars (v : avcodecdecode_vars)
| OInput (i : AVFormatContext)
| OCodecPriv
| OMem (size : Z)                 (* a block from malloc *)
| OSrc (converter channels : Z)   (* SRC_STATE *)
| OPacketData
| OFrame
| OSwr.

(** What the rest of the program can see of the file at work. *)
Inductive event :=
| Sync (s : sync_event)
| Seek (timestamp : Z)                          (* av_seek_frame *)
| SetDynamicMetadata (ch : chapter) (delay : Z) (* xlplayer_set_dynamic_metadata *)
| Demux (buf : ptr) (frames nchannels : Z)      (* xlplayer_demux_channel_data *)
| WriteChannelData.                             (* xlplayer_write_channel_data *)

Definition sync_events (t : list event) : list sync_event :=
  omap (fun e => match e with Sync s => Some s | _ => None end) t.

Record world := {
  xl : xlplayer;
  heap : gmap handle obj;
  trace : list event                (* oldest first *)
}.

(** *** Field updates *)

Definition set_xl (x : xlplayer) (w : world) : world :=
  {| xl := x; heap := heap w; trace := trace w |}.
Definition set_heap (h : gmap handle obj) (w : world) : world :=
  {| xl := xl w; heap := h; trace := trace w |}.
Definition set_trace (t : list event) (w : world) : world :=
  {| xl := xl w; heap := heap w; trace := t |}.

Definition set_dec_data (p : ptr) (x : xlplayer) : xlplayer :=
  {| dec_data := p; pathname := pathname x; seek_s := seek_s x;
     samplerate := samplerate x; rsqual := rsqual x; src_state := src_state x;
     src_data := src_data x; playmode := playmode x; command := command x;
     write_deferred := write_deferred x; play_progress_ms := play_progress_ms x;
     dec_init := dec_init x; dec_play := dec_play x; dec_eject := dec_eject x |}.
Definition set_src_state (p : ptr) (x : xlplayer) : xlplayer :=
  {| dec_data := dec_data x; pathname := pathname x; seek_s := seek_s x;
     samplerate := samplerate x; rsqual := rsqual x; src_state := p;
     src_data := src_data x; playmode := playmode x; command := command x;
     write_deferred := write_deferred x; play_progress_ms := play_progress_ms x;
     dec_init := dec_init x; dec_play := dec_play x; dec_eject := dec_eject x |}.
Definition set_src_data (d : SRC_DATA) (x : xlplayer) : xlplayer :=
  {| dec_data := dec_data x; pathname := pathname x; seek_s := seek_s x;
     samplerate := samplerate x; rsqual := rsqual x; src_state := src_state x;
     src_data := d; playmode := playmode x; command := command x;
     write_deferred := write_deferred x; play_progress_ms := play_progress_ms x;
     dec_init := dec_init x; dec_play := dec_play x; dec_eject := dec_eject x |}.
Definition set_playmode (m : playmode_t) (x : xlplayer) : xlplayer :=
  {| dec_data := dec_data x; pathname := pathname x; seek_s := seek_s x;
     samplerate := samplerate x; rsqual := rsqual x; src_state := src_state x;
     src_data := src_data x; playmode := m; command := command x;
     write_deferred := write_deferred x; play_progress_ms := play_progress_ms x;
     dec_init := dec_init x; dec_play := dec_play x; dec_eject := dec_eject x |}.
Definition set_command (m : command_t) (x : xlplayer) : xlplayer :=
  {| dec_data := dec_data x; pathname := pathname x; seek_s := seek_s x;
     samplerate := samplerate x; rsqual := rsqual x; src_state := src_state x;
     src_data := src_data x; playmode := playmode x; command := m;
     write_deferred := write_deferred x; play_progress_ms := play_progress_ms x;
     dec_init := dec_init x; dec_play := dec_play x; dec_eject := dec_eject x |}.
Definition set_callbacks (i p e : option decoder_fn) (x : xlplayer) : xlplayer :=
  {| dec_data := dec_data x; pathname := pathname x; seek_s := seek_s x;
     samplerate := samplerate x; rsqual := rsqual x; src_state := src_state x;
     src_data := src_data x; playmode := playmode x; command := command x;
     write_deferred := write_deferred x; play_progress_ms := play_progress_ms x;
     dec_init := i; dec_play := p; dec_eject := e |}.

Definition set_data_in (p : ptr) (d : SRC_DATA) : SRC_DATA :=
  {| data_in := p; data_out := data_out d; input_frames := input_frames d;
     output_frames := output_frames d; output_frames_gen := output_frames_gen d;
     end_of_input := end_of_input d; src_ratio := src_ratio d |}.
Definition set_data_out (p : ptr) (d : SRC_DATA) : SRC_DATA :=
  {| data_in := data_in d; data_out := p; input_frames := input_frames d;
     output_frames := output_frames d; output_frames_gen := output_frames_gen d;
     end_of_input := end_of_input d; src_ratio := src_ratio d |}.
Definition set_input_frames (n : Z) (d : SRC_DATA) : SRC_DATA :=
  {| data_in := data_in d; data_out := data_out d; input_frames := n;
     output_frames := output_frames d; output_frames_gen := output_frames_gen d;
     end_of_input := end_of_input d; src_ratio := src_ratio d |}.
Definition set_output_frames (n : Z) (d : SRC_DATA) : SRC_DATA :=
  {| data_in := data_in d; data_out := data_out d; input_frames := input_frames d;
     output_frames := n; output_frames_gen := output_frames_gen d;
     end_of_input := end_of_input d; src_ratio := src_ratio d |}.
Definition set_output_frames_gen (n : Z) (d : SRC_DATA) : SRC_DATA :=
  {| data_in := data_in d; data_out := data_out d; input_frames := input_frames d;
     output_frames := output_frames d; output_frames_gen := n;
     end_of_input := end_of_input d; src_ratio := src_ratio d |}.
Definition set_end_of_input (n : Z) (d : SRC_DATA) : SRC_DATA :=
  {| data_in := data_in d; data_out := data_out d; input_frames := input_frames d;
     output_frames := output_frames d; output_frames_gen := output_frames_gen d;
     end_of_input := n; src_ratio := src_ratio d |}.
Definition set_src_ratio (r : CFloat.double) (d : SRC_DATA) : SRC_DATA :=
  {| data_in := data_in d; data_out := data_out d; input_frames := input_frames d;
     output_frames := output_frames d; output_frames_gen := output_frames_gen d;
     end_of_input := end_of_input d; src_ratio := r |}.

Definition set_codec (x : option AVCodec) (v : avcodecdecode_vars) : avcodecdecode_vars :=
  {| codec := x; pkt := pkt v; pktcopy := pktcopy v; c := c v; ic := ic v;
     size := size v; resample := resample v; stream := stream v;
     frame := frame v; floatsamples := floatsamples v; drop := drop v;
     taginfo := taginfo v; current_chapter := current_chapter v;
     channels := channels v; swr := swr v |}.
Definition set_pkt (x : AVPacket) (v : avcodecdecode_vars) : avcodecdecode_vars :=
  {| codec := codec v; pkt := x; pktcopy := pktcopy v; c := c v; ic := ic v;
     size := size v; resample := resample v; stream := stream v;
     frame := frame v; floatsamples := floatsamples v; drop := drop v;
     taginfo := taginfo v; current_chapter := current_chapter v;
     channels := channels v; swr := swr v |}.
Definition set_pktcopy (x : AVPacket) (v : avcodecdecode_vars) : avcodecdecode_vars :=
  {| codec := codec v; pkt := pkt v; pktcopy := x; c := c v; ic := ic v;
     size := size v; resample := resample v; stream := stream v;
     frame := frame v; floatsamples := floatsamples v; drop := drop v;
     taginfo := taginfo v; current_chapter := current_chapter v;
     channels := channels v; swr := swr v |}.
Definition set_c (x : codec_ptr) (v : avcodecdecode_vars) : avcodecdecode_vars :=
  {| codec := codec v; pkt := pkt v; pktcopy := pktcopy v; c := x; ic := ic v;
     size := size v; resample := resample v; stream := stream v;
     frame := frame v; floatsamples := floatsamples v; drop := drop v;
     taginfo := taginfo v; current_chapter := current_chapter v;
     channels := channels v; swr := swr v |}.
Definition set_ic (x : ptr) (v : avcodecdecode_vars) : avcodecdecode_vars :=
  {| codec := codec v; pkt := pkt v; pktcopy := pktcopy v; c := c v; ic := x;
     size := size v; resample := resample v; stream := stream v;
     frame := frame v; floatsamples := floatsamples v; drop := drop v;
     taginfo := taginfo v; current_chapter := current_chapter v;
     channels := channels v; swr := swr v |}.
Definition set_size (x : Z) (v : avcodecdecode_vars) : avcodecdecode_vars :=
  {| codec := codec v; pkt := pkt v; pktcopy := pktcopy v; c := c v;
     ic := ic v; size := x; resample := resample v; stream := stream v;
     frame := frame v; floatsamples := floatsamples v; drop := drop v;
     taginfo := taginfo v; current_chapter := current_chapter v;
     channels := channels v; swr := swr v |}.
Definition set_resample (x : Z) (v : avcodecdecode_vars) : avcodecdecode_vars :=
  {| codec := codec v; pkt := pkt v; pktcopy := pktcopy v; c := c v;
     ic := ic v; size := size v; resample := x; stream := stream v;
     frame := frame v; floatsamples := floatsamples v; drop := drop v;
     taginfo := taginfo v; current_chapter := current_chapter v;
     channels := channels v; swr := swr v |}.
Definition set_stream (x : Z) (v : avcodecdecode_vars) : avcodecdecode_vars :=
  {| codec := codec v; pkt := pkt v; pktcopy := pktcopy v; c := c v;
     ic := ic v; size := size v; resample := resample v; stream := x;
     frame := frame v; floatsamples := floatsamples v; drop := drop v;
     taginfo := taginfo v; current_chapter := current_chapter v;
     channels := channels v; swr := swr v |}.
Definition set_frame (x : ptr) (v : avcodecdecode_vars) : avcodecdecode_vars :=
  {| codec := codec v; pkt := pkt v; pktcopy := pktcopy v; c := c v;
     ic := ic v; size := size v; resample := resample v; stream := stream v;
     frame := x; floatsamples := floatsamples v; drop := drop v;
     taginfo := taginfo v; current_chapter := current_chapter v;
     channels := channels v; swr := swr v |}.
Definition set_floatsamples (x : ptr) (v : avcodecdecode_vars) : avcodecdecode_vars :=
  {| codec := codec v; pkt := pkt v; pktcopy := pktcopy v; c := c v;
     ic := ic v; size := size v; resample := resample v; stream := stream v;
     frame := frame v; floatsamples := x; drop := drop v; taginfo := taginfo v;
     current_chapter := current_chapter v; channels := channels v;
     swr := swr v |}.
Definition set_drop (x : CFloat.float) (v : avcodecdecode_vars) : avcodecdecode_vars :=
  {| codec := codec v; pkt := pkt v; pktcopy := pktcopy v; c := c v;
     ic := ic v; size := size v; resample := resample v; stream := stream v;
     frame := frame v; floatsamples := floatsamples v; drop := x;
     taginfo := taginfo v; current_chapter := current_chapter v;
     channels := channels v; swr := swr v |}.
Definition set_taginfo (x : list chapter) (v : avcodecdecode_vars) : avcodecdecode_vars :=
  {| codec := codec v; pkt := pkt v; pktcopy := pktcopy v; c := c v;
     ic := ic v; size := size v; resample := resample v; stream := stream v;
     frame := frame v; floatsamples := floatsamples v; drop := drop v;
     taginfo := x; current_chapter := current_chapter v;
     channels := channels v; swr := swr v |}.
Definition set_current_chapter (x : option chapter) (v : avcodecdecode_vars) : avcodecdecode_vars :=
  {| codec := codec v; pkt := pkt v; pktcopy := pktcopy v; c := c v;
     ic := ic v; size := size v; resample := resample v; stream := stream v;
     frame := frame v; floatsamples := floatsamples v; drop := drop v;
     taginfo := taginfo v; current_chapter := x; channels := channels v;
     swr := swr v |}.
Definition set_channels (x : Z) (v : avcodecdecode_vars) : avcodecdecode_vars :=
  {| codec := codec v; pkt := pkt v; pktcopy := pktcopy v; c := c v;
     ic := ic v; size := size v; resample := resample v; stream := stream v;
     frame := frame v; floatsamples := floatsamples v; drop := drop v;
     taginfo := taginfo v; current_chapter := current_chapter v; channels := x;
     swr := swr v |}.
Definition set_swr (x : ptr) (v : avcodecdecode_vars) : avcodecdecode_vars :=
  {| codec := codec v; pkt := pkt v; pktcopy := pktcopy v; c := c v;
     ic := ic v; size := size v; resample := resample v; stream := stream v;
     frame := frame v; floatsamples := floatsamples v; drop := drop v;
     taginfo := taginfo v; current_chapter := current_chapter v;
     channels := channels v; swr := x |}.

Abbreviation M := (SFM world).

Definition emit (e : event) : M unit :=
  modify_world (fun w => set_trace (trace w ++ [e]) w).

(** [xlplayer->...] *)
Definition get_xl : M xlplayer := fun w => Some (xl w, w).
Definition modify_xl (f : xlplayer -> xlplayer) : M unit :=
  modify_world (fun w => set_xl (f (xl w)) w).
Definition modify_src_data (f : SRC_DATA -> SRC_DATA) : M unit :=
  modify_xl (fun x => set_src_data (f (src_data x)) x).

(** *** The heap *)

Definition alloc (o : obj) : M handle := fun w =>
  let h := fresh (dom (heap w)) in Some (h, set_heap (<[h := o]> (heap w)) w).

Definition load (h : handle) : M obj := fun w =>
  match heap w !! h with
  | Some o => Some (o, w)
  | None => None
  end.

Definition store (h : handle) (o : obj) : M unit :=
  load h;; modify_world (fun w => set_heap (<[h := o]> (heap w)) w).

Definition free (h : handle) : M unit :=
  load h;; modify_world (fun w => set_heap (delete h (heap w)) w).

Definition deref (p : ptr) : M handle :=
  match p with Some h => mret h | None => fault end.

(** [self->...] for [self = xlplayer->dec_data]. *)
Definition load_vars : M avcodecdecode_vars :=
  x ← get_xl; h ← deref (dec_data x); o ← load h;
  match o with OVars v => mret v | _ => fault end.
Definition modify_vars (f : avcodecdecode_vars -> avcodecdecode_vars) : M unit :=
  x ← get_xl; h ← deref (dec_data x); o ← load h;
  match o with OVars v => store h (OVars (f v)) | _ => fault end.

Definition load_input (p : ptr) : M AVFormatContext :=
  h ← deref p; o ← load h; match o with OInput i => mret i | _ => fault end.

(** [c->...] and [*c = x] for a codec context [c]. *)
Definition load_codec (p : codec_ptr) : M AVCodecContext :=
  match p with
  | None => fault
  | Some (h, i) =>
      x ← load_input (Some h);
      match streams x !! i with Some cx => mret cx | None => fault end
  end.
Definition store_codec (p : codec_ptr) (cx : AVCodecContext) : M unit :=
  match p with
  | None => fault
  | Some (h, i) =>
      x ← load_input (Some h);
      match streams x !! i with
      | Some _ => store h (OInput {| streams := <[i := cx]> (streams x) |})
      | None => fault
      end
  end.
Definition store_at (p : ptr) (o : obj) : M unit := h ← deref p; store h o.

(** [free(p)]: nothing for NULL. *)
Definition c_free (p : ptr) : M unit :=
  match p with Some h => free h | None => mret tt end.

(** [malloc(size)] *)
Definition malloc (ok : bool) (size : Z) : M ptr :=
  if ok then h ← alloc (OMem size); mret (Some h) else mret None.

Definition lock_avc_mutex : M unit := emit (Sync EvLock).
Definition unlock_avc_mutex : M unit := emit (Sync EvUnlock).

(** *** The library functions the file calls *)

(** [av_free_packet(&self->pkt)]: frees the data, then [data = NULL] and
    [size = 0]. *)
Definition av_free_packet : M unit :=
  v ← load_vars;
  c_free (pkt_data (pkt v));;
  modify_vars (fun v => set_pkt {| pkt_data := None; pkt_offset := 0;
                                   pkt_size := 0;
                                   stream_index := stream_index (pkt v) |} v).

(** [src_delete(state)] returns NULL. *)
Definition src_delete (state : ptr) : M ptr :=
  match state with
  | None => mret None
  | Some h =>
      o ← load h;
      match o with OSrc _ _ => free h;; mret None | _ => fault end
  end.

(** [src_new(converter, channels, &error)]: a state and no error, or NULL
    and an error. *)
Definition src_new (error : Z) (converter nchannels : Z) : M ptr :=
  if error =? 0 then h ← alloc (OSrc converter nchannels); mret (Some h)
  else mret None.

(** [swr_free(&self->swr)] *)
Definition swr_free : M unit :=
  v ← load_vars;
  match swr v with
  | None => mret tt
  | Some h =>
      o ← load h;
      match o with
      | OSwr => free h;; modify_vars (set_swr None)
      | _ => fault
      end
  end.

(** [avcodec_open2(c, codec, NULL)] *)
Definition avcodec_open2 (ret : Z) (p : codec_ptr) (cd : option AVCodec)
  : M Z :=
  x ← load_codec p;
  emit (Sync EvOpen2);;
  if ret <? 0 then mret ret
  else
    h ← alloc OCodecPriv;
    store_codec p {| codec_id := codec_id x;
                     ctx_channels := ctx_channels x;
                     sample_rate := sample_rate x;
                     sample_fmt := sample_fmt x;
                     channel_layout := channel_layout x;
                     request_sample_fmt := request_sample_fmt x;
                     request_channel_layout := request_channel_layout x;
                     priv_data := Some h |};;
    mret ret.

(** [avcodec_close(c)]: frees what [avcodec_open2] allocated, if anything. *)
Definition avcodec_close (p : codec_ptr) : M unit :=
  x ← load_codec p;
  emit (Sync EvClose);;
  c_free (priv_data x);;
  store_codec p {| codec_id := codec_id x;
                   ctx_channels := ctx_channels x;
                   sample_rate := sample_rate x;
                   sample_fmt := sample_fmt x;
                   channel_layout := channel_layout x;
                   request_sample_fmt := request_sample_fmt x;
                   request_channel_layout := request_channel_layout x;
                   priv_data := None |}.

(** [avformat_open_input(&self->ic, pathname, NULL, NULL)]: on success a
    context with a codec context for each stream of the file. *)
Definition avformat_open_input (ret : Z) (l : list AVCodecContext) : M Z :=
  if ret <? 0 then mret ret
  else
    h ← alloc (OInput {| streams := l |});
    modify_vars (set_ic (Some h));;
    mret ret.

(** [avformat_close_input(&self->ic)]: frees the context and its streams,
    then [self->ic = NULL]; nothing for NULL. *)
Definition avformat_close_input : M unit :=
  v ← load_vars;
  match ic v with
  | None => mret tt
  | Some h =>
      load_input (ic v);;
      free h;;
      modify_vars (set_ic None)
  end.

(** [av_seek_frame(self->ic, -1, timestamp, 0)] *)
Definition av_seek_frame (p : ptr) (timestamp : Z) : M unit :=
  load_input p;; emit (Seek timestamp).

(** *** The functions of avcodecdecode.c *)

Section Build.
(** Whether the file is compiled with HAVE_SWRESAMPLE. *)
Variable HAVE_SWRESAMPLE : bool.

Definition avcodecdecode_eject : M unit :=
  v ← load_vars;
  (match pkt_data (pkt v) with
   | Some _ => av_free_packet
   | None => mret tt
   end);;
  v ← load_vars;
  (if resample v =? 0 then mret tt
   else
     x ← get_xl;
     p ← src_delete (src_state x);
     modify_xl (set_src_state p);;
     x ← get_xl;
     c_free (data_out (src_data x)));;
  v ← load_vars;
  (match floatsamples v with
   | Some _ => c_free (floatsamples v)
   | None => mret tt
   end);;
  (if HAVE_SWRESAMPLE then
     v ← load_vars;
     match swr v with Some _ => swr_free | None => mret tt end
   else mret tt);;
  lock_avc_mutex;;
  v ← load_vars;
  avcodec_close (c v);;
  unlock_avc_mutex;;
  avformat_close_input;;
  v ← load_vars;
  (match frame v with
   | Some _ => c_free (frame v)
   | None => mret tt
   end);;
  x ← get_xl;
  c_free (dec_data x).

(** What the libraries decide during [avcodecdecode_init]. *)
Record init_env := {
  malloc_ok : bool;                  (* malloc(dsiz) *)
  src_error : Z                      (* what src_new leaves in src_error *)
}.

(** The literal [1.6], stored in a [float]. *)
Definition f1_6 : CFloat.float :=
  CFloat.float_of_double
    (CFloat.double_div (CFloat.double_of_int 16) (CFloat.double_of_int 10)).

(** The cleanup both failures of the resampler setup share. *)
Definition init_bail : M unit :=
  modify_vars (set_resample 0);;
  avcodecdecode_eject;;
  modify_xl (set_playmode PM_STOPPED);;
  modify_xl (set_command CMD_COMPLETE).

Definition avcodecdecode_init (e : init_env) : M unit :=
  x ← get_xl;
  (if seek_s x =? 0 then mret tt
   else
     v ← load_vars;
     av_seek_frame (ic v) (seek_s x * AV_TIME_BASE);;
     cx ← load_codec (c v);
     match codec_id cx with
     | CODEC_ID_MUSEPACK7 | CODEC_ID_MUSEPACK8 => modify_vars (set_drop f1_6)
     | CODEC_ID_OTHER => mret tt
     end);;
  v ← load_vars;
  cx ← load_codec (c v);
  let nchannels := if ctx_channels cx =? 1 then 1 else 2 in
  modify_vars (set_channels nchannels);;
  let differ := if sample_rate cx =? to_int (samplerate x) then 0 else 1 in
  modify_vars (set_resample differ);;
  if differ =? 0 then mret tt
  else
    let ratio := CFloat.double_div (CFloat.double_of_int (samplerate x))
                                   (CFloat.double_of_int (sample_rate cx)) in
    modify_src_data (set_src_ratio ratio);;
    modify_src_data (set_end_of_input 0);;
    dsiz ← match CFloat.double_to_size_t
                   (CFloat.double_add
                      (CFloat.double_mul
                         (CFloat.double_of_int
                            (AVCODEC_MAX_AUDIO_FRAME_SIZE * nchannels))
                         ratio)
                      (CFloat.double_of_int 512)) with
           | Some n => mret n
           | None => fault
           end;
    modify_src_data (set_output_frames (dsiz / (4 * nchannels)));;
    p ← malloc (malloc_ok e) dsiz;
    modify_src_data (set_data_out p);;
    match p with
    | None => init_bail
    | Some _ =>
        st ← src_new (src_error e) (rsqual x) nchannels;
        modify_xl (set_src_state st);;
        if src_error e =? 0 then mret tt
        else c_free p;; init_bail
    end.

(** What the libraries decide during [avcodecdecode_reg]. *)
Record reg_env := {
  calloc_ok : bool;
  fopen_ok : bool;
  tag_read : list chapter;                  (* mp3_tag_read *)
  chapter_scan : option chapter;            (* mp3_tag_chapter_scan *)
  open_input_ret : Z;                       (* avformat_open_input *)
  input_streams : list AVCodecContext;
  find_stream_info_ret : Z;                 (* avformat_find_stream_info *)
  best_stream_ret : Z;                      (* av_find_best_stream *)
  best_stream_codec : AVCodec;
  open2_ret : Z                             (* avcodec_open2 *)
}.

(** [free(self)] *)
Definition free_self : M unit := x ← get_xl; c_free (dec_data x).

Definition avcodecdecode_reg (e : reg_env) : M Z :=
  self ← (if calloc_ok e
          then h ← alloc (OVars avcodecdecode_vars_zero); mret (Some h)
          else mret None);
  modify_xl (set_dec_data self);;
  match self with
  | None => mret REJECTED
  | Some _ =>
      modify_xl (set_dec_data self);;
      (if fopen_ok e then
         modify_vars (set_taginfo (tag_read e));;
         match chapter_scan e with
         | Some ch =>
             modify_vars (set_current_chapter (Some ch));;
             emit (SetDynamicMetadata ch 70)
         | None => mret tt
         end
       else mret tt);;
      r ← avformat_open_input (open_input_ret e) (input_streams e);
      if r <? 0 then free_self;; mret REJECTED
      else
        v ← load_vars;
        load_input (ic v);;
        if find_stream_info_ret e <? 0 then
          avformat_close_input;; free_self;; mret REJECTED
        else
          lock_avc_mutex;;
          v ← load_vars;
          load_input (ic v);;
          (if best_stream_ret e <? 0 then mret tt
           else modify_vars (set_codec (Some (best_stream_codec e))));;
          (* [self->stream] is unsigned: the value compared with 0 is the
             one stored *)
          modify_vars (set_stream (to_unsigned (best_stream_ret e)));;
          v ← load_vars;
          if stream v <? 0 then
            avformat_close_input;; free_self;; mret REJECTED
          else
            unlock_avc_mutex;;
            v ← load_vars;
            h ← deref (ic v);
            let cp := Some (h, Z.to_nat (stream v)) in
            load_codec cp;;
            modify_vars (set_c cp);;
            (if HAVE_SWRESAMPLE then mret tt
             else
               cx ← load_codec cp;
               store_codec cp
                 {| codec_id := codec_id cx;
                    ctx_channels := ctx_channels cx;
                    sample_rate := sample_rate cx;
                    sample_fmt := sample_fmt cx;
                    channel_layout := channel_layout cx;
                    request_sample_fmt := AV_SAMPLE_FMT_FLT;
                    request_channel_layout := AV_CH_LAYOUT_STEREO_DOWNMIX;
                    priv_data := priv_data cx |});;
            lock_avc_mutex;;
            v ← load_vars;
            r ← avcodec_open2 (open2_ret e) (c v) (codec v);
            if r <? 0 then
              unlock_avc_mutex;;
              avformat_close_input;; free_self;; mret REJECTED
            else
              unlock_avc_mutex;;
              modify_xl (set_callbacks (Some Avcodecdecode_init)
                                       (Some Avcodecdecode_play)
                                       (Some Avcodecdecode_eject));;
              mret ACCEPTED
  end.

End Build.

(** *** avcodecdecode_play: the conversion to interleaved floats

    The [switch (self->c->sample_fmt)] of the build without libswresample.
    [self->floatsamples] is declared [uint8_t *] (avcodecdecode.h) and the
    cases of the switch go through it with [float *] pointers.  The buffer
    is the list of the floats it holds, a plane of the frame a list of its
    samples; a pointer into the buffer is its distance in bytes from
    [self->floatsamples]. *)

(** [sizeof (float)] *)
Definition sizeof_float : Z := 4.

(** A store of [x] at index [i] of the buffer: undefined past its end. *)
Definition poke (buf : list CFloat.float) (i : Z) (x : CFloat.float)
  : option (list CFloat.float) :=
  if (0 <=? i) && (i <? Z.of_nat (length buf))
  then Some (<[Z.to_nat i := x]> buf) else None.

(** The loop of the planar cases: while [d < endp], store the converted next
    sample of [l] through [d++] and, if [channels == 2], the converted next
    sample of [r] through [d++].  [d] is a [float *] that starts at the
    buffer, so it stays a multiple of [sizeof (float)] bytes into it and each
    [d++] moves it that many bytes on; the store goes to the float at index
    [d / sizeof (float)].  Each turn advances [d], so [endp - d] turns are
    enough. *)
Fixpoint planar_loop {A} (conv : A -> CFloat.float) (nchannels : Z)
    (fuel : nat) (l r : list A) (d endp : Z) (buf : list CFloat.float)
  : option (list CFloat.float) :=
  if d <? endp then
    match fuel with
    | O => None
    | S fuel' =>
        match l with
        | [] => None
        | x :: l' =>
            buf ← poke buf (d / sizeof_float) (conv x);
            if nchannels =? 2 then
              match r with
              | [] => None
              | y :: r' =>
                  buf ← poke buf ((d + sizeof_float) / sizeof_float) (conv y);
                  planar_loop conv nchannels fuel' l' r'
                              (d + 2 * sizeof_float) endp buf
              end
            else planar_loop conv nchannels fuel' l' r
                             (d + sizeof_float) endp buf
        end
    end
  else Some buf.

(** The loop of the packed double case: while [d < endp], store the next
    sample of [s], converted to float, through [d++]; [d] and [endp] as in
    [planar_loop]. *)
Fixpoint packed_loop {A} (conv : A -> CFloat.float) (fuel : nat) (s : list A)
    (d endp : Z) (buf : list CFloat.float) : option (list CFloat.float) :=
  if d <? endp then
    match fuel with
    | O => None
    | S fuel' =>
        match s with
        | [] => None
        | x :: s' =>
            buf ← poke buf (d / sizeof_float) (conv x);
            packed_loop conv fuel' s' (d + sizeof_float) endp buf
        end
    end
  else Some buf.

(** [memcpy(self->floatsamples, data, n)] for a plane of floats. *)
Definition memcpy_floats (buf l : list CFloat.float) (n : Z)
  : option (list CFloat.float) :=
  if (n <? 0) || negb (n mod 4 =? 0) then None
  else
    let k := Z.to_nat (n / 4) in
    if (k <=? length l)%nat && (k <=? length buf)%nat
    then Some (firstn k l ++ skipn k buf) else None.

(** Integer division as C has it: undefined for a zero divisor. *)
Definition c_div (a b : Z) : option Z :=
  if b =? 0 then None else Some (Z.quot a b).

(** A plane of the decoded frame, by the type of its samples: integers, or
    floats and doubles. *)
Inductive plane := PInt (l : list Z) | PReal (l : list spec_float).

Definition as_int (p : plane) : option (list Z) :=
  match p with PInt l => Some l | PReal _ => None end.
Definition as_real (p : plane) : option (list spec_float) :=
  match p with PReal l => Some l | PInt _ => None end.

(** What the switch leaves: the frame count and the buffer, or the cases that
    set [PM_EJECTING] and return. *)
Inductive converted :=
| Frames (frames : Z) (buf : list CFloat.float)
| Unhandled.

Section Convert.
(** [xlplayer_make_audio_to_float(xlplayer, buffer, data, frames, bits,
    channels)] of xlplayer.c, which the two packed integer cases call. *)
Variable xlplayer_make_audio_to_float :
  list CFloat.float -> list Z -> Z -> Z -> Z -> option (list CFloat.float).

(** [float *d = self->floatsamples] and
    [float *endp = self->floatsamples + (channels * frames)]: the sum is taken
    on the [uint8_t *], so [endp] is [channels * frames] bytes into the
    buffer. *)
Definition planar_case {A} (conv : A -> CFloat.float) (shift : Z)
    (nchannels buffer_size : Z) (l r : option (list A))
    (buf : list CFloat.float) : option converted :=
  frames ← c_div (Z.shiftr buffer_size shift) nchannels;
  l ← l;
  r ← (if nchannels =? 2 then r else Some []);
  buf ← planar_loop conv nchannels (Z.to_nat (nchannels * frames)) l r
                    0 (nchannels * frames) buf;
  Some (Frames frames buf).

Definition convert (fmt : AVSampleFormat) (nchannels buffer_size : Z)
    (data0 data1 : plane) (buf : list CFloat.float) : option converted :=
  match fmt with
  | AV_SAMPLE_FMT_FLT =>
      frames ← c_div (Z.shiftr buffer_size 2) nchannels;
      l ← as_real data0;
      buf ← memcpy_floats buf l buffer_size;
      Some (Frames frames buf)
  | AV_SAMPLE_FMT_FLTP =>
      planar_case (fun x => x) 2 nchannels buffer_size
                  (as_real data0) (as_real data1) buf
  | AV_SAMPLE_FMT_DBL =>
      frames ← c_div (Z.shiftr buffer_size 3) nchannels;
      s ← as_real data0;
      (* [d] and [endp] as in [planar_case] *)
      buf ← packed_loop CFloat.float_of_double (Z.to_nat (nchannels * frames))
                        s 0 (nchannels * frames) buf;
      Some (Frames frames buf)
  | AV_SAMPLE_FMT_DBLP =>
      planar_case CFloat.float_of_double 3 nchannels buffer_size
                  (as_real data0) (as_real data1) buf
  | AV_SAMPLE_FMT_S16 =>
      frames ← c_div (Z.shiftr buffer_size 1) nchannels;
      s ← as_int data0;
      buf ← xlplayer_make_audio_to_float buf s frames 16 nchannels;
      Some (Frames frames buf)
  | AV_SAMPLE_FMT_S16P =>
      planar_case
        (fun x => CFloat.float_div (CFloat.float_of_int x) CFloat.f32768)
        1 nchannels buffer_size (as_int data0) (as_int data1) buf
  | AV_SAMPLE_FMT_S32 =>
      frames ← c_div (Z.shiftr buffer_size 2) nchannels;
      s ← as_int data0;
      buf ← xlplayer_make_audio_to_float buf s frames 32 nchannels;
      Some (Frames frames buf)
  | AV_SAMPLE_FMT_S32P =>
      planar_case
        (fun x => CFloat.float_div (CFloat.float_of_int x) CFloat.f1073741824)
        2 nchannels buffer_size (as_int data0) (as_int data1) buf
  | AV_SAMPLE_FMT_NONE => Some Unhandled
  | AV_SAMPLE_FMT_U8 | AV_SAMPLE_FMT_U8P => Some Unhandled
  end.

End Convert.

(** *** avcodecdecode_play: handing the samples on

    The statements after the conversion: through the resampler when
    [self->resample], else straight to [xlplayer_demux_channel_data]. *)

Record deliver_env := {
  src_process_ret : Z;               (* src_process *)
  src_process_gen : Z;               (* what it leaves in output_frames_gen *)
  deferred_after_write : Z           (* write_deferred after
                                        xlplayer_write_channel_data *)
}.

(** [src_process(xlplayer->src_state, src_data)] *)
Definition src_process (ret gen : Z) : M Z :=
  x ← get_xl;
  h ← deref (src_state x);
  o ← load h;
  match o with
  | OSrc _ _ =>
      if ret =? 0 then modify_src_data (set_output_frames_gen gen);; mret ret
      else mret ret
  | _ => fault
  end.

(** [xlplayer_write_channel_data(xlplayer)] *)
Definition xlplayer_write_channel_data (deferred : Z) : M unit :=
  emit WriteChannelData;;
  modify_xl (fun x =>
    {| dec_data := dec_data x; pathname := pathname x; seek_s := seek_s x;
       samplerate := samplerate x; rsqual := rsqual x;
       src_state := src_state x; src_data := src_data x;
       playmode := playmode x; command := command x;
       write_deferred := deferred; play_progress_ms := play_progress_ms x;
       dec_init := dec_init x; dec_play := dec_play x;
       dec_eject := dec_eject x |}).

(** The result is [false] where the C code returns from
    [avcodecdecode_play]. *)
Definition deliver (e : deliver_env) (nb_samples : Z) : M bool :=
  v ← load_vars;
  frames ←
    (if resample v =? 0 then
       emit (Demux (floatsamples v) nb_samples (channels v));;
       mret (Some nb_samples)
     else
       modify_src_data (set_input_frames nb_samples);;
       modify_src_data (set_data_in (floatsamples v));;
       r ← src_process (src_process_ret e) (src_process_gen e);
       if r =? 0 then
         x ← get_xl;
         emit (Demux (data_out (src_data x)) (output_frames_gen (src_data x))
                     (channels v));;
         mret (Some (output_frames_gen (src_data x)))
       else
         modify_xl (set_playmode PM_EJECTING);;
         mret None);
  match frames with
  | None => mret false
  | Some frames =>
      v ← load_vars;
      x ← get_xl;
      (if SFltb (S754_zero false) (drop v) then
         modify_vars
           (set_drop (CFloat.float_sub (drop v)
                        (CFloat.float_div (CFloat.float_of_int frames)
                           (CFloat.float_of_int (samplerate x)))))
       else xlplayer_write_channel_data (deferred_after_write e));;
      mret true
  end.

End Decoder.

(** ** Reasoning about computations *)

Lemma bind_Some {W A B} (m : SFM W A) (f : A -> SFM W B) w b w' :
  (m ≫= f) w = Some (b, w') <->
  exists a w1, m w = Some (a, w1) /\ f a w1 = Some (b, w').
Proof.
  unfold mbind, SFM_bind. split.
  - destruct (m w) as [[a w1]|]; [eauto | discriminate].
  - intros (a & w1 & -> & H). exact H.
Qed.

Lemma ret_Some {W A} (a b : A) (w w' : W) :
  mret (M := SFM W) a w = Some (b, w') <-> a = b /\ w = w'.
Proof. unfold mret, SFM_ret. split; [intros [= -> ->] | intros [-> ->]]; auto. Qed.

(** [step_inv R m]: every run of [m] that returns relates the world before
    to the world after by [R]. *)
Definition step_inv {W A} (R : relation W) (m : SFM W A) : Prop :=
  forall w a w', m w = Some (a, w') -> R w w'.

(** [keeps f]: the part [f] of the world is the same after as before. *)
Definition keeps {W T} (f : W -> T) : relation W :=
  fun w w' => f w' = f w.

#[export] Instance keeps_preorder {W T} (f : W -> T) : PreOrder (keeps f).
Proof. split; unfold keeps; [intros w | intros w1 w2 w3 H1 H2]; congruence. Qed.

Lemma step_inv_intro {W A} (R : relation W) (m : SFM W A) w a w' :
  step_inv R m -> m w = Some (a, w') -> R w w'.
Proof. intros H. apply H. Qed.

Section StepInv.
Context {W : Type} (R : relation W) `{!PreOrder R}.

Lemma step_inv_ret {A} (a : A) : step_inv R (mret (M := SFM W) a).
Proof. intros w b w' [_ <-]%ret_Some. reflexivity. Qed.

Lemma step_inv_fault {A} : step_inv R (@fault W A).
Proof. intros w a w' [=]. Qed.

Lemma step_inv_bind {A B} (m : SFM W A) (f : A -> SFM W B) :
  step_inv R m -> (forall a, step_inv R (f a)) -> step_inv R (m ≫= f).
Proof.
  intros Hm Hf w b w' (a & w1 & H1 & H2)%bind_Some.
  transitivity w1; [eapply Hm | eapply Hf]; eauto.
Qed.

Lemma step_inv_modify (f : W -> W) :
  (forall w, R w (f w)) -> step_inv R (modify_world f).
Proof. intros Hf w [] w' [= <-]. apply Hf. Qed.

Lemma step_inv_for_each {A} (f : A -> SFM W unit) (l : list A) :
  (forall a, step_inv R (f a)) -> step_inv R (for_each f l).
Proof.
  intros Hf. induction l as [|a l IH]; simpl.
  - apply step_inv_ret.
  - apply step_inv_bind; auto.
Qed.

End StepInv.

(** One structural step on a goal [step_inv R m]: through a bind, a
    conditional or a match, or into a primitive. *)
Ltac inv_step :=
  match goal with
  | |- step_inv _ (_ ≫= _) => apply step_inv_bind; [typeclasses eauto | | intros ?]
  | |- step_inv _ (mret _) => apply step_inv_ret; typeclasses eauto
  | |- step_inv _ fault => apply step_inv_fault
  | |- step_inv _ (for_each _ _) =>
      apply step_inv_for_each; [typeclasses eauto | intros ?]
  | |- step_inv _ (modify_world _) => apply step_inv_modify; intros ?
  | |- step_inv _ (if ?b then _ else _) => destruct b
  | |- step_inv _ (match ?x with _ => _ end) => destruct x
  end.

(** ** Facts about live_webm_encoder.c *)
Module EncoderFacts.
Import Encoder.

Section Reads.
Context (R : relation world) `{!PreOrder R}.

Lemma step_inv_get_webm self : step_inv R (get_webm self).
Proof.
  intros w s w'. unfold get_webm.
  destruct (webm w self); intros [= _ <-]; reflexivity.
Qed.

Lemma step_inv_get_encoder : step_inv R get_encoder.
Proof. intros w s w' [= _ <-]. reflexivity. Qed.

Lemma step_inv_load h : step_inv R (load h).
Proof.
  intros w s w'. unfold load.
  destruct (heap w !! h); intros [= _ <-]; reflexivity.
Qed.

End Reads.

Ltac enc_step :=
  first
    [ inv_step
    | match goal with
      | |- step_inv _ (get_webm _) => apply step_inv_get_webm; typeclasses eauto
      | |- step_inv _ get_encoder => apply step_inv_get_encoder; typeclasses eauto
      | |- step_inv _ (load _) => apply step_inv_load; typeclasses eauto
      end ].

Create HintDb inv.

(** *** Frame lemmas

    A relation that does not look at the heap, at the trace, at the two
    [WebMState] blocks, nor at [encoder->timestamp] and [encoder->oggserial]
    is kept by every function below [live_webm_encoder_main]. *)
Section Frame.
Context `{PF : packet_flag_values}.
Context (R : relation world) `{!PreOrder R}.
Hypothesis R_heap : forall w m, R w (set_heap m w).
Hypothesis R_trace : forall w t, R w (set_trace t w).
Hypothesis R_webm : forall w p s, R w (set_webm p s w).
Hypothesis R_timestamp : forall w v, R w (set_enc (set_timestamp v (enc w)) w).
Hypothesis R_oggserial : forall w v, R w (set_enc (set_oggserial v (enc w)) w).

Local Ltac frame :=
  repeat first
    [ enc_step
    | apply R_heap | apply R_trace | apply R_webm
    | apply R_timestamp | apply R_oggserial
    | solve [eauto with inv] ].

Lemma frame_alloc o : step_inv R (alloc o).
Proof. intros w h w' [= _ <-]. apply R_heap. Qed.
Lemma frame_store h o : step_inv R (store h o).
Proof. unfold store. frame. Qed.
Lemma frame_free h : step_inv R (free h).
Proof. unfold free. frame. Qed.
Lemma frame_deref p : step_inv R (deref p).
Proof. unfold deref. frame. Qed.
#[local] Hint Resolve frame_alloc frame_store frame_free frame_deref : inv.

Lemma frame_load_format p : step_inv R (load_format p).
Proof. unfold load_format. frame. Qed.
Lemma frame_load_stream p : step_inv R (load_stream p).
Proof. unfold load_stream. frame. Qed.
Lemma frame_load_avio p : step_inv R (load_avio p).
Proof. unfold load_avio. frame. Qed.
Lemma frame_load_frame p : step_inv R (load_frame p).
Proof. unfold load_frame. frame. Qed.
Lemma frame_load_swr p : step_inv R (load_swr p).
Proof. unfold load_swr. frame. Qed.
Lemma frame_store_at p o : step_inv R (store_at p o).
Proof. unfold store_at. frame. Qed.
#[local] Hint Resolve frame_load_format frame_load_stream frame_load_avio
  frame_load_frame frame_load_swr frame_store_at : inv.

Lemma frame_load_codec p : step_inv R (load_codec p).
Proof. unfold load_codec. frame. Qed.
Lemma frame_store_codec p c : step_inv R (store_codec p c).
Proof. unfold store_codec. frame. Qed.
Lemma frame_av_free p : step_inv R (av_free p).
Proof. unfold av_free. frame. Qed.
#[local] Hint Resolve frame_load_codec frame_store_codec frame_av_free : inv.
Lemma frame_av_freep p : step_inv R (av_freep p).
Proof. unfold av_freep. frame. Qed.
Lemma frame_emit e : step_inv R (emit e).
Proof. unfold emit. frame. Qed.
Lemma frame_modify_webm self f : step_inv R (modify_webm self f).
Proof. unfold modify_webm. frame. Qed.
Lemma frame_self_encoder self : step_inv R (self_encoder self).
Proof. unfold self_encoder. frame. Qed.
#[local] Hint Resolve frame_av_freep frame_emit frame_modify_webm frame_self_encoder : inv.

Lemma frame_avformat_alloc_context ok : step_inv R (avformat_alloc_context ok).
Proof. unfold avformat_alloc_context. frame. Qed.
Lemma frame_av_malloc ok n : step_inv R (av_malloc ok n).
Proof. unfold av_malloc. frame. Qed.
Lemma frame_avio_alloc_context ok b self : step_inv R (avio_alloc_context ok b self).
Proof. unfold avio_alloc_context. frame. Qed.
Lemma frame_avformat_new_stream s p : step_inv R (avformat_new_stream s p).
Proof. unfold avformat_new_stream. frame. Qed.
Lemma frame_avformat_free_context p : step_inv R (avformat_free_context p).
Proof. unfold avformat_free_context. frame. Qed.
Lemma frame_avcodec_open2 r p c : step_inv R (avcodec_open2 r p c).
Proof. unfold avcodec_open2. frame. Qed.
Lemma frame_avcodec_close p : step_inv R (avcodec_close p).
Proof. unfold avcodec_close. frame. Qed.
Lemma frame_av_frame_alloc ok : step_inv R (av_frame_alloc ok).
Proof. unfold av_frame_alloc. frame. Qed.
Lemma frame_av_frame_get_buffer r p : step_inv R (av_frame_get_buffer r p).
Proof. unfold av_frame_get_buffer. frame. Qed.
Lemma frame_av_frame_free p : step_inv R (av_frame_free p).
Proof. unfold av_frame_free. frame. Qed.
Lemma frame_swr_alloc ok : step_inv R (swr_alloc ok).
Proof. unfold swr_alloc. frame. Qed.
Lemma frame_swr_init r p : step_inv R (swr_init r p).
Proof. unfold swr_init. frame. Qed.
Lemma frame_swr_free p : step_inv R (swr_free p).
Proof. unfold swr_free. frame. Qed.
Lemma frame_av_dict_set p k v : step_inv R (av_dict_set p k v).
Proof. unfold av_dict_set. frame. Qed.
#[local] Hint Resolve frame_avformat_alloc_context frame_av_malloc
  frame_avio_alloc_context frame_avformat_new_stream
  frame_avformat_free_context frame_avcodec_open2 frame_avcodec_close
  frame_av_frame_alloc frame_av_frame_get_buffer frame_av_frame_free
  frame_swr_alloc frame_swr_init frame_swr_free frame_av_dict_set : inv.

Lemma frame_add_stream e self id br sr ch :
  step_inv R (add_stream e self id br sr ch).
Proof. unfold add_stream. frame. Qed.
Lemma frame_alloc_audio_frame fe f l r n :
  step_inv R (alloc_audio_frame fe f l r n).
Proof. unfold alloc_audio_frame. frame. Qed.
#[local] Hint Resolve frame_add_stream frame_alloc_audio_frame : inv.
Lemma frame_open_stream e self c : step_inv R (open_stream e self c).
Proof. unfold open_stream, lock_avc_mutex, unlock_avc_mutex. frame. Qed.
Lemma frame_close_stream self : step_inv R (close_stream self).
Proof. unfold close_stream. frame. Qed.
Lemma frame_get_audio_frame a self : step_inv R (get_audio_frame a self).
Proof. unfold get_audio_frame. frame. Qed.
Lemma frame_write_packet self buf n : step_inv R (write_packet self buf n).
Proof. unfold write_packet, modify_encoder. frame. Qed.
#[local] Hint Resolve frame_open_stream frame_close_stream frame_get_audio_frame
  frame_write_packet : inv.
Lemma frame_run_muxer call p : step_inv R (run_muxer call p).
Proof. unfold run_muxer. frame. Qed.
#[local] Hint Resolve frame_run_muxer : inv.
Lemma frame_write_audio_frame a self : step_inv R (write_audio_frame a self).
Proof. unfold write_audio_frame, av_write_frame. frame. Qed.
Lemma frame_write_header call self x : step_inv R (write_header call self x).
Proof. unfold write_header, avformat_write_header, modify_encoder. frame. Qed.
Lemma frame_write_trailer call self x : step_inv R (write_trailer call self x).
Proof. unfold write_trailer, av_write_trailer. frame. Qed.
Lemma frame_freep_avio_buffer self : step_inv R (freep_avio_buffer self).
Proof. unfold freep_avio_buffer. frame. Qed.
Lemma frame_freep_avio_ctx self : step_inv R (freep_avio_ctx self).
Proof. unfold freep_avio_ctx. frame. Qed.
#[local] Hint Resolve frame_write_audio_frame frame_write_header frame_write_trailer
  frame_freep_avio_buffer frame_freep_avio_ctx : inv.
Lemma frame_fail2 self : step_inv R (fail2 self).
Proof. unfold fail2, fail1. frame. Qed.
#[local] Hint Resolve frame_fail2 : inv.
Lemma frame_fail4 self : step_inv R (fail4 self).
Proof. unfold fail4. frame. Qed.
#[local] Hint Resolve frame_fail4 : inv.
Lemma frame_setup e self x : step_inv R (setup e self x).
Proof. unfold setup, fail5, fail3, fail1. frame. Qed.
Lemma frame_teardown self : step_inv R (teardown self).
Proof. unfold teardown. frame. Qed.
Lemma frame_free_webm p : step_inv R (free_webm p).
Proof. unfold free_webm. frame. Qed.
Lemma frame_metadata_of self : step_inv R (metadata_of self).
Proof. unfold metadata_of. frame. Qed.

End Frame.

(** *** The life cycle: [encoder->encoder_state] across one call *)

(** What the framework and this function communicate through:
    [encoder->encoder_state] and [encoder->run_request_f]. *)
Definition ctl (w : world) : encoder_state_t * bool :=
  (encoder_state (enc w), run_request_f (enc w)).

Ltac ctl_frame lem :=
  apply lem; try typeclasses eauto; intros; unfold keeps, ctl; try reflexivity;
  match goal with |- context [set_webm ?p] => destruct p; reflexivity end.

Section LifeCycle.
Context `{PF : packet_flag_values}.

Lemma ctl_setup e self x : step_inv (keeps ctl) (setup e self x).
Proof. ctl_frame @frame_setup. Qed.
Lemma ctl_teardown self : step_inv (keeps ctl) (teardown self).
Proof. ctl_frame @frame_teardown. Qed.
Lemma ctl_write_header c self x : step_inv (keeps ctl) (write_header c self x).
Proof. ctl_frame @frame_write_header. Qed.
Lemma ctl_write_trailer c self x : step_inv (keeps ctl) (write_trailer c self x).
Proof. ctl_frame @frame_write_trailer. Qed.
Lemma ctl_write_audio_frame a self : step_inv (keeps ctl) (write_audio_frame a self).
Proof. ctl_frame @frame_write_audio_frame. Qed.
Lemma ctl_metadata_of self : step_inv (keeps ctl) (metadata_of self).
Proof. ctl_frame @frame_metadata_of. Qed.
Lemma ctl_free_webm p : step_inv (keeps ctl) (free_webm p).
Proof. ctl_frame @frame_free_webm. Qed.

(** [bailout] always leaves the state at [ES_STOPPED]. *)
Lemma bailout_state self w w' :
  bailout self w = Some (tt, w') -> encoder_state (enc w') = ES_STOPPED.
Proof.
  unfold bailout, modify_encoder. intros H.
  repeat (apply bind_Some in H as ([] & ? & [= <-] & H)).
  assert (Hk : step_inv (keeps ctl)
                 (s ← get_webm self; free_webm (metadata s);; free_webm (Some self))).
  { repeat enc_step; apply ctl_free_webm. }
  apply Hk in H. unfold keeps, ctl in H. simpl in H. congruence.
Qed.
(** The transitions one call can make, given the state and
    [encoder->run_request_f] it is entered with. *)
Definition transition (s : encoder_state_t) (rq : bool) (s' : encoder_state_t) : Prop :=
  match s with
  | ES_STARTING => s' = ES_STOPPED \/ s' = (if rq then ES_RUNNING else ES_STOPPING)
  | ES_RUNNING => s' = ES_RUNNING \/ s' = ES_STOPPING
  | ES_STOPPING => s' = (if rq then ES_STARTING else ES_STOPPED)
  | ES_STOPPED => s' = ES_STOPPED
  end.

Local Ltac ctl_inv :=
  unfold modify_encoder;
  repeat first
    [ enc_step
    | apply ctl_setup | apply ctl_teardown | apply ctl_write_header
    | apply ctl_write_trailer | apply ctl_write_audio_frame
    | apply ctl_metadata_of | reflexivity ].

Lemma main_transition e w w' :
  live_webm_encoder_main e w = Some (tt, w') ->
  transition (encoder_state (enc w)) (run_request_f (enc w)) (encoder_state (enc w')).
Proof.
  unfold live_webm_encoder_main. intros H.
  apply bind_Some in H as (encoder & w0 & [= <- <-] & H).
  apply bind_Some in H as (self & w1 & Hs & H).
  destruct (encoder_private (enc w)); [apply ret_Some in Hs as [<- <-] | discriminate].
  destruct (decide (encoder_state (enc w) = ES_STARTING)) as [E|NE1].
  { rewrite E. simpl.
    apply bind_Some in H as (r & w1 & H1 & H).
    apply ctl_setup in H1. destruct r.
    - left. eapply bailout_state, H.
    - apply bind_Some in H as (m & w2 & H2 & H). apply ctl_metadata_of in H2.
      apply bind_Some in H as (r & w3 & H3 & H). apply ctl_setup in H3.
      destruct r.
      + apply bind_Some in H as ([] & w4 & H4 & H). left. eapply bailout_state, H.
      + apply bind_Some in H as (enc2 & w4 & [= <- <-] & H).
        assert (K : ctl w3 = ctl w) by (unfold keeps in *; congruence).
        unfold ctl in K. injection K as K1 K2. rewrite K2 in H.
        right. destruct (run_request_f (enc w)); injection H as <-; reflexivity. }
  destruct (decide (encoder_state (enc w) = ES_RUNNING)) as [E|NE2].
  { rewrite E. simpl.
    apply bind_Some in H as ([] & w1 & H1 & H).
    apply bind_Some in H as (enc1 & w2 & [= <- <-] & H).
    apply bind_Some in H as ([] & w3 & H3 & H).
    apply bind_Some in H as (r & w4 & H4 & H).
    assert (K1 : keeps ctl w w1) by (revert H1; apply step_inv_intro; ctl_inv).
    assert (K3 : keeps ctl w1 w3) by (revert H3; apply step_inv_intro; ctl_inv).
    apply ctl_write_audio_frame in H4.
    assert (K : ctl w4 = ctl w) by (unfold keeps in *; congruence).
    unfold ctl in K. injection K as K _.
    destruct (r =? 0).
    - apply ret_Some in H as [_ <-]. left. congruence.
    - injection H as <-. right. reflexivity. }
  destruct (decide (encoder_state (enc w) = ES_STOPPING)) as [E|NE3].
  { rewrite E. simpl.
    apply bind_Some in H as (m & w1 & H1 & H). apply ctl_metadata_of in H1.
    apply bind_Some in H as (r1 & w2 & H2 & H). apply ctl_write_trailer in H2.
    apply bind_Some in H as (r2 & w3 & H3 & H). apply ctl_write_trailer in H3.
    apply bind_Some in H as ([] & w4 & H4 & H). apply ctl_teardown in H4.
    apply bind_Some in H as ([] & w5 & H5 & H). apply ctl_teardown in H5.
    apply bind_Some in H as ([] & w6 & [= <-] & H).
    apply bind_Some in H as (enc6 & w7 & [= <- <-] & H).
    assert (K : ctl w5 = ctl w) by (unfold keeps in *; congruence).
    unfold ctl in K. injection K as _ K. simpl in H. rewrite K in H.
    destruct (run_request_f (enc w)).
    - injection H as <-. reflexivity.
    - eapply bailout_state, H. }
  destruct (encoder_state (enc w)); try congruence.
  simpl. eapply bailout_state, H.
Qed.



End LifeCycle.

(** *** A concrete encoder, to run the embedding on *)

Definition demo_flags : packet_flag_values :=
  {| PF_INITIAL := 1; PF_FINAL := 2; PF_HEADER := 4; PF_WEBM := 8;
     PF_SUPPRESS := 16 |}.

Definition demo_encoder (run_request : bool) : encoder :=
  {| encoder_state := ES_STARTING; run_request_f := run_request; flush := false;
     new_metadata := false; use_metadata := true; custom_meta := "title";
     bitrate := 128000; target_samplerate := 48000; n_channels := 2;
     data_format_codec := ENCODER_CODEC_OPUS; oggserial := 7;
     timestamp := S754_zero false; run_encoder := None;
     encoder_private := None |}.

(** Before [live_webm_encoder_init]: nothing allocated. *)
Definition demo_world (run_request : bool) : world :=
  {| enc := demo_encoder run_request; webm_self := None; webm_meta := None;
     heap := ∅; trace := [] |}.

Definition demo_codec : AVCodec :=
  {| type := AVMEDIA_TYPE_AUDIO; sample_fmts := Some [AV_SAMPLE_FMT_FLT];
     capabilities := 0; codec_frame_size := 960 |}.

Definition demo_stream : AVStream :=
  {| id := 0; time_base := (0, 1);
     st_codec := {| sample_fmt := AV_SAMPLE_FMT_NONE; bit_rate := 0;
                    sample_rate := 0; channels := 0; channel_layout := 0;
                    flags := 0; frame_size := 0; ctx_time_base := (1, 48000);
                    codec := None; priv_data := None |} |}.

(** The muxer writes one 64-byte buffer and reports success. *)
Definition demo_mux : muxer_call := {| writes := [(None, 64)]; mux_ret := 0 |}.

(** Every library call of [setup] succeeds. *)
Definition setup_ok : setup_env :=
  {| alloc_context_ok := true;
     guess_format := Some {| oformat_flags := AVFMT_GLOBALHEADER |};
     av_malloc_ok := true; avio_alloc_ok := true;
     find_encoder := fun _ => Some demo_codec;
     new_stream := Some demo_stream; open2_ret := 0;
     frame_env_1 := {| frame_alloc_ok := true; get_buffer_ret := 0 |};
     frame_env_2 := {| frame_alloc_ok := true; get_buffer_ret := 0 |};
     swr_alloc_ok := true; swr_init_ret := 0; header_call := demo_mux |}.

Definition audio_ok : audio_env :=
  {| input_data_ok := true; swr_delay := 0; make_writable_ret := 0;
     swr_convert_ret := 0; encode_ret := 0; got_packet := true;
     write_frame_call := demo_mux |}.

(** The encoder reports an error for the frame. *)
Definition audio_encode_error : audio_env :=
  {| input_data_ok := true; swr_delay := 0; make_writable_ret := 0;
     swr_convert_ret := 0; encode_ret := -1; got_packet := false;
     write_frame_call := demo_mux |}.

Definition demo_env (a : audio_env) : main_env :=
  {| start_setup_self := setup_ok; start_setup_meta := setup_ok;
     meta_trailer_self := demo_mux; meta_header_self := demo_mux;
     meta_trailer_meta := demo_mux; meta_setup_meta := setup_ok;
     flush_trailer_self := demo_mux; flush_header_self := demo_mux;
     flush_trailer_meta := demo_mux; flush_header_meta := demo_mux;
     audio := a;
     stop_trailer_meta := demo_mux; stop_trailer_self := demo_mux |}.

(** The world after [m], or the world before if [m] faults. *)
Definition after {A} (m : M A) (w : world) : world :=
  match m w with Some (_, w') => w' | None => w end.

Definition demo_main (a : audio_env) : M unit :=
  live_webm_encoder_main (PF := demo_flags) (demo_env a).

(** init, then one call in STARTING with a run request: RUNNING. *)
Definition w_running : world :=
  after (demo_main audio_ok)
    (after (live_webm_encoder_init true true) (demo_world true)).
(** One more call, in which encoding fails: STOPPING, request still set. *)
Definition w_stopping : world := after (demo_main audio_encode_error) w_running.
(** init, then one call in STARTING without a run request: STOPPING. *)
Definition w_idle_stopping : world :=
  after (demo_main audio_ok)
    (after (live_webm_encoder_init true true) (demo_world false)).





(** *** The transient bits of [packet_flags] *)

Lemma step_inv_weaken {W A} (R R' : relation W) (m : SFM W A) :
  (forall w w', R w w' -> R' w w') -> step_inv R m -> step_inv R' m.
Proof. intros HR Hm w a w' H. eapply HR, Hm, H. Qed.

Lemma get_webm_Some self w s w' :
  get_webm self w = Some (s, w') <-> webm w self = Some s /\ w' = w.
Proof.
  unfold get_webm. destruct (webm w self); split.
  - intros [= -> ->]. auto.
  - intros [[= ->] ->]. reflexivity.
  - discriminate.
  - intros [[=] _].
Qed.

Lemma modify_webm_Some self f w u w' :
  modify_webm self f w = Some (u, w') <->
  exists s, webm w self = Some s /\ w' = set_webm self (Some (f s)) w.
Proof.
  unfold modify_webm. rewrite bind_Some. split.
  - intros (s & w1 & [Hs ->]%get_webm_Some & [= <-]). eauto.
  - intros (s & Hs & ->). exists s, w. rewrite get_webm_Some. destruct u. auto.
Qed.

Lemma webm_set_webm p q s w :
  webm (set_webm p s w) q = if decide (p = q) then s else webm w q.
Proof. destruct p, q; reflexivity. Qed.

(** The two [WebMState] blocks. *)
Definition blocks (w : world) : option WebMState * option WebMState :=
  (webm_self w, webm_meta w).

(** [self->packet_flags] of each of the two blocks. *)
Definition flags_of (w : world) (b : which) : option Z :=
  packet_flags <$> webm w b.

Section PacketFlags.
Context `{PF : packet_flag_values}.

Definition clear_initial (f : Z) : Z := Z.land f (Z.lnot PF_INITIAL).

(** Between the two worlds no block appeared or went away, and the only
    change to any [packet_flags] is that PF_INITIAL was cleared. *)
Definition clears_initial_only (w w' : world) : Prop :=
  forall b, flags_of w' b = flags_of w b \/
            flags_of w' b = clear_initial <$> flags_of w b.

Lemma clear_initial_idem f : clear_initial (clear_initial f) = clear_initial f.
Proof.
  unfold clear_initial. rewrite <- Z.land_assoc, Z.land_diag. reflexivity.
Qed.

#[local] Instance clears_initial_only_preorder : PreOrder clears_initial_only.
Proof.
  split.
  - intros w b. left. reflexivity.
  - intros w1 w2 w3 H12 H23 b.
    destruct (H23 b) as [-> | ->], (H12 b) as [-> | ->]; auto.
    right. destruct (flags_of w1 b); simpl; [| reflexivity].
    rewrite clear_initial_idem. reflexivity.
Qed.

Lemma keeps_blocks_clears w w' :
  keeps blocks w w' -> clears_initial_only w w'.
Proof.
  unfold keeps, blocks. intros [= H1 H2] b. left.
  unfold flags_of. destruct b; simpl; congruence.
Qed.

Lemma clears_initial_write_packet self buf n :
  step_inv clears_initial_only (write_packet self buf n).
Proof.
  unfold write_packet.
  apply step_inv_bind; [typeclasses eauto | enc_step | intros s].
  apply step_inv_bind; [typeclasses eauto | | intros ?].
  - eapply step_inv_weaken; [apply keeps_blocks_clears |].
    unfold self_encoder, modify_encoder, emit. repeat enc_step; reflexivity.
  - apply step_inv_bind; [typeclasses eauto | | intros ?; enc_step].
    intros w [] w' (s' & Hs & ->)%modify_webm_Some b.
    unfold flags_of. rewrite webm_set_webm. destruct (decide (self = b)) as [<- |].
    + right. rewrite Hs. reflexivity.
    + left. reflexivity.
Qed.

Lemma clears_initial_run_muxer call p :
  step_inv clears_initial_only (run_muxer call p).
Proof.
  unfold run_muxer.
  apply step_inv_bind; [typeclasses eauto | | intros c].
  { eapply step_inv_weaken; [apply keeps_blocks_clears |].
    unfold load_format, deref. repeat enc_step. }
  apply step_inv_bind; [typeclasses eauto | | intros a].
  { eapply step_inv_weaken; [apply keeps_blocks_clears |].
    unfold load_avio, deref. repeat enc_step. }
  repeat enc_step. apply clears_initial_write_packet.
Qed.

(** With nothing to write, the muxer leaves both blocks as they are. *)
Lemma run_muxer_no_writes call p :
  writes call = [] -> step_inv (keeps blocks) (run_muxer call p).
Proof.
  intros E. unfold run_muxer, load_format, load_avio, deref. rewrite E. simpl.
  repeat enc_step.
Qed.

Lemma write_packet_flags self buf n w r w' s :
  webm w self = Some s ->
  write_packet self buf n w = Some (r, w') ->
  r = 1 /\
  webm w' self = Some (set_packet_flags (clear_initial (packet_flags s)) s).
Proof.
  intros Hs H. unfold write_packet in H.
  apply bind_Some in H as (s0 & w0 & [Hs0 ->]%get_webm_Some & H).
  apply bind_Some in H as ([] & w1 & H1 & H).
  assert (K : keeps blocks w w1).
  { revert H1. apply step_inv_intro.
    unfold self_encoder, modify_encoder, emit. repeat enc_step; reflexivity. }
  apply bind_Some in H as ([] & w2 & (s1 & Hs1 & ->)%modify_webm_Some & [-> <-]%ret_Some).
  split; [reflexivity |].
  rewrite webm_set_webm, decide_True by reflexivity.
  assert (webm w1 self = webm w self) as E
    by (unfold keeps, blocks in K; injection K; destruct self; simpl; congruence).
  assert (s1 = s) as -> by congruence. reflexivity.
Qed.

(** [packet_flags] after [write_header]: the flags ored in, PF_INITIAL
    possibly cleared by the write callback, then PF_HEADER and
    [extra_flags] masked out. *)
Lemma write_header_flags call self x w r w' s :
  webm w self = Some s ->
  write_header call self x w = Some (r, w') ->
  let F := Z.lor (packet_flags s) (Z.lor (Z.lor PF_HEADER PF_INITIAL) x) in
  exists s' F',
    webm w' self = Some s' /\
    packet_flags s' = Z.land F' (Z.lnot (Z.lor PF_HEADER x)) /\
    (F' = F \/ F' = clear_initial F) /\
    (writes call = [] -> F' = F).
Proof.
  intros Hs H F. subst F. unfold write_header in H.
  apply bind_Some in H as ([] & w1 & H1 & H).
  assert (K : keeps blocks w w1).
  { revert H1. apply step_inv_intro.
    unfold self_encoder, modify_encoder. repeat enc_step; reflexivity. }
  assert (webm w1 self = Some s) as Hs1
    by (unfold keeps, blocks in K; injection K; destruct self; simpl in *; congruence).
  apply bind_Some in H as ([] & w2 & (s1 & Hs1' & ->)%modify_webm_Some & H).
  assert (s1 = s) as -> by congruence.
  apply bind_Some in H as (s2 & w2 & [Hs2 ->]%get_webm_Some & H).
  rewrite webm_set_webm, decide_True in Hs2 by reflexivity. injection Hs2 as <-.
  apply bind_Some in H as (ret & w3 & H3 & H).
  apply bind_Some in H as ([] & w4 & (s3 & Hs3 & ->)%modify_webm_Some & [-> <-]%ret_Some).
  exists (set_packet_flags (Z.land (packet_flags s3) (Z.lnot (Z.lor PF_HEADER x))) s3),
         (packet_flags s3).
  split; [rewrite webm_set_webm, decide_True by reflexivity; reflexivity |].
  split; [reflexivity |].
  split.
  - apply clears_initial_run_muxer in H3. specialize (H3 self).
    unfold flags_of in H3. rewrite Hs3, webm_set_webm, decide_True in H3 by reflexivity.
    simpl in H3. destruct H3 as [[= ->] | [= ->]]; auto.
  - intros E. apply (run_muxer_no_writes _ _ E) in H3.
    assert (webm w3 self = webm (set_webm self
              (Some (set_packet_flags
                 (Z.lor (packet_flags s) (Z.lor (Z.lor PF_HEADER PF_INITIAL) x)) s))
              w1) self) as E3
      by (unfold keeps, blocks in H3; injection H3; destruct self; simpl; congruence).
    rewrite Hs3, webm_set_webm, decide_True in E3 by reflexivity.
    injection E3 as ->. reflexivity.
Qed.

(** [packet_flags] after [write_trailer]: [extra_flags] ored in, PF_INITIAL
    possibly cleared by the write callback, PF_FINAL ored in, PF_INITIAL
    cleared by the call of [write_packet], then PF_FINAL and [extra_flags]
    masked out. *)
Lemma write_trailer_flags call self x w r w' s :
  webm w self = Some s ->
  write_trailer call self x w = Some (r, w') ->
  exists s' F',
    webm w' self = Some s' /\
    packet_flags s' =
      Z.land (clear_initial (Z.lor F' PF_FINAL)) (Z.lnot (Z.lor PF_FINAL x)) /\
    (F' = Z.lor (packet_flags s) x \/
     F' = clear_initial (Z.lor (packet_flags s) x)).
Proof.
  intros Hs H. unfold write_trailer in H.
  apply bind_Some in H as ([] & w1 & (s1 & Hs1 & ->)%modify_webm_Some & H).
  assert (s1 = s) as -> by congruence.
  apply bind_Some in H as (s2 & w2 & [Hs2 ->]%get_webm_Some & H).
  rewrite webm_set_webm, decide_True in Hs2 by reflexivity. injection Hs2 as <-.
  apply bind_Some in H as (ret & w3 & H3 & H).
  apply bind_Some in H as ([] & w4 & (s3 & Hs3 & ->)%modify_webm_Some & H).
  apply bind_Some in H as (one & w5 & H5 & H).
  eapply write_packet_flags in H5 as [-> Hs5];
    [| rewrite webm_set_webm, decide_True by reflexivity; reflexivity].
  apply bind_Some in H as ([] & w6 & (s5 & Hs5' & ->)%modify_webm_Some & [-> <-]%ret_Some).
  rewrite Hs5 in Hs5'. injection Hs5' as <-.
  eexists _, (packet_flags s3).
  split; [rewrite webm_set_webm, decide_True by reflexivity; reflexivity |].
  split; [reflexivity |].
  apply clears_initial_run_muxer in H3. specialize (H3 self).
  unfold flags_of in H3. rewrite Hs3, webm_set_webm, decide_True in H3 by reflexivity.
  simpl in H3. destruct H3 as [[= ->] | [= ->]]; auto.
Qed.

Lemma testbit_clear a b n :
  Z.testbit (Z.land a (Z.lnot b)) n = Z.testbit a n && negb (Z.testbit b n).
Proof.
  destruct (Z.neg_nonneg_cases n) as [Hn | Hn].
  - rewrite !Z.testbit_neg_r by assumption. reflexivity.
  - rewrite Z.land_spec, Z.lnot_spec by assumption. reflexivity.
Qed.

Local Ltac bits :=
  unfold clear_initial;
  rewrite ?testbit_clear, ?Z.lor_spec, ?testbit_clear, ?Z.lor_spec in *;
  repeat match goal with
         | H : context [Z.testbit ?a ?n] |- _ => destruct (Z.testbit a n); simpl in *
         | |- context [Z.testbit ?a ?n] => destruct (Z.testbit a n); simpl in *
         end;
  congruence.

(** *** Suppressed output *)

(** The block that the write callback of [self->oc->pb] is given as
    [opaque]. *)
Definition io_opaque (w : world) (self : which) : option which :=
  s ← webm w self;
  h ← oc s;
  o ← heap w !! h;
  match o with
  | OFormat c =>
      hp ← pb c;
      o' ← heap w !! hp;
      match o' with OAvio a => Some (opaque a) | _ => None end
  | _ => None
  end.

Lemma suppress_survives f :
  Z.land PF_INITIAL PF_SUPPRESS = 0 ->
  Z.land (clear_initial f) PF_SUPPRESS = Z.land f PF_SUPPRESS.
Proof.
  intros H. unfold clear_initial. apply Z.bits_inj'. intros n Hn.
  rewrite !Z.land_spec, Z.lnot_spec by assumption.
  assert (Hb : Z.testbit (Z.land PF_INITIAL PF_SUPPRESS) n = false)
    by (rewrite H; apply Z.bits_0).
  rewrite Z.land_spec in Hb.
  destruct (Z.testbit f n), (Z.testbit PF_INITIAL n), (Z.testbit PF_SUPPRESS n);
    simpl in *; congruence.
Qed.

Lemma write_packet_suppressed self buf n w s :
  webm w self = Some s ->
  Z.land (packet_flags s) PF_SUPPRESS <> 0 ->
  write_packet self buf n w =
    Some (1, set_webm self
               (Some (set_packet_flags (clear_initial (packet_flags s)) s)) w).
Proof.
  intros Hs Hf. apply Z.eqb_neq in Hf.
  unfold write_packet, modify_webm, get_webm, mbind, SFM_bind, mret, SFM_ret,
    modify_world.
  rewrite Hs, Hf, Hs. reflexivity.
Qed.

Lemma load_Some h o w w' :
  load h w = Some (o, w') <-> heap w !! h = Some o /\ w' = w.
Proof.
  unfold load. destruct (heap w !! h); split.
  - intros [= -> ->]. auto.
  - intros [[= ->] ->]. reflexivity.
  - discriminate.
  - intros [[=] _].
Qed.

Lemma load_format_Some p c w w' :
  load_format p w = Some (c, w') ->
  exists h, p = Some h /\ heap w !! h = Some (OFormat c) /\ w' = w.
Proof.
  unfold load_format, deref. destruct p as [h|]; [| discriminate].
  intros (h' & w1 & [<- <-]%ret_Some & H)%bind_Some.
  apply bind_Some in H as (o & w2 & [Ho ->]%load_Some & H).
  destruct o; try discriminate. apply ret_Some in H as [-> ->]. eauto.
Qed.

Lemma load_avio_Some p a w w' :
  load_avio p w = Some (a, w') ->
  exists h, p = Some h /\ heap w !! h = Some (OAvio a) /\ w' = w.
Proof.
  unfold load_avio, deref. destruct p as [h|]; [| discriminate].
  intros (h' & w1 & [<- <-]%ret_Some & H)%bind_Some.
  apply bind_Some in H as (o & w2 & [Ho ->]%load_Some & H).
  destruct o; try discriminate. apply ret_Some in H as [-> ->]. eauto.
Qed.

(** A muxer call made while PF_SUPPRESS is set on the block its callback
    writes for: the encoder and the trace are as before. *)
Lemma run_muxer_suppressed call self w r w' s :
  Z.land PF_INITIAL PF_SUPPRESS = 0 ->
  webm w self = Some s ->
  Z.land (packet_flags s) PF_SUPPRESS <> 0 ->
  io_opaque w self = Some self ->
  run_muxer call (oc s) w = Some (r, w') ->
  enc w' = enc w /\ trace w' = trace w /\ heap w' = heap w.
Proof.
  intros Hd Hs Hf Hio H. unfold run_muxer in H.
  apply bind_Some in H as (c & w0 & (h & Hoc & Hh & ->)%load_format_Some & H).
  apply bind_Some in H as (a & w0 & (hp & Hpb & Hhp & ->)%load_avio_Some & H).
  unfold io_opaque in Hio. rewrite Hs in Hio. simpl in Hio.
  rewrite Hoc in Hio. simpl in Hio. rewrite Hh in Hio. simpl in Hio.
  rewrite Hpb in Hio. simpl in Hio. rewrite Hhp in Hio. simpl in Hio.
  injection Hio as Hio. rewrite Hio in H. clear Hio Hoc Hh Hpb Hhp h hp c a.
  apply bind_Some in H as ([] & w1 & H & [_ <-]%ret_Some).
  revert w s Hs Hf H. induction (writes call) as [|b l IH]; intros w s Hs Hf H.
  - injection H as <-. auto.
  - simpl in H. apply bind_Some in H as ([] & w2 & H2 & H).
    apply bind_Some in H2 as (one & w3 & H3 & [_ <-]%ret_Some).
    rewrite (write_packet_suppressed _ _ _ _ _ Hs Hf) in H3. injection H3 as _ <-.
    eapply IH in H.
    + destruct H as (-> & -> & ->). destruct self; auto.
    + rewrite webm_set_webm, decide_True by reflexivity. reflexivity.
    + simpl. rewrite suppress_survives; assumption.
Qed.

Lemma self_encoder_Some self e w w' :
  self_encoder self w = Some (e, w') -> e = enc w /\ w' = w.
Proof.
  unfold self_encoder.
  intros (s & w1 & [_ ->]%get_webm_Some & H)%bind_Some.
  destruct (has_encoder s); [| discriminate]. injection H as <- <-. auto.
Qed.

Lemma suppress_in_extra f h x :
  Z.land x PF_SUPPRESS <> 0 -> Z.land (Z.lor f (Z.lor h x)) PF_SUPPRESS <> 0.
Proof.
  intros Hx E. apply Hx. apply Z.bits_inj'. intros n Hn.
  assert (Hb : Z.testbit (Z.land (Z.lor f (Z.lor h x)) PF_SUPPRESS) n = false)
    by (rewrite E; apply Z.bits_0).
  rewrite Z.land_spec, !Z.lor_spec in Hb. rewrite Z.land_spec, Z.bits_0.
  destruct (Z.testbit x n), (Z.testbit PF_SUPPRESS n); try reflexivity.
  rewrite !orb_true_r in Hb. discriminate.
Qed.

Lemma write_header_serial call self x w r w' :
  write_header call self x w = Some (r, w') ->
  oggserial (enc w') =
    if Z.land x PF_SUPPRESS =? 0 then oggserial (enc w) + 1 else oggserial (enc w).
Proof.
  unfold write_header. intros ([] & w1 & H1 & H)%bind_Some.
  assert (K : keeps (fun w => oggserial (enc w)) w1 w').
  { revert H. apply step_inv_intro.
    apply step_inv_bind; [typeclasses eauto | | intros ?].
    { apply frame_modify_webm; [typeclasses eauto |].
      intros w0 p s; destruct p; reflexivity. }
    apply step_inv_bind; [typeclasses eauto | enc_step | intros s].
    apply step_inv_bind; [typeclasses eauto | | intros ?].
    { apply frame_run_muxer; try typeclasses eauto; intros; try reflexivity.
      destruct p; reflexivity. }
    apply step_inv_bind; [typeclasses eauto | | intros ?; enc_step].
    apply frame_modify_webm; [typeclasses eauto |].
    intros w0 p s0; destruct p; reflexivity. }
  unfold keeps in K. rewrite K. clear K.
  destruct (Z.land x PF_SUPPRESS =? 0).
  - apply bind_Some in H1 as (e & w2 & [-> ->]%self_encoder_Some & [= <-]).
    reflexivity.
  - apply ret_Some in H1 as [_ <-]. reflexivity.
Qed.

Lemma write_header_suppressed call self x w r w' s :
  Z.land PF_INITIAL PF_SUPPRESS = 0 ->
  webm w self = Some s ->
  Z.land x PF_SUPPRESS <> 0 ->
  io_opaque w self = Some self ->
  write_header call self x w = Some (r, w') ->
  enc w' = enc w /\ trace w' = trace w.
Proof.
  intros Hd Hs Hx Hio H. unfold write_header in H.
  apply Z.eqb_neq in Hx as Hx'. rewrite Hx' in H.
  apply bind_Some in H as ([] & w1 & [_ <-]%ret_Some & H).
  apply bind_Some in H as ([] & w2 & (s1 & Hs1 & ->)%modify_webm_Some & H).
  assert (s1 = s) as -> by congruence.
  apply bind_Some in H as (s2 & w2 & [Hs2 ->]%get_webm_Some & H).
  apply bind_Some in H as (ret & w3 & H3 & H).
  eapply run_muxer_suppressed in H3 as (E1 & E2 & _); eauto.
  - apply bind_Some in H as ([] & w4 & (s3 & Hs3 & ->)%modify_webm_Some & [_ <-]%ret_Some).
    destruct self; simpl in *; split; congruence.
  - rewrite webm_set_webm, decide_True in Hs2 by reflexivity. injection Hs2 as <-.
    simpl. apply suppress_in_extra, Hx.
  - rewrite webm_set_webm, decide_True in Hs2 by reflexivity. injection Hs2 as <-.
    unfold io_opaque in *. rewrite webm_set_webm, decide_True by reflexivity.
    rewrite Hs in Hio. simpl in *. destruct self; exact Hio.
Qed.

(** A muxer call that writes at least once, through the I/O context of the
    block it is made for: PF_INITIAL is cleared on that block. *)
Lemma run_muxer_written call self w r w' s :
  webm w self = Some s ->
  io_opaque w self = Some self ->
  writes call <> [] ->
  run_muxer call (oc s) w = Some (r, w') ->
  flags_of w' self = Some (clear_initial (packet_flags s)).
Proof.
  intros Hs Hio Hw H. unfold run_muxer in H.
  apply bind_Some in H as (c & w0 & (h & Hoc & Hh & ->)%load_format_Some & H).
  apply bind_Some in H as (a & w0 & (hp & Hpb & Hhp & ->)%load_avio_Some & H).
  unfold io_opaque in Hio. rewrite Hs in Hio. simpl in Hio.
  rewrite Hoc in Hio. simpl in Hio. rewrite Hh in Hio. simpl in Hio.
  rewrite Hpb in Hio. simpl in Hio. rewrite Hhp in Hio. simpl in Hio.
  injection Hio as Hio. rewrite Hio in H. clear Hio Hoc Hh Hpb Hhp h hp c a.
  apply bind_Some in H as ([] & w1 & H & [_ <-]%ret_Some).
  destruct (writes call) as [|b l]; [congruence |]. clear Hw.
  cbn [for_each] in H. apply bind_Some in H as ([] & w2 & H2 & H).
  apply bind_Some in H2 as (one & w3 & H3 & [_ <-]%ret_Some).
  apply (write_packet_flags _ _ _ _ _ _ _ Hs) in H3 as [_ Hs3].
  assert (K : clears_initial_only w3 w1).
  { revert H. apply step_inv_intro.
    apply step_inv_for_each; [typeclasses eauto |]. intros b'.
    apply step_inv_bind; [typeclasses eauto | | intros ?].
    - apply clears_initial_write_packet.
    - apply step_inv_ret. typeclasses eauto. }
  specialize (K self). unfold flags_of in K |- *. rewrite Hs3 in K.
  cbn [fmap option_fmap option_map packet_flags set_packet_flags] in K.
  rewrite clear_initial_idem in K. destruct K as [K | K]; exact K.
Qed.

(** [packet_flags] after a [write_header] whose muxer wrote through the I/O
    context of this block: PF_INITIAL went with the first write. *)
Lemma write_header_flags_written call self x w r w' s :
  webm w self = Some s ->
  io_opaque w self = Some self ->
  writes call <> [] ->
  write_header call self x w = Some (r, w') ->
  exists s',
    webm w' self = Some s' /\
    packet_flags s' =
      Z.land (clear_initial
                (Z.lor (packet_flags s) (Z.lor (Z.lor PF_HEADER PF_INITIAL) x)))
             (Z.lnot (Z.lor PF_HEADER x)).
Proof.
  intros Hs Hio Hw H. unfold write_header in H.
  apply bind_Some in H as ([] & w1 & H1 & H).
  assert (K : webm w1 self = Some s /\ io_opaque w1 self = Some self).
  { destruct (Z.land x PF_SUPPRESS =? 0).
    - apply bind_Some in H1 as (en & w0 & [-> ->]%self_encoder_Some & H1).
      injection H1 as <-. destruct w, self; split; assumption.
    - apply ret_Some in H1 as [_ <-]. split; assumption. }
  destruct K as [Hs1 Hio1]. clear H1.
  apply bind_Some in H as ([] & w2 & (s1 & Hs1' & ->)%modify_webm_Some & H).
  assert (s1 = s) as -> by congruence.
  apply bind_Some in H as (s2 & w2 & [Hs2 ->]%get_webm_Some & H).
  rewrite webm_set_webm, decide_True in Hs2 by reflexivity. injection Hs2 as <-.
  apply bind_Some in H as (ret & w3 & H3 & H).
  apply bind_Some in H as ([] & w4 & (s3 & Hs3 & ->)%modify_webm_Some & [-> <-]%ret_Some).
  eapply run_muxer_written in H3; [| | | exact Hw].
  2: { rewrite webm_set_webm, decide_True by reflexivity. reflexivity. }
  2: { unfold io_opaque in *. rewrite webm_set_webm, decide_True by reflexivity.
       rewrite Hs1 in Hio1. simpl in *. destruct self; exact Hio1. }
  unfold flags_of in H3. rewrite Hs3 in H3.
  cbn [fmap option_fmap option_map packet_flags set_packet_flags] in H3.
  injection H3 as H3.
  eexists. split; [rewrite webm_set_webm, decide_True by reflexivity; reflexivity |].
  cbn [packet_flags set_packet_flags]. rewrite H3. reflexivity.
Qed.

(** C9 (amended): [write_header] leaves PF_HEADER and the caller's
    [extra_flags] cleared and changes no bit outside PF_HEADER, PF_INITIAL
    and [extra_flags]; PF_INITIAL, which it sets, is still set when the
    muxer wrote nothing and is cleared when the muxer wrote through the I/O
    context of the stream, whether or not a packet went out.
    [write_trailer] leaves PF_FINAL, the caller's [extra_flags] and
    PF_INITIAL cleared and changes no other bit.  [write_packet] clears
    PF_INITIAL and changes no other bit, and on a suppressed stream it does
    so without handing a packet on. *)
Theorem transient_flags_cleared self x w s (Hs : webm w self = Some s) :
  (forall call r w', write_header call self x w = Some (r, w') ->
     exists s', webm w' self = Some s' /\
       (forall n, Z.testbit (Z.lor PF_HEADER x) n = true ->
                  Z.testbit (packet_flags s') n = false) /\
       (forall n, Z.testbit (Z.lor PF_HEADER x) n = false ->
                  Z.testbit PF_INITIAL n = false ->
                  Z.testbit (packet_flags s') n = Z.testbit (packet_flags s) n) /\
       (forall n, Z.testbit (Z.lor PF_HEADER x) n = false ->
                  Z.testbit PF_INITIAL n = true ->
                  (writes call = [] -> Z.testbit (packet_flags s') n = true) /\
                  (writes call <> [] -> io_opaque w self = Some self ->
                   Z.testbit (packet_flags s') n = false))) /\
  (forall call r w', write_trailer call self x w = Some (r, w') ->
     exists s', webm w' self = Some s' /\
       (forall n, Z.testbit (Z.lor PF_INITIAL (Z.lor PF_FINAL x)) n = true ->
                  Z.testbit (packet_flags s') n = false) /\
       (forall n, Z.testbit (Z.lor PF_INITIAL (Z.lor PF_FINAL x)) n = false ->
                  Z.testbit (packet_flags s') n = Z.testbit (packet_flags s) n)) /\
  (forall buf k r w', write_packet self buf k w = Some (r, w') ->
     exists s', webm w' self = Some s' /\
       (forall n, Z.testbit PF_INITIAL n = true ->
                  Z.testbit (packet_flags s') n = false) /\
       (forall n, Z.testbit PF_INITIAL n = false ->
                  Z.testbit (packet_flags s') n = Z.testbit (packet_flags s) n) /\
       (Z.land (packet_flags s) PF_SUPPRESS <> 0 -> trace w' = trace w)).
Proof.
  split; [| split].
  - intros call r w' H.
    destruct (write_header_flags _ _ _ _ _ _ _ Hs H)
      as (s' & F' & Hs' & Hp & HF & Hnone).
    exists s'. split; [assumption |].
    split; [| split].
    + intros n Hn. rewrite Hp, testbit_clear, Hn. apply andb_false_r.
    + intros n Hn Hi. rewrite Hp. destruct HF as [-> | ->]; bits.
    + intros n Hn Hi. split.
      * intros E. rewrite Hp, (Hnone E). bits.
      * intros Hw Hio.
        destruct (write_header_flags_written _ _ _ _ _ _ _ Hs Hio Hw H)
          as (s'' & Hs'' & Hp'').
        assert (s'' = s') as -> by congruence.
        rewrite Hp''. bits.
  - intros call r w' H.
    destruct (write_trailer_flags _ _ _ _ _ _ _ Hs H) as (s' & F' & Hs' & Hp & HF).
    exists s'. split; [assumption |]. rewrite Hp. clear Hs' Hp H.
    split.
    + intros n Hn. destruct HF as [-> | ->]; bits.
    + intros n Hn. destruct HF as [-> | ->]; bits.
  - intros buf k r w' H.
    destruct (write_packet_flags _ _ _ _ _ _ _ Hs H) as [_ Hs'].
    eexists. split; [exact Hs' |]. simpl.
    split; [| split]; try (intros n Hi; bits).
    intros Hf. rewrite (write_packet_suppressed _ _ _ _ _ Hs Hf) in H.
    injection H as _ <-. destruct w, self; reflexivity.
Qed.

(** C10: with PF_SUPPRESS set in [packet_flags], [write_packet] returns 1,
    hands no packet to [encoder_write_packet_all] and leaves the encoder as
    it is; [write_header] increments [encoder->oggserial] exactly when
    PF_SUPPRESS is not among its [extra_flags]; and a [write_header] with
    PF_SUPPRESS among them, on a stream whose I/O context writes for that
    stream, emits nothing and leaves the encoder as it is. *)
Theorem suppressed_stream_is_silent self w s (Hs : webm w self = Some s) :
  (forall buf n, Z.land (packet_flags s) PF_SUPPRESS <> 0 ->
     exists w', write_packet self buf n w = Some (1, w') /\
                enc w' = enc w /\ trace w' = trace w) /\
  (forall call x r w', write_header call self x w = Some (r, w') ->
     oggserial (enc w') =
       if Z.land x PF_SUPPRESS =? 0 then oggserial (enc w) + 1
       else oggserial (enc w)) /\
  (forall call x r w',
     Z.land PF_INITIAL PF_SUPPRESS = 0 ->
     Z.land x PF_SUPPRESS <> 0 ->
     io_opaque w self = Some self ->
     write_header call self x w = Some (r, w') ->
     enc w' = enc w /\ trace w' = trace w).
Proof.
  split; [| split].
  - intros buf n Hf. eexists. split; [apply write_packet_suppressed; eassumption |].
    destruct self; auto.
  - intros call x r w'. apply write_header_serial.
  - intros call x r w' Hd Hx Hio H. eapply write_header_suppressed; eassumption.
Qed.
End PacketFlags.

(** The block of the RUNNING demo encoder, and that encoder with PF_SUPPRESS
    set on it. *)
Definition running_self : WebMState := default WebMState_zero (webm w_running Self).
Definition w_suppressed : world :=
  set_webm Self (Some (set_packet_flags (@PF_SUPPRESS demo_flags) running_self))
    w_running.

(** A muxer that buffers all it is given. *)
Definition quiet_mux : muxer_call := {| writes := []; mux_ret := 0 |}.

(** The RUNNING demo encoder after [write_header(self, 0)] with nothing
    written: PF_INITIAL is still set. *)
Definition w_header_pending : world :=
  after (write_header (PF := demo_flags) quiet_mux Self 0) w_running.

Lemma transient_flags_cleared_witness :
  (exists s',
     webm (after (write_header (PF := demo_flags) demo_mux Self 16) w_running) Self
       = Some s' /\
     (forall n, Z.testbit (Z.lor (@PF_HEADER demo_flags) 16) n = true ->
                Z.testbit (packet_flags s') n = false) /\
     Z.testbit (packet_flags s') 0 = false) /\
  (exists s',
     webm (after (write_trailer (PF := demo_flags) demo_mux Self 16) w_running) Self
       = Some s' /\
     forall n, Z.testbit (Z.lor (@PF_INITIAL demo_flags)
                            (Z.lor (@PF_FINAL demo_flags) 16)) n = true ->
               Z.testbit (packet_flags s') n = false) /\
  (exists s',
     webm (after (write_packet (PF := demo_flags) Self None 0) w_running) Self
       = Some s' /\
     forall n, Z.testbit (@PF_INITIAL demo_flags) n = true ->
               Z.testbit (packet_flags s') n = false).
Proof.
  pose proof (transient_flags_cleared (PF := demo_flags) Self 16 w_running
                running_self ltac:(vm_compute; reflexivity)) as (Hh & Ht & Hp).
  split; [| split].
  - destruct (Hh demo_mux 0
                (after (write_header (PF := demo_flags) demo_mux Self 16) w_running)
                ltac:(vm_compute; reflexivity)) as (s' & Hs' & Hc & _ & Hi).
    exists s'. split; [exact Hs' |]. split; [exact Hc |].
    apply (Hi 0); [reflexivity | reflexivity | discriminate
                   | vm_compute; reflexivity].
  - destruct (Ht demo_mux 0
                (after (write_trailer (PF := demo_flags) demo_mux Self 16) w_running)
                ltac:(vm_compute; reflexivity)) as (s' & Hs' & Hc & _).
    exists s'. split; [exact Hs' | exact Hc].
  - destruct (Hp None 0 1
                (after (write_packet (PF := demo_flags) Self None 0) w_running)
                ltac:(vm_compute; reflexivity)) as (s' & Hs' & Hc & _).
    exists s'. split; [exact Hs' | exact Hc].
Defined.

(** C9 as stated fails twice.  A header of which the muxer writes nothing
    leaves PF_INITIAL set; [write_trailer(self, 0)] then returns with
    PF_INITIAL cleared, a bit that is neither PF_FINAL nor among its
    [extra_flags].  And [write_header(self, PF_SUPPRESS)] whose muxer writes
    one buffer returns with PF_INITIAL cleared although no packet was
    handed on. *)
Lemma initial_flag_cleared_early :
  (flags_of w_header_pending Self = Some (@PF_INITIAL demo_flags) /\
   Z.testbit (Z.lor (@PF_FINAL demo_flags) 0) 0 = false /\
   exists w',
     write_trailer (PF := demo_flags) demo_mux Self 0 w_header_pending
       = Some (0, w') /\
     flags_of w' Self = Some 0) /\
  (exists w',
     write_header (PF := demo_flags) demo_mux Self (@PF_SUPPRESS demo_flags)
       w_running = Some (0, w') /\
     trace w' = trace w_running /\
     Z.land (default 0 (flags_of w' Self)) (@PF_INITIAL demo_flags) = 0).
Proof.
  split.
  - split; [vm_compute; reflexivity |]. split; [reflexivity |].
    exists (after (write_trailer (PF := demo_flags) demo_mux Self 0)
              w_header_pending).
    split; vm_compute; reflexivity.
  - exists (after (write_header (PF := demo_flags) demo_mux Self
                     (@PF_SUPPRESS demo_flags)) w_running).
    split; [vm_compute; reflexivity |]. split; vm_compute; reflexivity.
Qed.

Lemma suppressed_stream_is_silent_witness :
  (exists w', write_packet (PF := demo_flags) Self None 0 w_suppressed = Some (1, w') /\
              enc w' = enc w_suppressed /\ trace w' = trace w_suppressed) /\
  (let w' := after (write_header (PF := demo_flags) demo_mux Self 16) w_running in
   oggserial (enc w') = oggserial (enc w_running) /\
   enc w' = enc w_running /\ trace w' = trace w_running).
Proof.
  split.
  - pose proof (suppressed_stream_is_silent (PF := demo_flags) Self w_suppressed
                  _ ltac:(vm_compute; reflexivity)) as (Hp & _ & _).
    apply (Hp None 0). vm_compute. discriminate.
  - pose proof (suppressed_stream_is_silent (PF := demo_flags) Self w_running
                  running_self ltac:(vm_compute; reflexivity)) as (_ & Hs & Hq).
    set (w' := after (write_header (PF := demo_flags) demo_mux Self 16) w_running).
    specialize (Hs demo_mux 16 0 w' ltac:(vm_compute; reflexivity)).
    specialize (Hq demo_mux 16 0 w' ltac:(vm_compute; reflexivity)
                  ltac:(vm_compute; discriminate) ltac:(vm_compute; reflexivity)
                  ltac:(vm_compute; reflexivity)).
    split; [exact Hs | exact Hq].
Defined.

(** *** add_stream *)

Lemma store_Some h o w u w' :
  store h o w = Some (u, w') ->
  is_Some (heap w !! h) /\ w' = set_heap (<[h := o]> (heap w)) w.
Proof.
  unfold store. intros (o' & w1 & [Ho ->]%load_Some & [= <-])%bind_Some. eauto.
Qed.

Lemma store_at_Some p o w u w' :
  store_at p o w = Some (u, w') ->
  exists h, p = Some h /\ is_Some (heap w !! h) /\
            w' = set_heap (<[h := o]> (heap w)) w.
Proof.
  unfold store_at, deref. destruct p as [h|]; [| discriminate].
  intros (h' & w1 & [<- <-]%ret_Some & [Ho ->]%store_Some)%bind_Some. eauto.
Qed.

Lemma load_stream_Some p s w w' :
  load_stream p w = Some (s, w') ->
  exists h, p = Some h /\ heap w !! h = Some (OStream s) /\ w' = w.
Proof.
  unfold load_stream, deref. destruct p as [h|]; [| discriminate].
  intros (h' & w1 & [<- <-]%ret_Some & H)%bind_Some.
  apply bind_Some in H as (o & w2 & [Ho ->]%load_Some & H).
  destruct o; try discriminate. apply ret_Some in H as [-> ->]. eauto.
Qed.

Lemma load_codec_Some p c w w' :
  load_codec p w = Some (c, w') ->
  exists h s, p = Some h /\ heap w !! h = Some (OStream s) /\
              c = st_codec s /\ w' = w.
Proof.
  unfold load_codec.
  intros (s & w1 & (h & -> & Hh & ->)%load_stream_Some & [<- <-]%ret_Some)%bind_Some.
  eauto 10.
Qed.

Lemma store_codec_Some p c w u w' :
  store_codec p c w = Some (u, w') ->
  exists h s, p = Some h /\ heap w !! h = Some (OStream s) /\
    w' = set_heap (<[h := OStream {| id := id s; time_base := time_base s;
                                     st_codec := c |}]> (heap w)) w.
Proof.
  unfold store_codec.
  intros (s & w1 & (h & -> & Hh & ->)%load_stream_Some & H)%bind_Some.
  apply store_at_Some in H as (h' & [= <-] & _ & ->). eauto 10.
Qed.

(** C6: when [add_stream] returns a codec, the codec context of the new
    stream [self->st] has [bit_rate = br], [sample_rate = sr],
    [channels = ch], [channel_layout] stereo when [ch] is 2 and mono
    otherwise, and the stream's time base is 1/[sr]. *)
Theorem add_stream_configures e self codec_id br sr ch w cd w' :
  add_stream e self codec_id br sr ch w = Some (Some cd, w') ->
  exists s' stm,
    webm w' self = Some s' /\
    load_stream (st s') w' = Some (stm, w') /\
    bit_rate (st_codec stm) = br /\
    sample_rate (st_codec stm) = sr /\
    channels (st_codec stm) = ch /\
    channel_layout (st_codec stm) =
      (if ch =? 2 then AV_CH_LAYOUT_STEREO else AV_CH_LAYOUT_MONO) /\
    time_base stm = (1, sr).
Proof.
  unfold add_stream. intros H.
  destruct (find_encoder e codec_id) as [codec|]; [| discriminate].
  destruct (negb (is_audio (type codec))); [discriminate |].
  apply bind_Some in H as (s & w0 & [Hs ->]%get_webm_Some & H).
  apply bind_Some in H as (stp & w1 & H1 & H).
  apply bind_Some in H as ([] & w2 & (s1 & Hs1 & ->)%modify_webm_Some & H).
  destruct stp as [h|]; [| discriminate].
  apply bind_Some in H as (c & w3 & (h' & s0 & [= <-] & Hh & -> & ->)%load_codec_Some & H).
  apply bind_Some in H as ([] & w3 & (h' & s0' & [= <-] & Hh' & ->)%store_codec_Some & H).
  apply bind_Some in H as (stream & w4 & (h' & [= <-] & Hh2 & ->)%load_stream_Some & H).
  apply bind_Some in H as ([] & w4 & (h' & [= <-] & _ & ->)%store_at_Some & H).
  apply bind_Some in H as (octx & w5 & (ho & Hoc & Hho & ->)%load_format_Some & H).
  destruct (oformat octx) as [fmt|]; [| discriminate].
  apply bind_Some in H as ([] & w5 & H5 & [[= <-] <-]%ret_Some).
  simpl in Hh2. rewrite lookup_insert_eq in Hh2. injection Hh2 as <-.
  destruct (Z.land (oformat_flags fmt) AVFMT_GLOBALHEADER =? 0).
  - apply ret_Some in H5 as [_ <-].
    eexists (set_st (Some h) s1), _.
    split; [destruct self; reflexivity |].
    split.
    { unfold load_stream, deref, load, mbind, SFM_bind, mret, SFM_ret. simpl.
      rewrite lookup_insert_eq. reflexivity. }
    simpl. auto 10.
  - apply bind_Some in H5 as (c' & w6 & (h' & s6 & [= <-] & Hh6 & -> & ->)%load_codec_Some & H5).
    apply store_codec_Some in H5 as (h' & s7 & [= <-] & Hh7 & ->).
    simpl in Hh6, Hh7. rewrite lookup_insert_eq in Hh6, Hh7.
    injection Hh6 as <-. injection Hh7 as <-.
    eexists (set_st (Some h) s1), _.
    split; [destruct self; reflexivity |].
    split.
    { unfold load_stream, deref, load, mbind, SFM_bind, mret, SFM_ret. simpl.
      rewrite lookup_insert_eq. reflexivity. }
    simpl. auto 10.
Qed.

Lemma add_stream_configures_witness :
  exists s' stm,
    let w' := after (add_stream setup_ok Self AV_CODEC_ID_OPUS 128000 48000 2)
                w_running in
    webm w' Self = Some s' /\
    load_stream (st s') w' = Some (stm, w') /\
    bit_rate (st_codec stm) = 128000 /\
    sample_rate (st_codec stm) = 48000 /\
    channels (st_codec stm) = 2 /\
    channel_layout (st_codec stm) =
      (if 2 =? 2 then AV_CH_LAYOUT_STEREO else AV_CH_LAYOUT_MONO) /\
    time_base stm = (1, 48000).
Proof.
  apply (add_stream_configures setup_ok Self AV_CODEC_ID_OPUS 128000 48000 2
           w_running demo_codec).
  vm_compute. reflexivity.
Defined.


(** *** setup: what a failed call leaves behind *)

Lemma alloc_Some o w h w' :
  alloc o w = Some (h, w') ->
  heap w !! h = None /\ w' = set_heap (<[h := o]> (heap w)) w.
Proof.
  unfold alloc. intros [= <- <-]. split; [| reflexivity].
  apply not_elem_of_dom, is_fresh.
Qed.

Lemma free_Some h w u w' :
  free h w = Some (u, w') ->
  is_Some (heap w !! h) /\ w' = set_heap (delete h (heap w)) w.
Proof.
  unfold free. intros (o' & w1 & [Ho ->]%load_Some & [= <-])%bind_Some. eauto.
Qed.

Lemma modify_world_Some (f : world -> world) w u w' :
  modify_world f w = Some (u, w') -> w' = f w.
Proof. intros [= _ E]. symmetry. exact E. Qed.

Lemma deref_Some p h w w' : deref p w = Some (h, w') -> p = Some h /\ w' = w.
Proof. destruct p; [intros [= -> ->]; auto | discriminate]. Qed.

(** Only [packet_flags] of the two blocks, the encoder and the trace may
    differ between the two worlds. *)
Definition flags_enc_trace (w w' : world) : Prop :=
  exists e1 f1 f2 t1,
    w' = {| enc := e1;
            webm_self := set_packet_flags f1 <$> webm_self w;
            webm_meta := set_packet_flags f2 <$> webm_meta w;
            heap := heap w; trace := t1 |}.

Lemma set_packet_flags_id s : set_packet_flags (packet_flags s) s = s.
Proof. destruct s; reflexivity. Qed.

Lemma flags_enc_trace_refl_with e1 t1 w :
  flags_enc_trace w (set_trace t1 (set_enc e1 w)).
Proof.
  exists e1, (default 0 (packet_flags <$> webm_self w)),
            (default 0 (packet_flags <$> webm_meta w)), t1.
  destruct w as [en [s1|] [s2|] m t]; simpl; rewrite ?set_packet_flags_id;
    reflexivity.
Qed.

#[export] Instance flags_enc_trace_preorder : PreOrder flags_enc_trace.
Proof.
  split.
  - intros w. pose proof (flags_enc_trace_refl_with (enc w) (trace w) w) as H.
    destruct w; exact H.
  - intros w1 w2 w3 (e1 & f1 & f2 & t1 & ->) (e2 & g1 & g2 & t2 & ->).
    exists e2, g1, g2, t2. simpl.
    destruct (webm_self w1), (webm_meta w1); reflexivity.
Qed.

Section FlagsEncTrace.
Context `{PF : packet_flag_values}.

Lemma flags_enc_trace_modify_flags self (g : WebMState -> Z) :
  step_inv flags_enc_trace
    (modify_webm self (fun s => set_packet_flags (g s) s)).
Proof.
  intros w [] w' (s & Hs & ->)%modify_webm_Some.
  destruct w as [en ws wm m t], self; simpl in *; subst.
  - exists en, (g s), (default 0 (packet_flags <$> wm)), t.
    destruct wm; simpl; rewrite ?set_packet_flags_id; reflexivity.
  - exists en, (default 0 (packet_flags <$> ws)), (g s), t.
    destruct ws; simpl; rewrite ?set_packet_flags_id; reflexivity.
Qed.

Lemma flags_enc_trace_enc f w : flags_enc_trace w (set_enc (f (enc w)) w).
Proof.
  pose proof (flags_enc_trace_refl_with (f (enc w)) (trace w) w) as H.
  destruct w; exact H.
Qed.

Lemma flags_enc_trace_trace t1 w : flags_enc_trace w (set_trace t1 w).
Proof.
  pose proof (flags_enc_trace_refl_with (enc w) t1 w) as H.
  destruct w; exact H.
Qed.

Lemma flags_enc_trace_write_packet self buf n :
  step_inv flags_enc_trace (write_packet self buf n).
Proof.
  unfold write_packet, self_encoder, modify_encoder, emit.
  repeat first [ apply flags_enc_trace_modify_flags | enc_step
               | apply flags_enc_trace_enc | apply flags_enc_trace_trace ].
Qed.

Lemma flags_enc_trace_run_muxer call p :
  step_inv flags_enc_trace (run_muxer call p).
Proof.
  unfold run_muxer, load_format, load_avio, deref.
  repeat first [ apply flags_enc_trace_write_packet | enc_step ].
Qed.

Lemma run_muxer_ret call p w r w' :
  run_muxer call p w = Some (r, w') -> r = mux_ret call.
Proof.
  unfold run_muxer. intros (c & w1 & _ & H)%bind_Some.
  apply bind_Some in H as (a & w2 & _ & H).
  apply bind_Some in H as ([] & w3 & _ & [-> _]%ret_Some). reflexivity.
Qed.
End FlagsEncTrace.

Create HintDb exec.
#[export] Hint Unfold modify_encoder self_encoder emit store_at load_format
  load_stream load_avio load_frame load_swr load_codec store_codec av_free
  av_freep avformat_alloc_context av_malloc avio_alloc_context
  avformat_new_stream avformat_free_context avcodec_open2 avcodec_close
  av_frame_alloc av_frame_get_buffer av_frame_free swr_alloc swr_init swr_free
  av_dict_set lock_avc_mutex unlock_avc_mutex add_stream
  open_stream close_stream freep_avio_buffer freep_avio_ctx fail1 fail2 fail3
  fail4 fail5 setup teardown write_header avformat_write_header : exec.

Ltac solve_neq := first [assumption | apply not_eq_sym; assumption | congruence].

(** Bring a fact about the heap of an explicit world to a fact about its
    entries. *)
Ltac norm_in H :=
  cbn [heap webm enc trace set_heap set_webm set_enc set_trace webm_self
       webm_meta fmap option_fmap option_map] in H;
  repeat first
    [ rewrite lookup_insert_eq in H
    | rewrite lookup_insert_ne in H by solve_neq ].

(** The innermost scrutinee of nested matches. *)
Ltac innermost x :=
  lazymatch x with
  | match ?y with _ => _ end => innermost y
  | _ => x
  end.

(** Bring the equation [w' = ...] of the newest world to an explicit record,
    with [tac] to tidy its heap, then substitute it. *)
Ltac norm_world_with tac :=
  match goal with
  | E : ?x = _ |- _ =>
      is_var x;
      lazymatch type of x with world => idtac end;
      unfold set_heap, set_enc, set_trace, set_webm in E;
      cbn [heap webm enc trace webm_self webm_meta fmap option_fmap
           option_map sample_fmt bit_rate sample_rate channels channel_layout
           flags frame_size ctx_time_base Encoder.codec priv_data id time_base
           st_codec oformat pb oc_metadata streams buffer opaque format
           frame_channel_layout frame_sample_rate nb_samples pts has_buffers
           in_channel_count in_sample_rate in_sample_fmt out_channel_count
           out_sample_rate out_sample_fmt initialised] in E;
      tac E;
      subst x
  end.

Ltac norm_world := norm_world_with ltac:(fun E => idtac).

(** After a store: the new entry replaces the one below it. *)
Ltac tidy_store E :=
  lazymatch type of E with
  | _ = Build_world _ _ _ (<[?h:=_]> _) _ =>
      repeat first [ rewrite insert_insert_eq in E
                   | rewrite (insert_insert_ne _ h) in E by solve_neq ]
  end.

(** After a free: the entry goes away. *)
Ltac tidy_free E :=
  repeat lazymatch type of E with
         | context [delete ?h (<[?h:=_]> _)] => rewrite delete_insert_eq in E
         | context [delete ?h (<[_:=_]> _)] =>
             rewrite (delete_insert_ne _ h) in E by solve_neq
         | context [delete ?h ?m] => rewrite (delete_id m h) in E by assumption
         end.

Ltac subst_last :=
  match goal with
  | E : ?x = _ |- _ => is_var x; subst x
  | E : _ = ?x |- _ => is_var x; subst x
  end.

(** Convert the subterm [t] of [H] with [tac], through an equation of its
    own, so that the check of the conversion sees [t] alone. *)
Ltac conv_in H t tac :=
  let q := fresh "q" in
  let E := fresh "E" in
  remember t as q eqn:E in H; tac E; subst q.

(** The same for the program of the run [H : m w = Some (a, w')]. *)
Ltac on_prog H tac :=
  lazymatch type of H with
  | ?p _ = Some _ => conv_in H p tac
  end.

Ltac set_rhs E t :=
  lazymatch type of E with ?l = _ => change (l = t) in E end.

(** Reduce the scrutinee [x] of the match at the head of [H]. *)
Ltac norm_scrutinee H x :=
  let x' := eval cbn -[lookup insert delete fresh dom Z.ltb Z.eqb Z.land Z.lor
                       Z.lnot String.eqb] in x in
  tryif constr_eq x x' then fail
  else conv_in H x ltac:(fun E => set_rhs E x').

(** Decide the closed condition [b] at the head of [H]. *)
Ltac decide_closed H b :=
  let v := eval vm_compute in b in
  lazymatch v with
  | true => conv_in H b ltac:(fun E => set_rhs E true)
  | false => conv_in H b ltac:(fun E => set_rhs E false)
  end.

(** Invert the run [H : m w = Some (a, w')] down to its primitives, in the
    order of execution, so that each step meets an explicit world. *)
Ltac run H :=
  lazymatch type of H with
  | (_ ≫= _) _ = Some _ =>
      let H1 := fresh "Hm" in
      let H2 := fresh "Hk" in
      apply bind_Some in H as (? & ? & H1 & H2); run H1; run H2
  | mret _ _ = Some _ => apply ret_Some in H as [? ?]; subst
  | fault _ = Some _ => discriminate H
  | None = Some _ => discriminate H
  | Some _ = Some _ => injection H as ? ?; subst
  | get_webm _ _ = Some _ =>
      apply get_webm_Some in H as [H ?]; subst; norm_in H;
      first [discriminate H | injection H as ?; subst | idtac]
  | get_encoder _ = Some _ => injection H as ? ?; subst
  | modify_webm _ _ _ = Some _ =>
      let K := fresh "Hblock" in
      apply modify_webm_Some in H as (? & K & ?); norm_world; norm_in K;
      first [discriminate K | injection K as ?; subst | idtac]
  | modify_world _ _ = Some _ => apply modify_world_Some in H; norm_world
  | alloc _ _ = Some _ =>
      let K := fresh "Hfresh" in
      apply alloc_Some in H as [K ?]; norm_world; norm_in K;
      repeat (let K' := fresh "Hne" in apply lookup_insert_None in K as [K K'])
  | free _ _ = Some _ =>
      apply free_Some in H as [_ ?]; norm_world_with tidy_free
  | load _ _ = Some _ =>
      apply load_Some in H as [H ?]; subst; norm_in H;
      first [discriminate H | injection H as ?; subst | idtac]
  | store _ _ _ = Some _ =>
      apply store_Some in H as [_ ?]; norm_world_with tidy_store
  | deref _ _ = Some _ => apply deref_Some in H as [H ?]; subst;
      first [discriminate H | injection H as ?; subst | idtac]
  | run_muxer _ _ _ = Some _ =>
      let K := fresh "Hret" in
      pose proof (run_muxer_ret _ _ _ _ _ H) as K;
      apply flags_enc_trace_run_muxer in H as (? & ? & ? & ? & ?); norm_world
  | for_each _ ?l _ = Some _ =>
      first [ match goal with E : l = _ |- _ => rewrite E in H end
            | norm_scrutinee H l ];
      on_prog H ltac:(fun E => cbn [for_each] in E); run H
  | (if ?b0 then _ else _) _ = Some _ =>
      let b := innermost b0 in
      first [ match goal with
              | E : ?y = _ |- _ =>
                  lazymatch b0 with context [y] => rewrite E in H end
              end
            | norm_scrutinee H b0
            | decide_closed H b0
            | destruct b eqn:? ];
      cbn beta iota in H; run H
  | (match ?x0 with _ => _ end) _ = Some _ =>
      let x := innermost x0 in
      first [ match goal with
              | E : ?y = _ |- _ =>
                  lazymatch x0 with context [y] => rewrite E in H end
              end
            | norm_scrutinee H x0
            | destruct x eqn:? ];
      cbn beta iota in H; run H
  | (let _ := _ in _) _ = Some _ => cbv zeta in H; run H
  | _ =>
      tryif on_prog H ltac:(fun E => progress autounfold with exec in E)
      then run H else idtac
  end.

Ltac heap_solve :=
  cbn [heap webm enc trace set_heap set_webm set_enc set_trace webm_self
       webm_meta];
  apply map_eq; intros ?k;
  repeat (rewrite lookup_delete || rewrite lookup_insert);
  repeat case_decide; subst; congruence.

(** [alloc_audio_frame] either returns NULL and leaves the world as it is,
    or returns a fresh handle to a new frame. *)
Lemma alloc_audio_frame_world fe fmt l r n w p w' :
  alloc_audio_frame fe fmt l r n w = Some (p, w') ->
  (p = None /\ w' = w) \/
  (exists h fr, p = Some h /\ heap w !! h = None /\
                w' = set_heap (<[h := OFrame fr]> (heap w)) w).
Proof.
  intros H. destruct w as [en ws wm m t].
  on_prog H ltac:(fun E => unfold alloc_audio_frame in E). run H; eauto 10.
Qed.

Definition add_stream_ok (e : setup_env) (codec_id : AVCodecID) : bool :=
  match find_encoder e codec_id with
  | Some codec => is_audio (type codec) && bool_decide (is_Some (new_stream e))
  | None => false
  end.

Ltac solve_lookup :=
  cbn [heap webm enc trace webm_self webm_meta];
  repeat first [ rewrite lookup_insert_eq
               | rewrite lookup_insert_ne by solve_neq ];
  reflexivity.

(** Two explicit worlds are equal: their heaps agree at every handle. *)
Ltac same_world :=
  repeat match goal with
         | H1 : ?m !! ?k = Some _, H2 : ?m !! ?k = Some _ |- _ =>
             rewrite H1 in H2; injection H2 as ?; subst
         end;
  unfold set_heap, set_webm; cbn [heap enc webm_self webm_meta trace];
  first
    [ reflexivity
    | f_equal; apply map_eq; intros ?k;
      repeat (rewrite lookup_insert); repeat case_decide; subst;
      first [reflexivity | congruence] ].

(** [add_stream] either returns NULL, having at most overwritten
    [self->st] with NULL, or returns the codec, with a new stream appended
    to the streams of [self->oc] and stored in [self->st]. *)
Lemma add_stream_world e self codec_id br sr ch w r w' s h0 c :
  webm w self = Some s -> oc s = Some h0 ->
  heap w !! h0 = Some (OFormat c) ->
  add_stream e self codec_id br sr ch w = Some (r, w') ->
  (r = None /\ add_stream_ok e codec_id = false /\
   exists st', w' = set_webm self (Some (set_st st' s)) w) \/
  (exists cd h3 stm',
     r = Some cd /\ add_stream_ok e codec_id = true /\
     heap w !! h3 = None /\
     w' = set_heap
            (<[h3 := OStream stm']>
               (<[h0 := OFormat {| oformat := oformat c; pb := pb c;
                                   oc_metadata := oc_metadata c;
                                   streams := streams c ++ [h3] |}]> (heap w)))
            (set_webm self (Some (set_st (Some h3) s)) w)).
Proof.
  intros Hs Ho Hh H. unfold add_stream_ok.
  destruct w as [en ws wm m t]. cbn [heap] in Hh.
  destruct e as [? ? ? ? fe ns ? ? ? ? ? ?]. cbn [find_encoder new_stream] in *.
  on_prog H ltac:(fun E => unfold add_stream in E;
                         cbn [find_encoder new_stream] in E).
  destruct (fe codec_id) as [cd|] eqn:Efe.
  2: { apply ret_Some in H as [<- <-]. left. split; [reflexivity |].
       split; [reflexivity |]. exists (st s).
       destruct self, s; simpl in *; subst; reflexivity. }
  destruct (is_audio (type cd)) eqn:Eaudio; cbn [negb andb] in *.
  2: { apply ret_Some in H as [<- <-]. left. split; [reflexivity |].
       split; [reflexivity |]. exists (st s).
       destruct self, s; simpl in *; subst; reflexivity. }
  destruct s. cbn [oc] in Ho. subst.
  destruct self; simpl in Hs; subst.
  - run H.
    + right. eexists _, _, _. split; [reflexivity |].
      split; [reflexivity |]. split; [eassumption |].
      same_world.
    + right. eexists _, _, _. split; [reflexivity |].
      split; [reflexivity |]. split; [eassumption |].
      same_world.
    + left. split; [reflexivity |]. split; [reflexivity |]. exists None.
      reflexivity.
  - run H.
    + right. eexists _, _, _. split; [reflexivity |].
      split; [reflexivity |]. split; [eassumption |].
      same_world.
    + right. eexists _, _, _. split; [reflexivity |].
      split; [reflexivity |]. split; [eassumption |].
      same_world.
    + left. split; [reflexivity |]. split; [reflexivity |]. exists None.
      reflexivity.
Qed.

(** The optional [av_dict_set] of [setup] changes nothing but the metadata
    of the format context. *)
Lemma dict_block_world (b : bool) h k v w u w' c :
  heap w !! h = Some (OFormat c) ->
  (if b then av_dict_set (Some h) k v else mret tt) w = Some (u, w') ->
  exists md,
    w' = set_heap (<[h := OFormat {| oformat := oformat c; pb := pb c;
                                     oc_metadata := md;
                                     streams := streams c |}]> (heap w)) w.
Proof.
  intros Hh H. destruct w as [en ws wm m t]. cbn [heap] in Hh.
  destruct b.
  - run H. eexists. same_world.
  - apply ret_Some in H as [_ <-]. exists (oc_metadata c).
    destruct c. cbn [oformat pb oc_metadata streams]. same_world.
Qed.

(** Invert a run of [setup], using what is known of its parts. *)
Ltac run_setup H :=
  lazymatch type of H with
  | (_ ≫= _) _ = Some _ =>
      let H1 := fresh "Hm" in
      let H2 := fresh "Hk" in
      apply bind_Some in H as (? & ? & H1 & H2); run_setup H1; run_setup H2
  | alloc_audio_frame _ _ _ _ _ _ = Some _ =>
      let K := fresh "Hfresh" in
      apply alloc_audio_frame_world in H as [[? ?] | (? & ? & ? & K & ?)];
      [ subst | norm_world; subst; norm_in K;
        repeat (let K' := fresh "Hne" in apply lookup_insert_None in K as [K K']) ]
  | add_stream _ _ _ _ _ _ _ = Some _ =>
      let K := fresh "Hfresh" in
      let A := fresh "Hadd" in
      eapply add_stream_world in H;
      [ | cbn [webm webm_self webm_meta]; reflexivity
        | cbn; reflexivity
        | solve_lookup ];
      destruct H as [(? & A & ? & ?) | (? & ? & ? & ? & A & K & ?)];
      [ try (exfalso; congruence); norm_world; subst
      | try (exfalso; congruence); norm_world_with tidy_store; subst; norm_in K;
        repeat (let K' := fresh "Hne" in apply lookup_insert_None in K as [K K']) ]
  | (if _ then av_dict_set _ _ _ else mret tt) _ = Some _ =>
      eapply dict_block_world in H; [ | solve_lookup ];
      destruct H as (? & ?); norm_world_with tidy_store
  | (if ?b0 then _ else _) _ = Some _ =>
      let b := innermost b0 in
      first [ match goal with
              | E : ?y = _ |- _ =>
                  lazymatch b0 with context [y] => rewrite E in H end
              end
            | norm_scrutinee H b0
            | decide_closed H b0
            | destruct b eqn:? ];
      cbn beta iota in H; run_setup H
  | (match ?x0 with _ => _ end) _ = Some _ =>
      let x := innermost x0 in
      first [ match goal with
              | E : ?y = _ |- _ =>
                  lazymatch x0 with context [y] => rewrite E in H end
              end
            | norm_scrutinee H x0
            | destruct x eqn:? ];
      cbn beta iota in H; run_setup H
  | (let _ := _ in _) _ = Some _ => cbv zeta in H; run_setup H
  | ?f _ = Some _ =>
      lazymatch f with
      | setup _ _ _ =>
          on_prog H ltac:(fun E => unfold setup in E); run_setup H
      | open_stream _ _ _ =>
          on_prog H ltac:(fun E => unfold open_stream in E); run_setup H
      | fail5 _ =>
          on_prog H ltac:(fun E => unfold fail5 in E); run_setup H
      | fail4 _ =>
          on_prog H ltac:(fun E => unfold fail4 in E); run_setup H
      | fail3 _ =>
          on_prog H ltac:(fun E => unfold fail3 in E); run_setup H
      | fail2 _ =>
          on_prog H ltac:(fun E => unfold fail2 in E); run_setup H
      | _ => run H
      end
  | _ => run H
  end.

(** The stages of [setup], in the order in which they can fail. *)
Inductive setup_stage :=
| Codec_selection | Format_context | Output_format | Avio_buffer | Avio_context
| Stream_creation | Codec_open | Resampler_alloc | Resampler_init | Header_write.

(** The first stage at which the libraries, as [e] describes them, make
    [setup] fail for the encoder [encoder]; [None] when no stage does. *)
Definition first_failure (e : setup_env) (encoder : encoder) : option setup_stage :=
  match codec_id_of (data_format_codec encoder) with
  | None => Some Codec_selection
  | Some codec_id =>
      if alloc_context_ok e then
        match guess_format e with
        | None => Some Output_format
        | Some _ =>
            if av_malloc_ok e then
              if avio_alloc_ok e then
                if add_stream_ok e codec_id then
                  if open2_ret e <? 0 then Some Codec_open
                  else if swr_alloc_ok e then
                    if swr_init_ret e <? 0 then Some Resampler_init
                    else if mux_ret (header_call e) <? 0 then Some Header_write
                    else None
                  else Some Resampler_alloc
                else Some Stream_creation
              else Some Avio_context
            else Some Avio_buffer
        end
      else Some Format_context
  end.

(** The stages whose failure path [setup] gets right: at the others it
    dereferences a NULL [avio_ctx] or leaves the two audio frames
    allocated. *)
Definition released (f : setup_stage) : bool :=
  match f with
  | Avio_context | Resampler_alloc | Resampler_init => false
  | _ => true
  end.

Section Setup.
Context `{PF : packet_flag_values}.

Local Ltac setup_leaf :=
  repeat match goal with
         | E : ?c = _ |- context [?c] => rewrite E
         end;
  (split; [reflexivity |]);
  intros f [= <-]; try discriminate; intros _;
  cbn [heap enc trace];
  (split; [heap_solve |]);
  try (let X := fresh in intros X; exfalso; apply X; reflexivity);
  intros _; (split; [reflexivity |]);
  unfold packets; rewrite ?omap_app; cbn [omap]; rewrite ?app_nil_r;
  reflexivity.

Local Ltac teardown_leaf :=
  let Er := fresh "Er" in
  let Ht := fresh "Ht" in
  intros Er ? ? Ht; [try discriminate Er ..];
  clear Er;
  on_prog Ht ltac:(fun E => unfold teardown in E);
  run Ht; heap_solve.

Local Ltac block_leaf :=
  let s := fresh "s" in
  cbn [webm webm_self webm_meta];
  intros s [= <-]; eexists; split; reflexivity.

Local Ltac opaque_leaf :=
  let Er := fresh "Er" in
  intros Er; [try discriminate Er ..];
  unfold io_opaque;
  repeat first
    [ progress cbn [webm webm_self webm_meta heap oc pb opaque mbind
                    option_bind set_packet_flags set_swr_ctx set_tmp_frame
                    set_frame set_st set_avio_ctx set_oc]
    | rewrite lookup_insert_eq
    | rewrite lookup_insert_ne by solve_neq ];
  reflexivity.

Local Ltac leak_leaf :=
  repeat match goal with
         | E : ?c = _ |- context [?c] => rewrite E
         end;
  intros f [= <-]; try discriminate; intros _;
  cbn [webm webm_self webm_meta heap];
  eexists; (split; [reflexivity |]);
  cbn [frame tmp_frame];
  (split;
   [ intros h [[= <-] | [= <-]];
     (split; [assumption | eexists; solve_lookup])
   | let k := fresh "k" in
     let Hk := fresh "Hk" in
     intros k Hk;
     repeat (rewrite lookup_insert in Hk;
             case_decide;
             [subst; first [left; reflexivity | right; reflexivity] |]);
     exfalso; apply Hk; reflexivity ]).

(** One inversion of [setup], with what each of its ends leaves: the
    result and the clean failures; the heap after a [teardown] of the
    stream just set up; the block, whose [metadata] field it never
    assigns; the I/O context of a stream set up; and what the two failures
    of the resampler leave on the heap. *)
Lemma setup_summary e self x w r w' :
  setup e self x w = Some (r, w') ->
  (r = match first_failure e (enc w) with
       | None => SUCCEEDED
       | Some _ => FAILED
       end /\
   (forall f, first_failure e (enc w) = Some f -> released f = true ->
      heap w' = heap w /\
      (f <> Header_write ->
       enc w' = enc w /\ packets (trace w') = packets (trace w)))) /\
  (r = SUCCEEDED ->
   forall u w2, teardown self w' = Some (u, w2) -> heap w2 = heap w) /\
  (forall s, webm w self = Some s ->
     exists s', webm w' self = Some s' /\ metadata s' = metadata s) /\
  (r = SUCCEEDED -> io_opaque w' self = Some self) /\
  (forall f, first_failure e (enc w) = Some f -> released f = false ->
     exists s', webm w' self = Some s' /\
       (forall h, frame s' = Some h \/ tmp_frame s' = Some h ->
          heap w !! h = None /\ exists fr, heap w' !! h = Some (OFrame fr)) /\
       (forall k, heap w' !! k <> heap w !! k ->
          frame s' = Some k \/ tmp_frame s' = Some k)).
Proof.
  intros H.
  destruct e as [al gf ml av fe ns o2 f1 f2 sa si [hw hr]].
  destruct w as [en ws wm m t].
  on_prog H ltac:(fun E => unfold setup in E).
  apply bind_Some in H as (encoder & w0 & [-> ->]%self_encoder_Some & H).
  cbn [enc] in H |- *. unfold first_failure.
  cbn [alloc_context_ok guess_format av_malloc_ok avio_alloc_ok open2_ret
       swr_alloc_ok swr_init_ret header_call mux_ret].
  destruct (codec_id_of (data_format_codec en)) as [codec_id|] eqn:Ecodec.
  2: { apply ret_Some in H as [<- <-]. split; [| split; [| split; [| split]]].
       - split; [reflexivity |].
         intros f [= <-] _. split; [reflexivity |]. intros _. split; reflexivity.
       - discriminate.
       - eauto.
       - discriminate.
       - intros f [= <-]; discriminate. }
  destruct self.
  - run_setup H.
    all: split; [setup_leaf | split; [teardown_leaf | split; [block_leaf |]]].
    all: split; [opaque_leaf | leak_leaf].
  - run_setup H.
    all: split; [setup_leaf | split; [teardown_leaf | split; [block_leaf |]]].
    all: split; [opaque_leaf | leak_leaf].
Qed.

(** [setup] returns SUCCEEDED exactly when no stage fails and FAILED
    otherwise.  When the failing stage is one of those [released] names, the
    cleanup labels leave the heap of library objects as it was before the
    call; unless that stage is the header write, the encoder and the packets
    handed downstream are as before too. *)
Theorem setup_outcome e self x w r w' :
  setup e self x w = Some (r, w') ->
  r = match first_failure e (enc w) with
      | None => SUCCEEDED
      | Some _ => FAILED
      end /\
  (forall f, first_failure e (enc w) = Some f -> released f = true ->
     heap w' = heap w /\
     (f <> Header_write ->
      enc w' = enc w /\ packets (trace w') = packets (trace w))).
Proof.
  intros H. apply setup_summary in H as [[Hr Hrel] _].
  split; [exact Hr |]. intros f Hf Hreleased.
  destruct (Hrel f Hf Hreleased) as [Hheap Hrest]. split; [exact Hheap |].
  intros Hne. exact (Hrest Hne).
Qed.

(** C4 (the code departs from it): when the first stage to fail is
    [avio_alloc_context], label [fail3] evaluates
    [av_freep(&self->avio_ctx->buffer)] with [self->avio_ctx] NULL, so the
    call faults: it returns neither FAILED nor SUCCEEDED. *)
Theorem setup_avio_context_failure e self x w :
  first_failure e (enc w) = Some Avio_context ->
  setup e self x w = None.
Proof.
  intros Hf.
  destruct (setup e self x w) as [[r w']|] eqn:H; [exfalso | reflexivity].
  destruct e as [al gf ml av fe ns o2 f1 f2 sa si [hw hr]].
  destruct w as [en ws wm m t].
  unfold first_failure in Hf.
  cbn [alloc_context_ok guess_format av_malloc_ok avio_alloc_ok open2_ret
       swr_alloc_ok swr_init_ret header_call mux_ret enc] in Hf.
  on_prog H ltac:(fun E => unfold setup in E).
  apply bind_Some in H as (encoder & w0 & [-> ->]%self_encoder_Some & H).
  cbn [enc] in H.
  destruct (codec_id_of (data_format_codec en)) as [codec_id|] eqn:Ecodec;
    [| discriminate Hf].
  destruct al; [| discriminate Hf].
  destruct gf as [o|]; [| discriminate Hf].
  destruct ml; [| discriminate Hf].
  destruct av.
  { repeat match type of Hf with
           | (if ?b then _ else _) = _ => destruct b
           end; discriminate Hf. }
  clear Hf.
  destruct self; run_setup H.
Qed.
End Setup.

(** No block allocated yet but both [calloc]s of [live_webm_encoder_init]
    done. *)
Definition w_init : world :=
  after (live_webm_encoder_init true true) (demo_world true).

(** [avio_alloc_context] returns NULL. *)
Definition setup_no_avio : setup_env :=
  {| alloc_context_ok := true;
     guess_format := Some {| oformat_flags := AVFMT_GLOBALHEADER |};
     av_malloc_ok := true; avio_alloc_ok := false;
     find_encoder := fun _ => Some demo_codec;
     new_stream := Some demo_stream; open2_ret := 0;
     frame_env_1 := {| frame_alloc_ok := true; get_buffer_ret := 0 |};
     frame_env_2 := {| frame_alloc_ok := true; get_buffer_ret := 0 |};
     swr_alloc_ok := true; swr_init_ret := 0; header_call := demo_mux |}.

(** [avcodec_open2] reports an error. *)
Definition setup_open_fails : setup_env :=
  {| alloc_context_ok := true;
     guess_format := Some {| oformat_flags := AVFMT_GLOBALHEADER |};
     av_malloc_ok := true; avio_alloc_ok := true;
     find_encoder := fun _ => Some demo_codec;
     new_stream := Some demo_stream; open2_ret := -1;
     frame_env_1 := {| frame_alloc_ok := true; get_buffer_ret := 0 |};
     frame_env_2 := {| frame_alloc_ok := true; get_buffer_ret := 0 |};
     swr_alloc_ok := true; swr_init_ret := 0; header_call := demo_mux |}.

Lemma setup_avio_context_failure_witness :
  setup (PF := demo_flags) setup_no_avio Self 0 w_init = None.
Proof.
  apply (setup_avio_context_failure (PF := demo_flags)).
  vm_compute. reflexivity.
Defined.

Lemma setup_outcome_witness :
  heap (after (setup (PF := demo_flags) setup_open_fails Self 0) w_init)
  = heap w_init.
Proof.
  assert (H : setup (PF := demo_flags) setup_open_fails Self 0 w_init
              = Some (FAILED,
                      after (setup (PF := demo_flags) setup_open_fails Self 0)
                        w_init))
    by (vm_compute; reflexivity).
  destruct (setup_outcome (PF := demo_flags) _ _ _ _ _ _ H) as [_ Hrel].
  destruct (Hrel Codec_open) as [Hh _];
    [vm_compute; reflexivity | reflexivity | exact Hh].
Defined.

(** *** The advisory mutex around avcodec_open2 and avcodec_close *)

Lemma guarded_app held t1 t2 :
  guarded held (t1 ++ t2) = guarded held t1 && guarded (held_after held t1) t2.
Proof.
  revert held. induction t1 as [|e t1 IH]; intros held; [reflexivity |].
  destruct e; simpl; rewrite IH; unfold held_after; simpl;
    destruct held; simpl; reflexivity.
Qed.

Lemma held_after_app held t1 t2 :
  held_after held (t1 ++ t2) = held_after (held_after held t1) t2.
Proof. unfold held_after. apply fold_left_app. Qed.

Lemma sync_events_app t1 t2 :
  sync_events (t1 ++ t2) = sync_events t1 ++ sync_events t2.
Proof. unfold sync_events. apply omap_app. Qed.

(** All that [close_stream] lets the other threads see is one entry into
    [avcodec_close]: it neither takes nor releases the mutex. *)
Lemma close_stream_trace self w u w' :
  close_stream self w = Some (u, w') ->
  trace w' = trace w ++ [Sync EvClose].
Proof.
  intros H. destruct w as [en ws wm m t].
  destruct self; run H; reflexivity.
Qed.

(** C2 (the code departs from it): [close_stream] calls [avcodec_close]
    without taking [g.avc_mutex]; entered by a thread that does not hold the
    mutex, as [teardown] and label [fail5] of [setup] enter it, the call into
    the codec API is made with the mutex not held. *)
Theorem close_stream_enters_unguarded self w u w' :
  close_stream self w = Some (u, w') ->
  held_after false (sync_events (trace w)) = false ->
  guarded false (sync_events (trace w')) = false.
Proof.
  intros H Hheld. rewrite (close_stream_trace _ _ _ _ H).
  rewrite sync_events_app, guarded_app, Hheld. simpl.
  apply andb_false_r.
Qed.

Lemma close_stream_enters_unguarded_witness :
  guarded false (sync_events (trace (after (close_stream Self) w_running)))
  = false.
Proof.
  assert (H : close_stream Self w_running
              = Some (tt, after (close_stream Self) w_running))
    by (vm_compute; reflexivity).
  apply (close_stream_enters_unguarded _ _ _ _ H).
  vm_compute. reflexivity.
Defined.

(** *** setup and teardown together *)

Section SetupTeardown.
Context `{PF : packet_flag_values}.

(** [teardown] frees all that a successful [setup] of the same stream
    allocated: the heap of library objects is as it was before [setup]. *)
Theorem teardown_releases_setup e self x w w1 u w2 :
  setup e self x w = Some (SUCCEEDED, w1) ->
  teardown self w1 = Some (u, w2) ->
  heap w2 = heap w.
Proof.
  intros H Ht. apply setup_summary in H as (_ & Hdown & _).
  eapply Hdown; [reflexivity | exact Ht].
Qed.

(** A successful [setup] leaves the stream with an I/O context whose write
    callback is given that same stream; so a later [write_header] with
    PF_SUPPRESS among its flags hands no packet on and leaves the encoder as
    it is. *)
Theorem setup_wires_write_callback e self x w w1 :
  setup e self x w = Some (SUCCEEDED, w1) ->
  io_opaque w1 self = Some self /\
  (Z.land PF_INITIAL PF_SUPPRESS = 0 ->
   forall call x' r w2,
     Z.land x' PF_SUPPRESS <> 0 ->
     write_header call self x' w1 = Some (r, w2) ->
     enc w2 = enc w1 /\ trace w2 = trace w1).
Proof.
  intros H.
  pose proof H as (_ & _ & Hblock & Hio & _)%setup_summary.
  specialize (Hio eq_refl). split; [exact Hio |].
  intros Hd call x' r w2 Hx Hh.
  assert (Hs : exists s1, webm w1 self = Some s1).
  { unfold io_opaque in Hio. destruct (webm w1 self) as [s1|]; [eauto |].
    discriminate Hio. }
  destruct Hs as [s1 Hs].
  eapply write_header_suppressed; eassumption.
Qed.

(** When [swr_alloc] or [swr_init] fails, [open_stream] has already
    allocated the two audio frames and [setup] goes to [fail4], which does
    not free them: [setup] returns FAILED, the frames [self->frame] and
    [self->tmp_frame] point to are new and still allocated, and they are
    all that the call leaves on the heap. *)
Theorem setup_leaks_frames e self x w r w' f :
  first_failure e (enc w) = Some f ->
  f = Resampler_alloc \/ f = Resampler_init ->
  setup e self x w = Some (r, w') ->
  r = FAILED /\
  exists s', webm w' self = Some s' /\
    (forall h, frame s' = Some h \/ tmp_frame s' = Some h ->
       heap w !! h = None /\ exists fr, heap w' !! h = Some (OFrame fr)) /\
    (forall k, heap w' !! k <> heap w !! k ->
       frame s' = Some k \/ tmp_frame s' = Some k).
Proof.
  intros Hf Hstage H.
  apply setup_summary in H as ([Hr _] & _ & _ & _ & Hleak).
  rewrite Hf in Hr. split; [exact Hr |].
  apply (Hleak f Hf). destruct Hstage as [-> | ->]; reflexivity.
Qed.

(** The code from [bailout:] on: the encoder is stopped and detached, the
    two blocks are freed, the library objects are not touched. *)
Lemma bailout_world self w u w' :
  bailout self w = Some (u, w') ->
  exists s, webm w self = Some s /\
    heap w' = heap w /\ trace w' = trace w /\
    enc w' = set_encoder_private None
               (set_flush false
                  (set_run_encoder None
                     (set_encoder_state ES_STOPPED
                        (set_run_request_f false (enc w))))) /\
    webm w' self = None /\
    (forall m, metadata s = Some m -> webm w' m = None).
Proof.
  intros H. destruct w as [en ws wm m t].
  on_prog H ltac:(fun E => unfold bailout, free_webm in E).
  destruct self; run H;
    repeat match goal with b : which |- _ => destruct b end;
    cbn [webm webm_self webm_meta heap trace enc set_webm] in *;
    try discriminate;
    eexists; (split; [reflexivity |]); repeat split; try reflexivity.
  all: intros m0 Hm0; destruct m0; first [reflexivity | congruence].
Qed.

(** A call in ES_STARTING whose first [setup] fails at a stage that cleans
    up after itself leaves nothing behind: the heap of library objects is
    as before, both [WebMState] blocks are freed and the encoder is stopped
    and detached from this file. *)
Theorem failed_start_is_clean e w u w' self f :
  encoder_state (enc w) = ES_STARTING ->
  encoder_private (enc w) = Some self ->
  first_failure (start_setup_self e) (enc w) = Some f ->
  released f = true ->
  live_webm_encoder_main e w = Some (u, w') ->
  heap w' = heap w /\
  encoder_state (enc w') = ES_STOPPED /\
  run_request_f (enc w') = false /\
  run_encoder (enc w') = None /\
  encoder_private (enc w') = None /\
  webm w' self = None /\
  (forall s m, webm w self = Some s -> metadata s = Some m -> webm w' m = None).
Proof.
  intros Hstate Hpriv Hf Hrel H.
  unfold live_webm_encoder_main in H.
  apply bind_Some in H as (en & w0 & [= <- <-] & H).
  rewrite Hpriv in H.
  apply bind_Some in H as (p & w0 & [= <- <-] & H).
  rewrite decide_True in H by exact Hstate.
  apply bind_Some in H as (r & w1 & Hsetup & H).
  apply setup_summary in Hsetup as ([-> Hclean] & _ & Hblock & _).
  rewrite Hf in H.
  destruct (Hclean f Hf Hrel) as [Hheap _].
  apply bailout_world in H as (s1 & Hs1 & Hh & _ & He & Hself & Hmeta).
  rewrite Hh, Hheap, He. repeat split; try reflexivity; try exact Hself.
  intros s m Hs Hm. destruct (Hblock s Hs) as (s' & Hs' & Hsame).
  apply Hmeta. congruence.
Qed.
End SetupTeardown.

(** *** The packets a stream hands on *)

Section Packets.
Context `{PF : packet_flag_values}.

(** [self->next_pts / (double)encoder->target_samplerate] *)
Definition stream_time (encoder : encoder) (s : WebMState) : CFloat.double :=
  CFloat.double_div (CFloat.double_of_int (next_pts s))
                    (CFloat.double_of_int (target_samplerate encoder)).

(** The packet [write_packet] hands on for the buffer [b] while
    [self->packet_flags] is [flags]. *)
Definition packet_of (encoder : encoder) (s : WebMState) (flags : Z)
    (b : option (list Byte.byte) * Z) : encoder_op_packet :=
  {| header_bit_rate := bitrate encoder;
     header_sample_rate := target_samplerate encoder;
     header_n_channels := n_channels encoder;
     header_flags := Z.lor PF_WEBM flags;
     header_data_size := b.2;
     header_serial := oggserial encoder;
     header_timestamp := stream_time encoder s;
     packet_data := b.1 |}.

(** The packets of one call into the muxer: PF_INITIAL can only be on the
    first. *)
Definition packets_of (encoder : encoder) (s : WebMState) (flags : Z)
    (bs : list (option (list Byte.byte) * Z)) : list encoder_op_packet :=
  match bs with
  | [] => []
  | b :: bs' =>
      packet_of encoder s flags b
        :: map (packet_of encoder s (clear_initial flags)) bs'
  end.

(** [write_packet] on a stream that is not suppressed. *)
Lemma write_packet_unsuppressed self buf n w r w' s :
  webm w self = Some s ->
  Z.land (packet_flags s) PF_SUPPRESS = 0 ->
  write_packet self buf n w = Some (r, w') ->
  r = 1 /\
  w' = set_webm self
         (Some (set_packet_flags (clear_initial (packet_flags s)) s))
         (set_trace (trace w ++ [Packet (packet_of (enc w) s (packet_flags s)
                                           (buf, n))])
            (set_enc (set_timestamp (stream_time (enc w) s) (enc w)) w)).
Proof.
  intros Hs Hf H. destruct w as [en ws wm m t].
  on_prog H ltac:(fun E => unfold write_packet in E).
  destruct self; cbn [webm webm_self webm_meta] in Hs; subst; run H;
    split; reflexivity.
Qed.

Lemma unsuppressed_survives f :
  Z.land f PF_SUPPRESS = 0 -> Z.land (clear_initial f) PF_SUPPRESS = 0.
Proof.
  intros H. unfold clear_initial.
  rewrite <- Z.land_assoc, (Z.land_comm (Z.lnot PF_INITIAL)), Z.land_assoc, H.
  apply Z.land_0_l.
Qed.

(** The writes of one muxer call, one after the other. *)
Lemma write_loop_packets self bs : forall w s u w',
  webm w self = Some s ->
  Z.land (packet_flags s) PF_SUPPRESS = 0 ->
  for_each (fun b => write_packet self b.1 b.2;; mret tt) bs w = Some (u, w') ->
  w' = match bs with
       | [] => w
       | _ :: _ =>
           set_webm self
             (Some (set_packet_flags (clear_initial (packet_flags s)) s))
             (set_trace (trace w ++
                         map Packet (packets_of (enc w) s (packet_flags s) bs))
                (set_enc (set_timestamp (stream_time (enc w) s) (enc w)) w))
       end.
Proof.
  induction bs as [|b bs IH]; intros w s u w' Hs Hf H.
  - apply ret_Some in H as [_ <-]. reflexivity.
  - cbn [for_each] in H.
    apply bind_Some in H as ([] & w1 & H1 & H).
    apply bind_Some in H1 as (r & w2 & H1 & [_ ->]%ret_Some).
    apply (write_packet_unsuppressed _ _ _ _ _ _ _ Hs Hf) in H1 as [-> ->].
    apply (IH _ (set_packet_flags (clear_initial (packet_flags s)) s)) in H.
    2: { rewrite webm_set_webm, decide_True by reflexivity. reflexivity. }
    2: { apply unsuppressed_survives, Hf. }
    rewrite H. clear H IH.
    destruct bs as [|b' bs]; [destruct b; reflexivity |].
    destruct w as [en ws wm m t], s, self;
      cbn [set_webm set_trace set_enc enc trace heap webm_self webm_meta
           packet_flags set_packet_flags packets_of map];
      rewrite clear_initial_idem, <- app_assoc; destruct b; reflexivity.
Qed.


Lemma io_opaque_set_flags self g s w :
  webm w self = Some s ->
  io_opaque (set_webm self (Some (set_packet_flags g s)) w) self
  = io_opaque w self.
Proof.
  intros Hs. unfold io_opaque.
  rewrite webm_set_webm, decide_True by reflexivity. rewrite Hs.
  destruct self; reflexivity.
Qed.

Lemma run_muxer_unsuppressed call self w r w' s :
  webm w self = Some s ->
  io_opaque w self = Some self ->
  Z.land (packet_flags s) PF_SUPPRESS = 0 ->
  run_muxer call (oc s) w = Some (r, w') ->
  r = mux_ret call /\
  w' = match writes call with
       | [] => w
       | _ :: _ =>
           set_webm self
             (Some (set_packet_flags (clear_initial (packet_flags s)) s))
             (set_trace (trace w ++
                         map Packet (packets_of (enc w) s (packet_flags s)
                                       (writes call)))
                (set_enc (set_timestamp (stream_time (enc w) s) (enc w)) w))
       end.
Proof.
  intros Hs Hio Hf H. unfold run_muxer in H.
  apply bind_Some in H as (c & w0 & (h & Hoc & Hh & ->)%load_format_Some & H).
  apply bind_Some in H as (a & w0 & (hp & Hpb & Hhp & ->)%load_avio_Some & H).
  unfold io_opaque in Hio. rewrite Hs in Hio. simpl in Hio.
  rewrite Hoc in Hio. simpl in Hio. rewrite Hh in Hio. simpl in Hio.
  rewrite Hpb in Hio. simpl in Hio. rewrite Hhp in Hio. simpl in Hio.
  injection Hio as Hio. rewrite Hio in H.
  apply bind_Some in H as ([] & w1 & H & [<- <-]%ret_Some).
  split; [reflexivity |].
  eapply write_loop_packets; eassumption.
Qed.

(** What the muxer writes while the stream is not suppressed goes
    downstream buffer by buffer, in order: one packet for each buffer, with
    the encoder's bit rate, sample rate, channels and serial, the size of
    the buffer and the time of [self->next_pts]; [self->packet_flags] is on
    the first packet as it stands and on the others without PF_INITIAL. *)
Theorem muxer_writes_become_packets call self w r w' s :
  webm w self = Some s ->
  io_opaque w self = Some self ->
  Z.land (packet_flags s) PF_SUPPRESS = 0 ->
  run_muxer call (oc s) w = Some (r, w') ->
  r = mux_ret call /\
  heap w' = heap w /\
  trace w' = trace w ++
             map Packet (packets_of (enc w) s (packet_flags s) (writes call)).
Proof.
  intros Hs Hio Hf H.
  destruct (run_muxer_unsuppressed _ _ _ _ _ _ Hs Hio Hf H) as [-> ->].
  split; [reflexivity |].
  destruct (writes call) as [|b bs].
  - split; [reflexivity |]. cbn [packets_of map]. rewrite app_nil_r. reflexivity.
  - destruct w, self; split; reflexivity.
Qed.



Lemma land_lor_0 a b c :
  Z.land (Z.lor a b) c = 0 <-> Z.land a c = 0 /\ Z.land b c = 0.
Proof. rewrite Z.land_lor_distr_l. apply Z.lor_eq_0_iff. Qed.

Lemma suppress_in_lor a b :
  Z.land b PF_SUPPRESS <> 0 -> Z.land (Z.lor a b) PF_SUPPRESS <> 0.
Proof. intros Hb H. apply land_lor_0 in H as [_ H]. exact (Hb H). Qed.

Lemma suppress_in_lor_l a b :
  Z.land a PF_SUPPRESS <> 0 -> Z.land (Z.lor a b) PF_SUPPRESS <> 0.
Proof. intros Hb H. apply land_lor_0 in H as [H _]. exact (Hb H). Qed.

(** [write_trailer] on a stream that stays unsuppressed: after the packets
    of the muxer's trailer comes one more, empty, with PF_FINAL set. *)
Theorem write_trailer_ends_with_final_packet call self x w r w' s :
  webm w self = Some s ->
  io_opaque w self = Some self ->
  let flags := Z.lor (packet_flags s) x in
  let flags' := match writes call with
                | [] => flags
                | _ :: _ => clear_initial flags
                end in
  Z.land (Z.lor flags PF_FINAL) PF_SUPPRESS = 0 ->
  write_trailer call self x w = Some (r, w') ->
  r = mux_ret call /\
  trace w' = trace w ++
             map Packet (packets_of (enc w) s flags (writes call)) ++
             [Packet (packet_of (enc w) s (Z.lor flags' PF_FINAL) (None, 0))].
Proof.
  intros Hs Hio flags flags' Hf H.
  apply land_lor_0 in Hf as [Hf Hfinal].
  unfold write_trailer in H.
  apply bind_Some in H as ([] & w2 & (s1 & Hs1 & ->)%modify_webm_Some & H).
  assert (s1 = s) as -> by congruence.
  apply bind_Some in H as (s2 & w2 & [Hs2 ->]%get_webm_Some & H).
  rewrite webm_set_webm, decide_True in Hs2 by reflexivity.
  injection Hs2 as <-.
  apply bind_Some in H as (ret & w3 & H3 & H).
  assert (Hs2 : webm (set_webm self (Some (set_packet_flags flags s)) w) self
                = Some (set_packet_flags flags s))
    by (rewrite webm_set_webm, decide_True by reflexivity; reflexivity).
  assert (Hio2 : io_opaque (set_webm self (Some (set_packet_flags flags s)) w)
                   self = Some self)
    by (rewrite io_opaque_set_flags by exact Hs; exact Hio).
  destruct (run_muxer_unsuppressed _ _ _ _ _ _ Hs2 Hio2 Hf H3) as [-> Hw3].
  apply bind_Some in H as ([] & w4 & (s3 & Hs3 & ->)%modify_webm_Some & H).
  apply bind_Some in H as (one & w5 & H5 & H).
  assert (Hs3' : s3 = set_packet_flags flags' s).
  { subst w3. unfold flags'. destruct (writes call).
    - congruence.
    - rewrite webm_set_webm, decide_True in Hs3 by reflexivity.
      injection Hs3 as <-. reflexivity. }
  subst s3.
  eapply write_packet_unsuppressed in H5.
  2: { rewrite webm_set_webm, decide_True by reflexivity. reflexivity. }
  2: { cbn [packet_flags set_packet_flags]. apply land_lor_0.
       split; [| exact Hfinal]. unfold flags'.
       destruct (writes call); [exact Hf | apply unsuppressed_survives, Hf]. }
  destruct H5 as [-> Hw5]. subst w5.
  apply bind_Some in H as ([] & w6 & (s4 & Hs4 & ->)%modify_webm_Some
                           & [<- <-]%ret_Some).
  split; [reflexivity |]. subst w3. unfold flags'.
  destruct (writes call) as [|b bs].
  - destruct w, self, s; reflexivity.
  - destruct w, self, s; cbn; rewrite <- app_assoc; reflexivity.
Qed.

(** [write_trailer] with PF_SUPPRESS among its flags, on a stream whose I/O
    context writes for that stream: no packet is handed on, not even the
    final one, and the encoder is left as it is. *)
Theorem write_trailer_suppressed call self x w r w' s :
  Z.land PF_INITIAL PF_SUPPRESS = 0 ->
  webm w self = Some s ->
  io_opaque w self = Some self ->
  Z.land x PF_SUPPRESS <> 0 ->
  write_trailer call self x w = Some (r, w') ->
  r = mux_ret call /\ enc w' = enc w /\ trace w' = trace w /\ heap w' = heap w.
Proof.
  intros Hd Hs Hio Hx H.
  unfold write_trailer in H.
  apply bind_Some in H as ([] & w2 & (s1 & Hs1 & ->)%modify_webm_Some & H).
  assert (s1 = s) as -> by congruence.
  apply bind_Some in H as (s2 & w2 & [Hs2 ->]%get_webm_Some & H).
  rewrite webm_set_webm, decide_True in Hs2 by reflexivity.
  injection Hs2 as <-.
  apply bind_Some in H as (ret & w3 & H3 & H).
  pose proof (run_muxer_ret _ _ _ _ _ H3) as ->.
  pose proof (clears_initial_run_muxer _ _ _ _ _ H3 self) as Hfl.
  eapply run_muxer_suppressed in H3 as (E1 & E2 & E3); [| exact Hd | | |].
  2: { rewrite webm_set_webm, decide_True by reflexivity. reflexivity. }
  2: { apply suppress_in_lor, Hx. }
  2: { rewrite io_opaque_set_flags by exact Hs. exact Hio. }
  apply bind_Some in H as ([] & w4 & (s3 & Hs3 & ->)%modify_webm_Some & H).
  apply bind_Some in H as (one & w5 & H5 & H).
  assert (Hsup : Z.land (packet_flags s3) PF_SUPPRESS <> 0).
  { unfold flags_of in Hfl. rewrite Hs3 in Hfl.
    rewrite webm_set_webm, decide_True in Hfl by reflexivity.
    cbn [fmap option_fmap option_map packet_flags set_packet_flags] in Hfl.
    destruct Hfl as [[= ->] | [= ->]].
    - apply suppress_in_lor, Hx.
    - rewrite suppress_survives by exact Hd. apply suppress_in_lor, Hx. }
  rewrite (write_packet_suppressed self None 0 _
             (set_packet_flags (Z.lor (packet_flags s3) PF_FINAL) s3)) in H5.
  2: { rewrite webm_set_webm, decide_True by reflexivity. reflexivity. }
  2: { cbn [packet_flags set_packet_flags]. apply suppress_in_lor_l, Hsup. }
  injection H5 as _ <-.
  apply bind_Some in H as ([] & w6 & (s4 & Hs4 & ->)%modify_webm_Some
                           & [<- <-]%ret_Some).
  split; [reflexivity |].
  destruct w3, self; cbn in *; subst; destruct w; auto.
Qed.
End Packets.

(** *** init, open_stream and a second teardown *)

Section Allocation.
Context `{PF : packet_flag_values}.


(** [open_stream] returns 1 exactly when [avcodec_open2], [swr_alloc] and
    [swr_init] all succeed.  It enters [avcodec_open2] with [g.avc_mutex]
    held and releases it; when the resampler then fails it enters
    [avcodec_close] after the mutex was released. *)
Theorem open_stream_outcome e self codec w r w' :
  open_stream e self codec w = Some (r, w') ->
  let opened := negb (open2_ret e <? 0) in
  let ready := opened && swr_alloc_ok e && negb (swr_init_ret e <? 0) in
  r = (if ready then 1 else 0) /\
  sync_events (trace w') =
    sync_events (trace w) ++ [EvLock; EvOpen2; EvUnlock]
      ++ (if opened && negb ready then [EvClose] else []).
Proof.
  intros H.
  destruct e as [al gf ml av fe ns o2 f1 f2 sa si hc].
  destruct w as [en ws wm m t].
  cbn [open2_ret swr_alloc_ok swr_init_ret]. cbv zeta.
  destruct self; run_setup H.
  all: cbn [negb andb trace].
  all: try (split; [reflexivity |]).
  all: unfold sync_events; rewrite ?omap_app; cbn [omap];
       rewrite <- ?app_assoc; reflexivity.
Qed.

(** [avformat_free_context] works on the heap only. *)
Lemma blocks_avformat_free_context p :
  step_inv (keeps blocks) (avformat_free_context p).
Proof.
  unfold avformat_free_context, load_format, load_stream, free, deref.
  repeat enc_step; reflexivity.
Qed.

(** [teardown] leaves [self->avio_ctx] NULL ... *)
Lemma teardown_clears_avio self w u w1 :
  teardown self w = Some (u, w1) ->
  exists s1, webm w1 self = Some s1 /\ avio_ctx s1 = None.
Proof.
  unfold teardown, freep_avio_ctx. intros H.
  apply bind_Some in H as ([] & w2 & _ & H).
  apply bind_Some in H as ([] & w3 & _ & H).
  apply bind_Some in H as ([] & w4 & H4 & H).
  apply bind_Some in H4 as (s & w5 & _ & H4).
  apply bind_Some in H4 as ([] & w6 & _ & H4).
  apply bind_Some in H4 as (p & w7 & Hp & (s7 & Hs7 & ->)%modify_webm_Some).
  unfold av_freep in Hp.
  apply bind_Some in Hp as ([] & w8 & _ & [<- _]%ret_Some).
  apply bind_Some in H as (s9 & w9 & [Hs9 ->]%get_webm_Some & H).
  apply blocks_avformat_free_context in H. unfold keeps, blocks in H.
  exists (set_avio_ctx None s7). split; [| reflexivity].
  rewrite webm_set_webm, decide_True in Hs9 by reflexivity.
  injection Hs9 as <-.
  injection H as H1 H2. destruct self; simpl in *; congruence.
Qed.

(** ... and faults when it finds it NULL, at [self->avio_ctx->buffer]. *)
Lemma teardown_needs_avio self w s :
  webm w self = Some s -> avio_ctx s = None -> teardown self w = None.
Proof.
  intros Hs Ha.
  destruct (teardown self w) as [[u w1]|] eqn:H; [exfalso | reflexivity].
  destruct w as [en ws wm m t].
  on_prog H ltac:(fun E => unfold teardown in E).
  destruct s. cbn [avio_ctx] in Ha. subst.
  destruct self; cbn [webm webm_self webm_meta] in Hs; subst; run H.
Qed.

(** A second [teardown] of a stream, with no [setup] in between, does not
    return: the first left [self->avio_ctx] NULL, and [teardown]
    dereferences it. *)
Theorem teardown_twice_faults self w u w1 :
  teardown self w = Some (u, w1) -> teardown self w1 = None.
Proof.
  intros H. apply teardown_clears_avio in H as (s1 & Hs1 & Ha).
  eapply teardown_needs_avio; eassumption.
Qed.
End Allocation.

(** The resampler cannot be allocated. *)
Definition setup_no_resampler : setup_env :=
  {| alloc_context_ok := true;
     guess_format := Some {| oformat_flags := AVFMT_GLOBALHEADER |};
     av_malloc_ok := true; avio_alloc_ok := true;
     find_encoder := fun _ => Some demo_codec;
     new_stream := Some demo_stream; open2_ret := 0;
     frame_env_1 := {| frame_alloc_ok := true; get_buffer_ret := 0 |};
     frame_env_2 := {| frame_alloc_ok := true; get_buffer_ret := 0 |};
     swr_alloc_ok := false; swr_init_ret := 0; header_call := demo_mux |}.

(** The first [setup] of a start fails at [avcodec_open2]. *)
Definition start_open_fails : main_env :=
  {| start_setup_self := setup_open_fails; start_setup_meta := setup_ok;
     meta_trailer_self := demo_mux; meta_header_self := demo_mux;
     meta_trailer_meta := demo_mux; meta_setup_meta := setup_ok;
     flush_trailer_self := demo_mux; flush_header_self := demo_mux;
     flush_trailer_meta := demo_mux; flush_header_meta := demo_mux;
     audio := audio_ok;
     stop_trailer_meta := demo_mux; stop_trailer_self := demo_mux |}.

(** [setup(self, 0)] done on the initialised encoder. *)
Definition w_set_up : world :=
  after (setup (PF := demo_flags) setup_ok Self 0) w_init.

(** A stream added to the output of the RUNNING demo encoder. *)
Definition w_stream_added : world :=
  after (add_stream setup_ok Self AV_CODEC_ID_OPUS 128000 48000 2) w_running.

Lemma teardown_releases_setup_witness :
  heap (after (teardown Self) w_set_up) = heap w_init.
Proof.
  apply (teardown_releases_setup (PF := demo_flags) setup_ok Self 0 w_init
           w_set_up tt (after (teardown Self) w_set_up));
    vm_compute; reflexivity.
Defined.

Lemma setup_wires_write_callback_witness :
  io_opaque w_set_up Self = Some Self /\
  trace (after (write_header (PF := demo_flags) demo_mux Self 16) w_set_up)
  = trace w_set_up.
Proof.
  destruct (setup_wires_write_callback (PF := demo_flags) setup_ok Self 0
              w_init w_set_up ltac:(vm_compute; reflexivity)) as [Hio Hquiet].
  split; [exact Hio |].
  apply (Hquiet ltac:(reflexivity) demo_mux 16 0
           (after (write_header (PF := demo_flags) demo_mux Self 16) w_set_up)
           ltac:(vm_compute; discriminate) ltac:(vm_compute; reflexivity)).
Defined.

Lemma setup_leaks_frames_witness :
  exists s',
    let w' := after (setup (PF := demo_flags) setup_no_resampler Self 0) w_init in
    webm w' Self = Some s' /\
    (forall h, frame s' = Some h \/ tmp_frame s' = Some h ->
       heap w_init !! h = None /\ exists fr, heap w' !! h = Some (OFrame fr)) /\
    (forall k, heap w' !! k <> heap w_init !! k ->
       frame s' = Some k \/ tmp_frame s' = Some k).
Proof.
  apply (setup_leaks_frames (PF := demo_flags) setup_no_resampler Self 0 w_init
           FAILED
           (after (setup (PF := demo_flags) setup_no_resampler Self 0) w_init)
           Resampler_alloc).
  - vm_compute. reflexivity.
  - left. reflexivity.
  - vm_compute. reflexivity.
Defined.

Lemma failed_start_is_clean_witness :
  let w' := after (live_webm_encoder_main (PF := demo_flags) start_open_fails)
              w_init in
  heap w' = heap w_init /\
  encoder_state (enc w') = ES_STOPPED /\
  run_request_f (enc w') = false /\
  run_encoder (enc w') = None /\
  encoder_private (enc w') = None /\
  webm w' Self = None /\
  (forall s m, webm w_init Self = Some s -> metadata s = Some m ->
               webm w' m = None).
Proof.
  apply (failed_start_is_clean (PF := demo_flags) start_open_fails w_init tt
           (after (live_webm_encoder_main (PF := demo_flags) start_open_fails)
              w_init) Self Codec_open);
    vm_compute; reflexivity.
Defined.

Lemma muxer_writes_become_packets_witness :
  let w' := after (run_muxer (PF := demo_flags) demo_mux (oc running_self))
              w_running in
  heap w' = heap w_running /\
  trace w' = trace w_running ++
             map Packet (packets_of (PF := demo_flags) (enc w_running)
                           running_self (packet_flags running_self)
                           (writes demo_mux)).
Proof.
  destruct (muxer_writes_become_packets (PF := demo_flags) demo_mux Self
              w_running 0
              (after (run_muxer (PF := demo_flags) demo_mux (oc running_self))
                 w_running) running_self) as (_ & Hheap & Htrace);
    [vm_compute; reflexivity | vm_compute; reflexivity
     | vm_compute; reflexivity | vm_compute; reflexivity |].
  split; [exact Hheap | exact Htrace].
Defined.


Lemma write_trailer_ends_with_final_packet_witness :
  let w' := after (write_trailer (PF := demo_flags) demo_mux Self 0) w_running in
  exists p,
    last (packets (trace w')) = Some p /\
    packet_data p = None /\ header_data_size p = 0 /\
    Z.land (header_flags p) (@PF_FINAL demo_flags) = @PF_FINAL demo_flags.
Proof.
  destruct (write_trailer_ends_with_final_packet (PF := demo_flags) demo_mux
              Self 0 w_running 0
              (after (write_trailer (PF := demo_flags) demo_mux Self 0)
                 w_running) running_self) as (_ & Htrace);
    [vm_compute; reflexivity | vm_compute; reflexivity
     | vm_compute; reflexivity | vm_compute; reflexivity |].
  cbv zeta. rewrite Htrace. eexists. split; [| split; [| split]].
  - unfold packets. rewrite app_assoc, omap_app. cbn [omap].
    apply last_snoc.
  - reflexivity.
  - reflexivity.
  - vm_compute. reflexivity.
Defined.

Lemma write_trailer_suppressed_witness :
  let w' := after (write_trailer (PF := demo_flags) demo_mux Self 16) w_running in
  enc w' = enc w_running /\ trace w' = trace w_running /\
  heap w' = heap w_running.
Proof.
  destruct (write_trailer_suppressed (PF := demo_flags) demo_mux Self 16
              w_running 0
              (after (write_trailer (PF := demo_flags) demo_mux Self 16)
                 w_running) running_self) as (_ & He & Ht & Hh);
    [reflexivity | vm_compute; reflexivity | vm_compute; reflexivity
     | vm_compute; discriminate | vm_compute; reflexivity |].
  split; [exact He |]. split; [exact Ht | exact Hh].
Defined.

Lemma open_stream_outcome_witness :
  let w' := after (open_stream setup_ok Self demo_codec) w_stream_added in
  sync_events (trace w') =
    sync_events (trace w_stream_added) ++ [EvLock; EvOpen2; EvUnlock].
Proof.
  destruct (open_stream_outcome setup_ok Self demo_codec w_stream_added 1
              (after (open_stream setup_ok Self demo_codec) w_stream_added))
    as [_ Hsync]; [vm_compute; reflexivity |].
  cbv zeta. rewrite Hsync. reflexivity.
Defined.

Lemma teardown_twice_faults_witness :
  teardown Self (after (teardown Self) w_set_up) = None.
Proof.
  apply (teardown_twice_faults Self w_set_up tt).
  vm_compute. reflexivity.
Defined.

End EncoderFacts.

(** ** Facts about avcodecdecode.c *)
Module DecoderFacts.
Import Decoder.

(** *** The conversion to interleaved floats *)

Lemma poke_Some buf (k : nat) x :
  (k < length buf)%nat -> poke buf (Z.of_nat k) x = Some (<[k := x]> buf).
Proof.
  intros H. unfold poke.
  replace (0 <=? Z.of_nat k) with true by (symmetry; apply Z.leb_le; lia).
  replace (Z.of_nat k <? Z.of_nat (length buf)) with true
    by (symmetry; apply Z.ltb_lt; lia).
  simpl. rewrite Nat2Z.id. reflexivity.
Qed.

(** The float a [float *] points to, [k] floats into the buffer. *)
Lemma float_index (k : nat) :
  sizeof_float * Z.of_nat k / sizeof_float = Z.of_nat k.
Proof. unfold sizeof_float. rewrite Z.mul_comm. apply Z.div_mul. lia. Qed.

(** [n] turns of the two-channel loop, entered with [d] at float [k]: they
    are all the loop makes when [endp] lies in the last of them. *)
Lemma planar_loop_two {A} (conv : A -> CFloat.float) (n : nat) :
  forall fuel l r (k : nat) endp buf,
    (n <= fuel)%nat -> (n <= length l)%nat -> (n <= length r)%nat ->
    (k + 2 * n <= length buf)%nat ->
    endp <= sizeof_float * Z.of_nat (k + 2 * n) ->
    ((0 < n)%nat ->
     sizeof_float * Z.of_nat (k + 2 * n) - 2 * sizeof_float < endp) ->
    exists out,
      planar_loop conv 2 fuel l r (sizeof_float * Z.of_nat k) endp buf
      = Some out /\
      length out = length buf /\
      (forall i, (i < n)%nat ->
         out !! (k + 2 * i)%nat = conv <$> l !! i /\
         out !! (k + 2 * i + 1)%nat = conv <$> r !! i) /\
      (forall j, (j < k \/ k + 2 * n <= j)%nat -> out !! j = buf !! j).
Proof.
  induction n as [|n IH]; intros fuel l r k endp buf Hfuel Hl Hr Hbuf Hend Hlast.
  - exists buf.
    split; [| split; [reflexivity | split; [lia | reflexivity]]].
    replace (k + 2 * 0)%nat with k in Hend by lia.
    destruct fuel; simpl;
      (replace (sizeof_float * Z.of_nat k <? endp) with false
         by (symmetry; apply Z.ltb_ge; lia)); reflexivity.
  - destruct fuel as [|fuel]; [lia |].
    destruct l as [|x l]; [simpl in Hl; lia |].
    destruct r as [|y r]; [simpl in Hr; lia |].
    simpl in Hl, Hr. specialize (Hlast ltac:(lia)).
    destruct (IH fuel l r (k + 2)%nat endp
                (<[(k + 1)%nat := conv y]> (<[k := conv x]> buf)))
      as (out & Hrun & Hlen & Hout & Hrest);
      [lia | lia | lia | rewrite !length_insert; lia
       | unfold sizeof_float in *; lia | unfold sizeof_float in *; lia |].
    exists out. rewrite !length_insert in Hlen.
    split; [| split; [exact Hlen | split]].
    + cbn [planar_loop].
      replace (sizeof_float * Z.of_nat k <? endp) with true
        by (symmetry; apply Z.ltb_lt; unfold sizeof_float in *; lia).
      rewrite float_index, poke_Some by lia.
      cbn [mbind option_bind Z.eqb Pos.eqb].
      replace (sizeof_float * Z.of_nat k + sizeof_float)
        with (sizeof_float * Z.of_nat (k + 1)) by (unfold sizeof_float; lia).
      rewrite float_index, poke_Some by (rewrite length_insert; lia).
      cbn [mbind option_bind].
      replace (sizeof_float * Z.of_nat k + 2 * sizeof_float)
        with (sizeof_float * Z.of_nat (k + 2)) by (unfold sizeof_float; lia).
      exact Hrun.
    + intros [|i] Hi.
      * replace (k + 2 * 0)%nat with k by lia.
        rewrite !Hrest by lia. simpl.
        rewrite list_lookup_insert_ne by lia.
        rewrite list_lookup_insert_eq by lia.
        rewrite list_lookup_insert_eq by (rewrite length_insert; lia).
        split; reflexivity.
      * destruct (Hout i) as [H1 H2]; [lia |].
        replace (k + 2 * S i)%nat with (k + 2 + 2 * i)%nat by lia.
        simpl. split; assumption.
    + intros j Hj. rewrite Hrest by lia.
      rewrite !list_lookup_insert_ne by lia. reflexivity.
Qed.

(** The same for the loop with one channel. *)
Lemma planar_loop_one {A} (conv : A -> CFloat.float) (n : nat) :
  forall fuel l r (k : nat) endp buf,
    (n <= fuel)%nat -> (n <= length l)%nat ->
    (k + n <= length buf)%nat ->
    endp <= sizeof_float * Z.of_nat (k + n) ->
    ((0 < n)%nat -> sizeof_float * Z.of_nat (k + n) - sizeof_float < endp) ->
    exists out,
      planar_loop conv 1 fuel l r (sizeof_float * Z.of_nat k) endp buf
      = Some out /\
      length out = length buf /\
      (forall i, (i < n)%nat -> out !! (k + i)%nat = conv <$> l !! i) /\
      (forall j, (j < k \/ k + n <= j)%nat -> out !! j = buf !! j).
Proof.
  induction n as [|n IH]; intros fuel l r k endp buf Hfuel Hl Hbuf Hend Hlast.
  - exists buf.
    split; [| split; [reflexivity | split; [lia | reflexivity]]].
    replace (k + 0)%nat with k in Hend by lia.
    destruct fuel; simpl;
      (replace (sizeof_float * Z.of_nat k <? endp) with false
         by (symmetry; apply Z.ltb_ge; lia)); reflexivity.
  - destruct fuel as [|fuel]; [lia |].
    destruct l as [|x l]; [simpl in Hl; lia |].
    simpl in Hl. specialize (Hlast ltac:(lia)).
    destruct (IH fuel l r (k + 1)%nat endp (<[k := conv x]> buf))
      as (out & Hrun & Hlen & Hout & Hrest);
      [lia | lia | rewrite !length_insert; lia
       | unfold sizeof_float in *; lia | unfold sizeof_float in *; lia |].
    exists out. rewrite !length_insert in Hlen.
    split; [| split; [exact Hlen | split]].
    + cbn [planar_loop].
      replace (sizeof_float * Z.of_nat k <? endp) with true
        by (symmetry; apply Z.ltb_lt; unfold sizeof_float in *; lia).
      rewrite float_index, poke_Some by lia.
      cbn [mbind option_bind Z.eqb Pos.eqb].
      replace (sizeof_float * Z.of_nat k + sizeof_float)
        with (sizeof_float * Z.of_nat (k + 1)) by (unfold sizeof_float; lia).
      exact Hrun.
    + intros [|i] Hi.
      * replace (k + 0)%nat with k by lia.
        rewrite !Hrest by lia. simpl.
        rewrite list_lookup_insert_eq by lia. reflexivity.
      * specialize (Hout i ltac:(lia)).
        replace (k + S i)%nat with (k + 1 + i)%nat by lia.
        simpl. assumption.
    + intros j Hj. rewrite Hrest by lia.
      rewrite !list_lookup_insert_ne by lia. reflexivity.
Qed.

(** The planar formats of the switch. *)
Definition is_planar (fmt : AVSampleFormat) : bool :=
  match fmt with
  | AV_SAMPLE_FMT_FLTP | AV_SAMPLE_FMT_DBLP
  | AV_SAMPLE_FMT_S16P | AV_SAMPLE_FMT_S32P => true
  | _ => false
  end.

(** log2 of the size in bytes of a sample. *)
Definition sample_shift (fmt : AVSampleFormat) : Z :=
  match fmt with
  | AV_SAMPLE_FMT_DBLP => 3
  | AV_SAMPLE_FMT_S16P => 1
  | _ => 2
  end.

(** The value the output is to hold for sample [i] of plane [p]: the sample
    itself, narrowed to float if it is a double, or divided by 32768 or by
    2^30 if it is a 16-bit or 32-bit integer. *)
Definition planar_sample (fmt : AVSampleFormat) (p : plane) (i : nat)
  : option CFloat.float :=
  match fmt, p with
  | AV_SAMPLE_FMT_FLTP, PReal l => l !! i
  | AV_SAMPLE_FMT_DBLP, PReal l => CFloat.float_of_double <$> l !! i
  | AV_SAMPLE_FMT_S16P, PInt l =>
      (fun x => CFloat.float_div (CFloat.float_of_int x)
                                 (CFloat.float_of_int 32768)) <$> l !! i
  | AV_SAMPLE_FMT_S32P, PInt l =>
      (fun x => CFloat.float_div (CFloat.float_of_int x)
                                 (CFloat.float_of_int (2 ^ 30))) <$> l !! i
  | _, _ => None
  end.

(** Plane [p] holds at least [frames] samples of the type [fmt] says. *)
Definition plane_holds (fmt : AVSampleFormat) (p : plane) (frames : Z) : Prop :=
  match fmt, p with
  | AV_SAMPLE_FMT_FLTP, PReal l | AV_SAMPLE_FMT_DBLP, PReal l
  | AV_SAMPLE_FMT_S16P, PInt l | AV_SAMPLE_FMT_S32P, PInt l =>
      frames <= Z.of_nat (length l)
  | _, _ => False
  end.

(** The frames a planar loop converts of the [frames] it is given: [endp] is
    [channels * frames] bytes from the start of the buffer and each frame
    stored moves [d] on by [channels * sizeof (float)] bytes, so [d] reaches
    [endp] after a quarter of the frames, rounded up. *)
Definition frames_converted (frames : Z) : Z :=
  (frames + (sizeof_float - 1)) / sizeof_float.

Lemma frames_converted_bounds frames :
  0 <= frames ->
  0 <= frames_converted frames <= frames /\
  frames <= sizeof_float * frames_converted frames /\
  sizeof_float * frames_converted frames - sizeof_float < frames.
Proof.
  unfold frames_converted, sizeof_float. intros H.
  pose proof (Z.div_mod (frames + (4 - 1)) 4 ltac:(lia)) as E.
  pose proof (Z.mod_pos_bound (frames + (4 - 1)) 4 ltac:(lia)) as B.
  lia.
Qed.

Lemma planar_case_spec {A} (conv : A -> CFloat.float) shift nchannels
    buffer_size (l r : list A) (ro : option (list A)) buf :
  nchannels = 1 \/ nchannels = 2 ->
  let frames := Z.quot (Z.shiftr buffer_size shift) nchannels in
  let done := frames_converted frames in
  0 <= frames ->
  done <= Z.of_nat (length l) ->
  (nchannels = 2 -> ro = Some r /\ done <= Z.of_nat (length r)) ->
  nchannels * done <= Z.of_nat (length buf) ->
  exists out,
    planar_case conv shift nchannels buffer_size (Some l) ro buf
    = Some (Frames frames out) /\
    length out = length buf /\
    (forall i : nat, Z.of_nat i < done ->
       if nchannels =? 2
       then out !! (2 * i)%nat = conv <$> l !! i /\
            out !! (2 * i + 1)%nat = conv <$> r !! i
       else out !! i = conv <$> l !! i) /\
    (forall j : nat, nchannels * done <= Z.of_nat j -> out !! j = buf !! j).
Proof.
  intros Hch frames done Hpos Hl Hr Hbuf. unfold planar_case, c_div.
  fold frames.
  destruct (frames_converted_bounds frames Hpos) as ([Hd0 Hd1] & Hd2 & Hd3).
  fold done in Hd0, Hd1, Hd2, Hd3.
  destruct Hch as [-> | ->]; cbn [Z.eqb Pos.eqb mbind option_bind].
  - destruct (planar_loop_one conv (Z.to_nat done)
                (Z.to_nat (1 * frames)) l [] 0%nat (1 * frames) buf)
      as (out & Hrun & Hlen & Hout & Hrest);
      [lia | lia | simpl; lia | unfold sizeof_float in *; lia
       | unfold sizeof_float in *; lia |].
    exists out. split; [| split; [exact Hlen | split]].
    + change (sizeof_float * Z.of_nat 0) with 0 in Hrun.
      rewrite Hrun. reflexivity.
    + intros i Hi. apply (Hout i). lia.
    + intros j Hj. apply Hrest. lia.
  - destruct (Hr eq_refl) as [-> Hr'].
    destruct (planar_loop_two conv (Z.to_nat done)
                (Z.to_nat (2 * frames)) l r 0%nat (2 * frames) buf)
      as (out & Hrun & Hlen & Hout & Hrest);
      [lia | lia | lia | simpl; lia | unfold sizeof_float in *; lia
       | unfold sizeof_float in *; lia |].
    exists out. split; [| split; [exact Hlen | split]].
    + change (sizeof_float * Z.of_nat 0) with 0 in Hrun.
      cbn [mbind option_bind]. rewrite Hrun. reflexivity.
    + intros i Hi. apply (Hout i). lia.
    + intros j Hj. apply Hrest. lia.
Qed.



(** *** Runs of the decoder's functions *)

Lemma dec_alloc_Some o w h w' :
  alloc o w = Some (h, w') ->
  heap w !! h = None /\ w' = set_heap (<[h := o]> (heap w)) w.
Proof.
  unfold alloc. intros [= <- <-]. split; [| reflexivity].
  apply not_elem_of_dom, is_fresh.
Qed.

Lemma dec_load_Some h o w w' :
  load h w = Some (o, w') -> heap w !! h = Some o /\ w' = w.
Proof.
  unfold load. destruct (heap w !! h); [| discriminate].
  intros [= -> ->]. auto.
Qed.

Lemma dec_store_Some h o w u w' :
  store h o w = Some (u, w') ->
  is_Some (heap w !! h) /\ w' = set_heap (<[h := o]> (heap w)) w.
Proof.
  unfold store.
  intros (o' & w1 & [Ho ->]%dec_load_Some & [= <-])%bind_Some. eauto.
Qed.

Lemma dec_free_Some h w u w' :
  free h w = Some (u, w') ->
  is_Some (heap w !! h) /\ w' = set_heap (delete h (heap w)) w.
Proof.
  unfold free.
  intros (o' & w1 & [Ho ->]%dec_load_Some & [= <-])%bind_Some. eauto.
Qed.

Lemma dec_modify_world_Some (f : world -> world) w u w' :
  modify_world f w = Some (u, w') -> w' = f w.
Proof. intros [= _ E]. symmetry. exact E. Qed.

Lemma dec_deref_Some p h w w' :
  deref p w = Some (h, w') -> p = Some h /\ w' = w.
Proof. destruct p; [intros [= -> ->]; auto | discriminate]. Qed.

Create HintDb dexec.
#[export] Hint Unfold emit modify_xl modify_src_data load_vars modify_vars
  load_input load_codec store_codec store_at c_free malloc lock_avc_mutex
  unlock_avc_mutex av_free_packet src_delete src_new swr_free avcodec_open2
  avcodec_close avformat_open_input avformat_close_input av_seek_frame
  free_self init_bail src_process xlplayer_write_channel_data : dexec.


(** *** What avcodecdecode_eject leaves of the player *)

Section DecFrame.
Context (R : relation world) `{!PreOrder R}.

Lemma step_inv_get_xl : step_inv R get_xl.
Proof. intros w x w' [= _ <-]. reflexivity. Qed.

Lemma step_inv_dec_load h : step_inv R (load h).
Proof.
  intros w o w'. unfold load. destruct (heap w !! h); [| discriminate].
  intros [= _ <-]. reflexivity.
Qed.
End DecFrame.

(** Every field of the player but [src_state]. *)
Definition player_kept (w : world) :=
  let x := xl w in
  (dec_data x, pathname x, seek_s x, samplerate x, rsqual x, src_data x,
   playmode x, command x, write_deferred x, play_progress_ms x,
   dec_init x, dec_play x, dec_eject x).

Ltac dec_frame :=
  repeat first
    [ inv_step
    | apply step_inv_get_xl; typeclasses eauto
    | apply step_inv_dec_load; typeclasses eauto
    | progress autounfold with dexec
    | progress unfold store, free, deref
    | (unfold keeps; cbn; reflexivity) ].

Lemma avcodecdecode_eject_frees_self have w u w' :
  avcodecdecode_eject have w = Some (u, w') ->
  player_kept w' = player_kept w /\
  exists hv, dec_data (xl w) = Some hv /\ heap w' !! hv = None.
Proof.
  intros H. unfold avcodecdecode_eject in H.
  assert (Hself : exists hv, dec_data (xl w) = Some hv).
  { apply bind_Some in H as (v & w1 & Hv & _).
    unfold load_vars in Hv.
    apply bind_Some in Hv as (x & w2 & [= <- <-] & Hv).
    destruct (dec_data (xl w)); [eauto | discriminate]. }
  destruct Hself as [hv Hhv].
  assert (K : keeps player_kept w w) by reflexivity.
  repeat match type of H with
         | (get_xl ≫= _) _ = Some _ =>
             apply bind_Some in H as (? & ? & [= <- <-] & H)
         | (_ ≫= _) ?a = Some _ =>
             let Hs := fresh "Hs" in
             let K' := fresh "K" in
             apply bind_Some in H as (? & ? & Hs & H);
             apply (step_inv_intro (keeps player_kept)) in Hs;
             [| dec_frame];
             match type of Hs with
             | keeps _ _ ?b =>
                 assert (K' : keeps player_kept w b)
                   by (etransitivity; [exact K | exact Hs]);
                 clear K Hs; rename K' into K
             end
         end.
  unfold keeps in K.
  match type of H with
  | c_free _ ?wk = _ =>
      assert (Hd : dec_data (xl wk) = Some hv)
        by (rewrite <- Hhv; injection K; auto);
      rewrite Hd in H
  end.
  apply dec_free_Some in H as [_ ->]. split; [exact K |].
  exists hv. split; [exact Hhv |]. apply lookup_delete_eq.
Qed.
Ltac dec_norm_in H :=
  cbn [heap xl trace set_heap set_xl set_trace] in H;
  repeat first
    [ rewrite lookup_insert_eq in H
    | rewrite lookup_insert_ne in H by EncoderFacts.solve_neq ].

(** Read a field of an explicit player. *)
Ltac dec_norm_xl H :=
  cbn [xl dec_data pathname seek_s samplerate rsqual src_state src_data
       playmode command write_deferred play_progress_ms dec_init dec_play
       dec_eject set_dec_data set_src_state set_src_data set_playmode
       set_command set_callbacks] in H.

Ltac dec_norm_world_with tac :=
  match goal with
  | E : ?x = _ |- _ =>
      is_var x;
      lazymatch type of x with world => idtac end;
      unfold set_heap, set_xl, set_trace in E;
      cbn [heap xl trace dec_data pathname seek_s samplerate rsqual src_state
           src_data playmode command write_deferred play_progress_ms dec_init
           dec_play dec_eject set_dec_data set_src_state set_src_data
           set_playmode set_command set_callbacks data_in data_out
           input_frames output_frames output_frames_gen end_of_input
           src_ratio set_data_in set_data_out set_input_frames
           set_output_frames set_output_frames_gen set_end_of_input
           set_src_ratio] in E;
      tac E;
      subst x
  end.

Ltac dec_norm_world := dec_norm_world_with ltac:(fun E => idtac).

Ltac dec_tidy_store E :=
  lazymatch type of E with
  | _ = Build_world _ (<[?h:=_]> _) _ =>
      repeat first
        [ rewrite insert_insert_eq in E
        | rewrite (insert_insert_ne _ h) in E by EncoderFacts.solve_neq ]
  end.

Ltac dec_tidy_free E :=
  repeat lazymatch type of E with
         | context [delete ?h (<[?h:=_]> _)] => rewrite delete_insert_eq in E
         | context [delete ?h (<[_:=_]> _)] =>
             rewrite (delete_insert_ne _ h) in E by EncoderFacts.solve_neq
         | context [delete ?h ?m] => rewrite (delete_id m h) in E by assumption
         end.

(** Reduce the scrutinee [x] of the match at the head of [H], leaving
    arithmetic as it stands. *)
Ltac dec_norm_scrutinee H x :=
  let x' := eval cbn -[lookup insert delete fresh dom Z.ltb Z.eqb Z.leb Z.land
                       Z.lor Z.modulo Z.div Z.quot Z.pow Z.mul Z.add Z.sub
                       Z.to_nat to_unsigned to_int SFltb
                       CFloat.double_to_size_t CFloat.double_div
                       CFloat.double_mul CFloat.double_add
                       CFloat.double_of_int CFloat.float_of_int
                       CFloat.float_div CFloat.float_sub] in x in
  tryif constr_eq x x' then fail
  else EncoderFacts.conv_in H x ltac:(fun E => EncoderFacts.set_rhs E x').

(** Whether a variable of the context occurs in [t]. *)
Ltac has_var t :=
  match goal with
  | x : _ |- _ => lazymatch t with context [x] => idtac end
  end.

(** Invert the run [H : m w = Some (a, w')] down to its primitives, in the
    order of execution. *)
Ltac drun H :=
  lazymatch type of H with
  | (_ ≫= _) _ = Some _ =>
      let H1 := fresh "Hm" in
      let H2 := fresh "Hk" in
      apply bind_Some in H as (? & ? & H1 & H2); drun H1; drun H2
  | mret _ _ = Some _ => apply ret_Some in H as [? ?]; subst
  | fault _ = Some _ => discriminate H
  | None = Some _ => discriminate H
  | Some _ = Some _ => injection H as ? ?; subst
  | get_xl _ = Some _ => injection H as ? ?; subst
  | modify_world _ _ = Some _ =>
      apply dec_modify_world_Some in H; dec_norm_world
  | alloc _ _ = Some _ =>
      let K := fresh "Hfresh" in
      apply dec_alloc_Some in H as [K ?]; dec_norm_world; dec_norm_in K;
      repeat (let K' := fresh "Hne" in apply lookup_insert_None in K as [K K'])
  | free _ _ = Some _ =>
      apply dec_free_Some in H as [_ ?]; dec_norm_world_with dec_tidy_free
  | load _ _ = Some _ =>
      apply dec_load_Some in H as [H ?]; subst; dec_norm_in H;
      try match goal with
          | E : ?l = Some _ |- _ =>
              tryif constr_eq E H then fail
              else lazymatch type of H with l = _ => rewrite E in H end
          end;
      first [discriminate H | injection H as ?; subst | idtac]
  | store _ _ _ = Some _ =>
      apply dec_store_Some in H as [_ ?]; dec_norm_world_with dec_tidy_store
  | deref _ _ = Some _ =>
      apply dec_deref_Some in H as [H ?]; subst; dec_norm_xl H;
      try match goal with
          | E : ?l = Some _ |- _ =>
              tryif constr_eq E H then fail
              else lazymatch type of H with l = _ => rewrite E in H end
          end;
      first [discriminate H | injection H as ?; subst | idtac]
  | (if ?b0 then _ else _) _ = Some _ =>
      let b := EncoderFacts.innermost b0 in
      first [ match goal with
              | E : ?y = _ |- _ =>
                  lazymatch b0 with context [y] => rewrite E in H end
              end
            | dec_norm_scrutinee H b0
            | tryif has_var b0 then fail else EncoderFacts.decide_closed H b0
            | destruct b eqn:? ];
      cbn beta iota in H; drun H
  | (match ?x0 with _ => _ end) _ = Some _ =>
      let x := EncoderFacts.innermost x0 in
      first [ match goal with
              | E : ?y = _ |- _ =>
                  lazymatch x0 with context [y] => rewrite E in H end
              end
            | dec_norm_scrutinee H x0
            | destruct x eqn:? ];
      cbn beta iota in H; drun H
  | (let _ := _ in _) _ = Some _ => cbv zeta in H; drun H
  | avcodecdecode_eject _ _ = Some _ =>
      let K := fresh "Hkept" in
      let F := fresh "Hfreed" in
      apply avcodecdecode_eject_frees_self in H as (K & ? & H & F);
      unfold player_kept in K; dec_norm_xl K; injection K as ?;
      dec_norm_xl H;
      try match goal with
          | E : ?l = Some _ |- _ =>
              tryif constr_eq E H then fail
              else lazymatch type of H with l = _ => rewrite E in H end
          end;
      first [discriminate H | injection H as ?; subst | idtac]
  | _ =>
      tryif EncoderFacts.on_prog H
              ltac:(fun E => progress autounfold with dexec in E)
      then drun H else idtac
  end.

Ltac dec_heap_solve :=
  cbn [heap xl trace set_heap set_xl set_trace];
  apply map_eq; intros ?k;
  repeat (rewrite lookup_delete || rewrite lookup_insert);
  repeat case_decide; subst; congruence.

(** Evaluate the goal, leaving the heap and arithmetic as they stand. *)
Ltac dec_cbn :=
  cbn -[lookup insert delete fresh dom Z.ltb Z.eqb Z.leb Z.land Z.lor
        Z.modulo Z.div Z.quot Z.pow Z.mul Z.add Z.sub Z.to_nat to_unsigned
        to_int SFltb CFloat.double_to_size_t CFloat.double_div
        CFloat.double_mul CFloat.double_add CFloat.double_of_int
        CFloat.float_of_int CFloat.float_div CFloat.float_sub].

(** Read the heap of the goal at its handles. *)
Ltac dec_lookup :=
  repeat first
    [ rewrite lookup_insert_eq
    | rewrite lookup_insert_ne by EncoderFacts.solve_neq ].

(** *** avcodecdecode_init and the resampler *)

(** [*self], read through [xlplayer->dec_data]. *)
Definition self_vars (w : world) : option avcodecdecode_vars :=
  match dec_data (xl w) with
  | Some h => match heap w !! h with Some (OVars v) => Some v | _ => None end
  | None => None
  end.

(** [*p] for a codec context [p]. *)
Definition codec_at (w : world) (p : codec_ptr) : option AVCodecContext :=
  match p with
  | Some (h, i) =>
      match heap w !! h with
      | Some (OInput x) => streams x !! i
      | _ => None
      end
  | None => None
  end.

Lemma self_vars_Some w v :
  self_vars w = Some v ->
  exists h, dec_data (xl w) = Some h /\ heap w !! h = Some (OVars v).
Proof.
  unfold self_vars. destruct (dec_data (xl w)) as [h|]; [| discriminate].
  destruct (heap w !! h) as [[]|] eqn:E; try discriminate. intros [= ->].
  exists h. split; [reflexivity | exact E].
Qed.

Lemma codec_at_Some w p cx :
  codec_at w p = Some cx ->
  exists h i x, p = Some (h, i) /\ heap w !! h = Some (OInput x) /\
                streams x !! i = Some cx.
Proof.
  unfold codec_at. destruct p as [[h i]|]; [| discriminate].
  destruct (heap w !! h) as [[]|] eqn:E; try discriminate. intros Hs.
  eexists _, _, _. split; [reflexivity |]. split; [exact E | exact Hs].
Qed.

Lemma deliver_unresampled d n w b w' v :
  self_vars w = Some v -> resample v = 0 ->
  deliver d n w = Some (b, w') ->
  exists rest,
    trace w' = trace w ++ Demux (floatsamples v) n (channels v) :: rest.
Proof.
  intros Hv Hr H. destruct w as [x m t], d as [pr pg dw].
  apply self_vars_Some in Hv as (hv & Hhv & Hv).
  cbn [xl heap trace] in *.
  EncoderFacts.on_prog H ltac:(fun E => unfold deliver in E).
  cbn [src_process_ret src_process_gen deferred_after_write] in H.
  drun H; cbn [trace].
  all: try (rewrite Hr in *; discriminate).
  - exists []. reflexivity.
  - exists [WriteChannelData]. rewrite <- app_assoc. reflexivity.
Qed.

Section Init.
Variable HAVE_SWRESAMPLE : bool.

(** C7 (amended): with the rates equal, [avcodecdecode_init] leaves
    [self->resample] zero, the player as it was and nothing on the heap but
    the updated [*self]; with the rates different and both [malloc] and
    [src_new] successful it sets [self->resample], stores the ratio of the
    player's rate to the stream's rate in [src_ratio] and a new resampler
    state in [src_state]; with the rates different and one of the two
    failing, it ejects the decoder ([*self] is freed) and sets PM_STOPPED and
    CMD_COMPLETE.  When [self->resample] is zero, the delivery stage of
    [avcodecdecode_play] hands [self->floatsamples] and the frame's own
    sample count to [xlplayer_demux_channel_data]. *)
Theorem avcodecdecode_init_resampler e w u w' v cx :
  self_vars w = Some v ->
  codec_at w (c v) = Some cx ->
  avcodecdecode_init HAVE_SWRESAMPLE e w = Some (u, w') ->
  let rate := to_int (samplerate (xl w)) in
  let ready := malloc_ok e && (src_error e =? 0) in
  (sample_rate cx = rate ->
   xl w' = xl w /\
   exists hv v', dec_data (xl w) = Some hv /\ resample v' = 0 /\
                 heap w' = <[hv := OVars v']> (heap w)) /\
  (sample_rate cx <> rate -> ready = true ->
   (exists v', self_vars w' = Some v' /\ resample v' = 1) /\
   src_ratio (src_data (xl w'))
   = CFloat.double_div (CFloat.double_of_int (samplerate (xl w)))
                       (CFloat.double_of_int (sample_rate cx)) /\
   exists hs, src_state (xl w') = Some hs /\ heap w !! hs = None /\
              heap w' !! hs
              = Some (OSrc (rsqual (xl w))
                           (if ctx_channels cx =? 1 then 1 else 2))) /\
  (sample_rate cx <> rate -> ready = false ->
   self_vars w' = None /\ playmode (xl w') = PM_STOPPED /\
   command (xl w') = CMD_COMPLETE) /\
  (forall d n w1 v1 b w2,
     self_vars w1 = Some v1 -> resample v1 = 0 ->
     deliver d n w1 = Some (b, w2) ->
     exists rest,
       trace w2 = trace w1 ++ Demux (floatsamples v1) n (channels v1) :: rest).
Proof.
  intros Hv Hc H rate ready. subst rate ready.
  assert (D := deliver_unresampled).
  destruct e as [mo se]. destruct w as [x m t].
  apply self_vars_Some in Hv as (hv & Hhv & Hv).
  apply codec_at_Some in Hc as (hi & i & ix & Hcv & Hi & Hcx).
  cbn [xl heap malloc_ok src_error] in *.
  EncoderFacts.on_prog H ltac:(fun E => unfold avcodecdecode_init in E).
  cbn [malloc_ok src_error] in H.
  destruct (sample_rate cx =? to_int (samplerate x)) eqn:Erate.
  - drun H; apply Z.eqb_eq in Erate as Erate'.
    all: (split; [| split; [| split; [| intros; eapply D; eassumption]]]); intros; try congruence.
    all: split; [reflexivity |].
    all: eexists _, _; (split; [eassumption |]); (split; [| reflexivity]).
    all: reflexivity.
  - drun H; apply Z.eqb_neq in Erate as Erate'.
    all: (split; [| split; [| split; [| intros; eapply D; eassumption]]]); intros; try congruence.
    all: try match goal with
             | E : (?s =? 0) = _, K : _ && (?s =? 0) = _ |- _ =>
                 rewrite E in K; discriminate K
             end.
    all: try discriminate.
    all: unfold self_vars; dec_cbn.
    all: repeat match goal with
                | E : ?l = _ |- context [?l] => rewrite E; dec_cbn
                end.
    all: dec_lookup.
    all: try (repeat split; reflexivity).
    all: (split; [eexists; split; reflexivity |]).
    all: (split; [reflexivity |]).
    all: eexists; (split; [reflexivity |]).
    all: (split; [assumption | apply lookup_insert_eq]).
Qed.
End Init.

(** *** avcodecdecode_reg *)

Lemma to_unsigned_neg z : - 2 ^ 31 <= z < 0 -> to_unsigned z = z + 2 ^ 32.
Proof.
  intros H. unfold to_unsigned. symmetry.
  apply (Z.mod_unique _ _ (-1)); lia.
Qed.

Lemma to_unsigned_nonneg z : 0 <= z < 2 ^ 32 -> to_unsigned z = z.
Proof. intros H. unfold to_unsigned. apply Z.mod_small. exact H. Qed.

Lemma to_unsigned_ge z : 0 <= to_unsigned z.
Proof. unfold to_unsigned. apply Z.mod_pos_bound. lia. Qed.

Lemma dec_sync_events_app t1 t2 :
  sync_events (t1 ++ t2) = sync_events t1 ++ sync_events t2.
Proof. unfold sync_events. apply omap_app. Qed.

(** Bring the comparisons the run met to inequalities. *)
Ltac dec_ineq :=
  repeat match goal with
         | E : (_ <? _) = true |- _ => apply Z.ltb_lt in E
         | E : (_ <? _) = false |- _ => apply Z.ltb_ge in E
         end.

Section Reg.
Variable HAVE_SWRESAMPLE : bool.

(** C5 (the code departs from it): [self->stream] is an [unsigned int], so
    the test [(self->stream = av_find_best_stream(...)) < 0] never holds.
    When no audio stream is found the function goes on to read
    [self->ic->streams[self->stream]] at an index [2^32 - |error|]: it does
    not return REJECTED. *)
Theorem avcodecdecode_reg_misses_stream_failure e w :
  calloc_ok e = true ->
  0 <= open_input_ret e ->
  0 <= find_stream_info_ret e ->
  - 2 ^ 31 <= best_stream_ret e < 0 ->
  Z.of_nat (length (input_streams e)) <= 2 ^ 31 ->
  avcodecdecode_reg HAVE_SWRESAMPLE e w = None.
Proof.
  intros Hca Hoi Hfi Hbs Hlen.
  destruct (avcodecdecode_reg HAVE_SWRESAMPLE e w) as [[r w']|] eqn:H;
    [exfalso | reflexivity].
  destruct e as [ca fo tr cs oi ist fi bs bc o2]. destruct w as [x m t].
  cbn [calloc_ok open_input_ret find_stream_info_ret best_stream_ret
       input_streams] in *.
  subst ca.
  EncoderFacts.on_prog H ltac:(fun E => unfold avcodecdecode_reg in E).
  cbn [calloc_ok fopen_ok tag_read chapter_scan open_input_ret input_streams
       find_stream_info_ret best_stream_ret best_stream_codec open2_ret] in H.
  drun H; dec_ineq; try lia.
  all: try (pose proof (to_unsigned_ge bs); lia).
  all: match goal with
       | E : _ !! Z.to_nat _ = Some _ |- _ =>
           apply lookup_lt_Some in E; rewrite to_unsigned_neg in E by lia; lia
       end.
Qed.

(** Where the failure is one the function detects, or there is none:
    [avcodecdecode_reg] returns ACCEPTED exactly when every call succeeded,
    with the three functions installed in the player; else it returns
    REJECTED, with the heap and the three function pointers as they were. *)
Theorem avcodecdecode_reg_outcome e w r w' :
  avcodecdecode_reg HAVE_SWRESAMPLE e w = Some (r, w') ->
  - 2 ^ 31 <= best_stream_ret e < 2 ^ 31 ->
  Z.of_nat (length (input_streams e)) <= 2 ^ 31 ->
  (r = ACCEPTED \/ r = REJECTED) /\
  (r = ACCEPTED <->
   calloc_ok e = true /\ 0 <= open_input_ret e /\
   0 <= find_stream_info_ret e /\ 0 <= best_stream_ret e /\
   0 <= open2_ret e) /\
  (r = ACCEPTED ->
   dec_init (xl w') = Some Avcodecdecode_init /\
   dec_play (xl w') = Some Avcodecdecode_play /\
   dec_eject (xl w') = Some Avcodecdecode_eject) /\
  (r = REJECTED ->
   dec_init (xl w') = dec_init (xl w) /\
   dec_play (xl w') = dec_play (xl w) /\
   dec_eject (xl w') = dec_eject (xl w) /\
   heap w' = heap w).
Proof.
  intros H Hbs Hlen.
  destruct e as [ca fo tr cs oi ist fi bs bc o2]. destruct w as [x m t].
  cbn [calloc_ok open_input_ret find_stream_info_ret best_stream_ret
       input_streams open2_ret] in *.
  EncoderFacts.on_prog H ltac:(fun E => unfold avcodecdecode_reg in E).
  cbn [calloc_ok fopen_ok tag_read chapter_scan open_input_ret input_streams
       find_stream_info_ret best_stream_ret best_stream_codec open2_ret] in H.
  drun H; dec_ineq.
  all: try (pose proof (to_unsigned_ge bs); lia).
  all: try match goal with
           | E : _ !! Z.to_nat _ = Some _ |- _ =>
               apply lookup_lt_Some in E;
               assert (0 <= bs)
                 by (destruct (Z.lt_ge_cases bs 0) as [Hn|Hn]; [| exact Hn];
                     rewrite to_unsigned_neg in E by lia; lia)
           end.
  all: unfold ACCEPTED, REJECTED.
  all: (split; [auto |]).
  all: (split; [split; [try discriminate; intros _ | intros (? & ? & ? & ? & ?)];
                first [reflexivity | discriminate | lia | auto 10] |]).
  all: (split; intros; try discriminate).
  all: dec_cbn; try (repeat split; reflexivity).
  all: repeat split; try reflexivity; dec_heap_solve.
Qed.

(** Every run of [avcodecdecode_reg] that returns enters [avcodec_open2]
    only with [g.avc_mutex] held and leaves the mutex released. *)
Theorem avcodecdecode_reg_mutex e w r w' :
  avcodecdecode_reg HAVE_SWRESAMPLE e w = Some (r, w') ->
  held_after false (sync_events (trace w)) = false ->
  guarded false (sync_events (trace w'))
  = guarded false (sync_events (trace w)) /\
  held_after false (sync_events (trace w')) = false.
Proof.
  intros H Hheld.
  destruct e as [ca fo tr cs oi ist fi bs bc o2]. destruct w as [x m t].
  cbn [trace] in *.
  EncoderFacts.on_prog H ltac:(fun E => unfold avcodecdecode_reg in E).
  cbn [calloc_ok fopen_ok tag_read chapter_scan open_input_ret input_streams
       find_stream_info_ret best_stream_ret best_stream_codec open2_ret] in H.
  drun H; dec_ineq.
  all: try (pose proof (to_unsigned_ge bs); lia).
  all: cbn [trace];
       rewrite ?dec_sync_events_app, ?EncoderFacts.guarded_app,
               ?EncoderFacts.held_after_app, ?Hheld;
       cbn; rewrite ?Hheld, ?andb_true_r; auto.
Qed.
End Reg.

(** *** A concrete player, to run the embedding on *)

Definition dec_after {A} (m : M A) (w : world) : world :=
  match m w with Some (_, w') => w' | None => w end.

Definition demo_src_data : SRC_DATA :=
  {| data_in := None; data_out := None; input_frames := 0;
     output_frames := 0; output_frames_gen := 0; end_of_input := 0;
     src_ratio := S754_zero false |}.

(** A player at 44100 Hz with no decoder registered. *)
Definition demo_player : xlplayer :=
  {| dec_data := None; pathname := "track.wma"; seek_s := 0;
     samplerate := 44100; rsqual := 0; src_state := None;
     src_data := demo_src_data; playmode := PM_OTHER; command := CMD_OTHER;
     write_deferred := 0; play_progress_ms := 0;
     dec_init := None; dec_play := None; dec_eject := None |}.

Definition demo_decoder_world : world :=
  {| xl := demo_player; heap := ∅; trace := [] |}.

(** One stereo stream at 48000 Hz. *)
Definition demo_context : AVCodecContext :=
  {| codec_id := CODEC_ID_OTHER; ctx_channels := 2; sample_rate := 48000;
     sample_fmt := AV_SAMPLE_FMT_S16P; channel_layout := AV_CH_LAYOUT_STEREO;
     request_sample_fmt := AV_SAMPLE_FMT_NONE; request_channel_layout := 0;
     priv_data := None |}.

(** Every library call of [avcodecdecode_reg] succeeds. *)
Definition reg_ok : reg_env :=
  {| calloc_ok := true; fopen_ok := true; tag_read := [];
     chapter_scan := None; open_input_ret := 0;
     input_streams := [demo_context]; find_stream_info_ret := 0;
     best_stream_ret := 0; best_stream_codec := {| codec_name := "wmav2" |};
     open2_ret := 0 |}.

(** [av_find_best_stream] returns AVERROR_STREAM_NOT_FOUND. *)
Definition reg_no_audio : reg_env :=
  {| calloc_ok := true; fopen_ok := true; tag_read := [];
     chapter_scan := None; open_input_ret := 0;
     input_streams := [demo_context]; find_stream_info_ret := 0;
     best_stream_ret := -1381258232;
     best_stream_codec := {| codec_name := "wmav2" |};
     open2_ret := 0 |}.

Definition init_ok : init_env := {| malloc_ok := true; src_error := 0 |}.
Definition init_no_memory : init_env := {| malloc_ok := false; src_error := 0 |}.

(** The decoder registered, in the build without libswresample. *)
Definition w_registered : world :=
  dec_after (avcodecdecode_reg false reg_ok) demo_decoder_world.

Lemma avcodecdecode_reg_misses_stream_failure_witness :
  avcodecdecode_reg false reg_no_audio demo_decoder_world = None.
Proof.
  apply (avcodecdecode_reg_misses_stream_failure false reg_no_audio).
  - reflexivity.
  - vm_compute. discriminate.
  - vm_compute. discriminate.
  - split; vm_compute; [discriminate | reflexivity].
  - vm_compute. discriminate.
Defined.

Lemma avcodecdecode_reg_outcome_witness :
  dec_play (xl w_registered) = Some Avcodecdecode_play.
Proof.
  assert (H : avcodecdecode_reg false reg_ok demo_decoder_world
              = Some (ACCEPTED, w_registered)) by (vm_compute; reflexivity).
  destruct (avcodecdecode_reg_outcome false _ _ _ _ H) as (_ & _ & Hacc & _).
  - split; vm_compute; [discriminate | reflexivity].
  - vm_compute. discriminate.
  - destruct (Hacc eq_refl) as (_ & Hplay & _). exact Hplay.
Defined.

Lemma avcodecdecode_reg_mutex_witness :
  guarded false (sync_events (trace w_registered)) = true.
Proof.
  assert (H : avcodecdecode_reg false reg_ok demo_decoder_world
              = Some (ACCEPTED, w_registered)) by (vm_compute; reflexivity).
  destruct (avcodecdecode_reg_mutex false _ _ _ _ H) as [Hg _].
  - reflexivity.
  - rewrite Hg. reflexivity.
Defined.

(** The vars and the codec context of the registered decoder. *)
Definition demo_vars : avcodecdecode_vars :=
  default avcodecdecode_vars_zero (self_vars w_registered).
Definition demo_opened : AVCodecContext :=
  default demo_context (codec_at w_registered (c demo_vars)).

Lemma avcodecdecode_init_resampler_witness :
  exists v',
    self_vars (dec_after (avcodecdecode_init false init_ok) w_registered)
    = Some v' /\ resample v' = 1.
Proof.
  assert (Hv : self_vars w_registered = Some demo_vars)
    by (vm_compute; reflexivity).
  assert (Hc : codec_at w_registered (c demo_vars) = Some demo_opened)
    by (vm_compute; reflexivity).
  assert (H : avcodecdecode_init false init_ok w_registered
              = Some (tt, dec_after (avcodecdecode_init false init_ok)
                            w_registered))
    by (vm_compute; reflexivity).
  destruct (avcodecdecode_init_resampler false _ _ _ _ _ _ Hv Hc H)
    as (_ & Hon & _).
  destruct Hon as (Hres & _).
  - intros E. vm_compute in E. discriminate E.
  - reflexivity.
  - exact Hres.
Defined.

(** C7 as stated fails: the stream is at 48000 Hz and the player at 44100 Hz,
    but [malloc] returns NULL: after [avcodecdecode_init] there is no
    resampler state, and [*self] is gone. *)
Lemma init_without_memory_engages_no_resampler :
  sample_rate demo_opened <> to_int (samplerate (xl w_registered)) /\
  avcodecdecode_init false init_no_memory w_registered
  = Some (tt, dec_after (avcodecdecode_init false init_no_memory)
                w_registered) /\
  src_state (xl (dec_after (avcodecdecode_init false init_no_memory)
                   w_registered)) = None /\
  self_vars (dec_after (avcodecdecode_init false init_no_memory) w_registered)
  = None.
Proof.
  split; [intros E; vm_compute in E; discriminate E |].
  split; [vm_compute; reflexivity |].
  split; vm_compute; reflexivity.
Qed.

(** *** avcodecdecode_eject and the mutex *)

(** [avcodecdecode_eject] enters [avcodec_close] with [g.avc_mutex] held and
    releases it, and that is all the rest of the program sees of the call;
    it frees [*self] and leaves [xlplayer->dec_data] pointing at it. *)
Theorem avcodecdecode_eject_guarded have w u w' :
  avcodecdecode_eject have w = Some (u, w') ->
  trace w' = trace w ++ [Sync EvLock; Sync EvClose; Sync EvUnlock] /\
  dec_data (xl w') = dec_data (xl w) /\
  exists hv, dec_data (xl w) = Some hv /\ heap w' !! hv = None.
Proof.
  intros H.
  pose proof (avcodecdecode_eject_frees_self _ _ _ _ H) as [Hkept Hfreed].
  split; [| split; [| exact Hfreed]].
  2: { unfold player_kept in Hkept. injection Hkept. auto. }
  clear Hkept Hfreed. unfold avcodecdecode_eject in H.
  assert (K : keeps trace w w) by reflexivity.
  do 7 (match type of H with
        | (_ ≫= _) ?a = Some _ =>
            let Hs := fresh "Hs" in
            apply bind_Some in H as (? & ? & Hs & H);
            apply (step_inv_intro (keeps trace)) in Hs; [| dec_frame];
            match type of Hs with
            | keeps _ _ ?b =>
                let K' := fresh "K" in
                assert (K' : keeps trace w b)
                  by (etransitivity; [exact K | exact Hs]);
                clear K Hs; rename K' into K
            end
        end).
  apply bind_Some in H as ([] & wl & Hl & H).
  unfold lock_avc_mutex, emit in Hl. apply dec_modify_world_Some in Hl. subst wl.
  apply bind_Some in H as (v & w1 & Hv & H).
  apply (step_inv_intro (keeps trace)) in Hv; [| dec_frame].
  apply bind_Some in H as ([] & w2 & Hc & H).
  unfold avcodec_close in Hc.
  apply bind_Some in Hc as (cx & w3 & Hcx & Hc).
  apply (step_inv_intro (keeps trace)) in Hcx; [| dec_frame].
  apply bind_Some in Hc as ([] & w4 & He & Hc).
  unfold emit in He. apply dec_modify_world_Some in He. subst w4.
  apply (step_inv_intro (keeps trace)) in Hc; [| dec_frame].
  apply bind_Some in H as ([] & w5 & Hu & H).
  unfold unlock_avc_mutex, emit in Hu. apply dec_modify_world_Some in Hu. subst w5.
  apply (step_inv_intro (keeps trace)) in H; [| dec_frame].
  unfold keeps in *. cbn [trace set_trace] in *.
  rewrite H, Hc. cbn [trace set_trace]. rewrite Hcx, Hv. cbn [trace set_trace].
  rewrite K. rewrite <- !app_assoc. reflexivity.
Qed.

(** *** avcodecdecode_init: the seek *)

Section InitSeek.
Variable HAVE_SWRESAMPLE : bool.

(** Where [avcodecdecode_init] leaves the decoder in place, all the rest of
    the program has seen of the call is the seek to [seek_s] seconds, if one
    was asked for; [self->channels] is 1 for a mono stream and 2 for any
    other, and [self->drop] is 1.6 seconds after a seek in a Musepack stream
    and untouched otherwise. *)
Theorem avcodecdecode_init_seeks e w u w' v cx v' :
  self_vars w = Some v ->
  codec_at w (c v) = Some cx ->
  avcodecdecode_init HAVE_SWRESAMPLE e w = Some (u, w') ->
  self_vars w' = Some v' ->
  trace w' = trace w ++ (if seek_s (xl w) =? 0 then []
                         else [Seek (seek_s (xl w) * AV_TIME_BASE)]) /\
  channels v' = (if ctx_channels cx =? 1 then 1 else 2) /\
  drop v' = (if seek_s (xl w) =? 0 then drop v
             else match codec_id cx with
                  | CODEC_ID_MUSEPACK7 | CODEC_ID_MUSEPACK8 => f1_6
                  | CODEC_ID_OTHER => drop v
                  end).
Proof.
  intros Hv Hc H Hv'.
  destruct e as [mo se]. destruct w as [x m t].
  apply self_vars_Some in Hv as (hv & Hhv & Hv).
  apply codec_at_Some in Hc as (hi & i & ix & Hcv & Hi & Hcx).
  cbn [xl heap trace malloc_ok src_error] in *.
  EncoderFacts.on_prog H ltac:(fun E => unfold avcodecdecode_init in E).
  cbn [malloc_ok src_error] in H.
  drun H.
  all: unfold self_vars in Hv'.
  all: cbn -[lookup insert delete fresh dom Z.ltb Z.eqb Z.leb Z.land Z.lor
             Z.modulo Z.div Z.quot Z.pow Z.mul Z.add Z.sub Z.to_nat
             to_unsigned to_int SFltb CFloat.double_to_size_t
             CFloat.double_div CFloat.double_mul CFloat.double_add
             CFloat.double_of_int CFloat.float_of_int CFloat.float_div
             CFloat.float_sub f1_6] in Hv'.
  all: repeat match goal with
              | E : ?l = _ |- _ =>
                  tryif constr_eq E Hv' then fail
                  else lazymatch type of Hv' with
                       | context [l] => rewrite E in Hv'
                       end
              end.
  all: repeat first
         [ rewrite lookup_insert_eq in Hv'
         | rewrite lookup_insert_ne in Hv' by EncoderFacts.solve_neq ].
  all: try discriminate Hv'.
  all: injection Hv' as <-.
  all: cbn [trace]; rewrite ?app_nil_r.
  all: repeat split; reflexivity.
Qed.
End InitSeek.

(** A Musepack stream at the rate of the player, which is asked to start
    30 seconds in. *)
Definition musepack_context : AVCodecContext :=
  {| codec_id := CODEC_ID_MUSEPACK7; ctx_channels := 2; sample_rate := 44100;
     sample_fmt := AV_SAMPLE_FMT_S16; channel_layout := AV_CH_LAYOUT_STEREO;
     request_sample_fmt := AV_SAMPLE_FMT_NONE; request_channel_layout := 0;
     priv_data := None |}.

Definition reg_musepack : reg_env :=
  {| calloc_ok := true; fopen_ok := true; tag_read := [];
     chapter_scan := None; open_input_ret := 0;
     input_streams := [musepack_context]; find_stream_info_ret := 0;
     best_stream_ret := 0; best_stream_codec := {| codec_name := "mpc7" |};
     open2_ret := 0 |}.

Definition seeking_player : xlplayer :=
  {| dec_data := None; pathname := "track.mpc"; seek_s := 30;
     samplerate := 44100; rsqual := 0; src_state := None;
     src_data := demo_src_data; playmode := PM_OTHER; command := CMD_OTHER;
     write_deferred := 0; play_progress_ms := 0;
     dec_init := None; dec_play := None; dec_eject := None |}.

Definition w_seeking : world :=
  dec_after (avcodecdecode_reg false reg_musepack)
    {| xl := seeking_player; heap := ∅; trace := [] |}.

Lemma avcodecdecode_eject_guarded_witness :
  sync_events (trace (dec_after (avcodecdecode_eject false) w_registered))
  = sync_events (trace w_registered) ++ [EvLock; EvClose; EvUnlock].
Proof.
  assert (H : avcodecdecode_eject false w_registered
              = Some (tt, dec_after (avcodecdecode_eject false) w_registered))
    by (vm_compute; reflexivity).
  destruct (avcodecdecode_eject_guarded _ _ _ _ H) as [Ht _].
  rewrite Ht, dec_sync_events_app. reflexivity.
Defined.

Lemma avcodecdecode_init_seeks_witness :
  exists v',
    self_vars (dec_after (avcodecdecode_init false init_ok) w_seeking)
    = Some v' /\
    trace (dec_after (avcodecdecode_init false init_ok) w_seeking)
    = trace w_seeking ++ [Seek 30000000] /\
    channels v' = 2 /\ drop v' = f1_6.
Proof.
  assert (Hv : self_vars w_seeking
               = Some (default avcodecdecode_vars_zero (self_vars w_seeking)))
    by (vm_compute; reflexivity).
  assert (Hc : codec_at w_seeking
                 (c (default avcodecdecode_vars_zero (self_vars w_seeking)))
               = Some (default musepack_context
                         (codec_at w_seeking
                            (c (default avcodecdecode_vars_zero
                                  (self_vars w_seeking))))))
    by (vm_compute; reflexivity).
  assert (H : avcodecdecode_init false init_ok w_seeking
              = Some (tt, dec_after (avcodecdecode_init false init_ok)
                            w_seeking))
    by (vm_compute; reflexivity).
  assert (Hv' : self_vars (dec_after (avcodecdecode_init false init_ok)
                             w_seeking)
                = Some (default avcodecdecode_vars_zero
                          (self_vars (dec_after
                                        (avcodecdecode_init false init_ok)
                                        w_seeking))))
    by (vm_compute; reflexivity).
  destruct (avcodecdecode_init_seeks false _ _ _ _ _ _ _ Hv Hc H Hv')
    as (Ht & Hch & Hd).
  eexists. split; [exact Hv' |]. split; [exact Ht |].
  split; [exact Hch | exact Hd].
Defined.

End DecoderFacts.
